(** * lowercase_cpp_hpp_files.py: a shallow embedding

    The script renames every [.cpp]/[.hpp] file under a directory to its
    lowercase name, going through a temporary name, and can try to
    revert such a renaming in given directories.

    The embedding follows the script function by function and keeps its
    names.  What it takes from the outside is modelled as follows.

    - Python strings are [string]; file names are ASCII, so [str.lower],
      [str.upper] and [str.capitalize] act on the letters A-Z and a-z.
    - File contents are [list byte].
    - The file system is POSIX and case-sensitive: an ordered
      association list from path strings to nodes, a node being a
      regular file or a directory.  The order of the list is the order
      in which a directory is listed.  Paths are identified by their
      spelling, the one [os.path.join] builds from the directory handed
      to [os.walk]; there are no symbolic links.
    - [os.rename] replaces an existing regular file silently; the entry
      renamed keeps its place in the listing.
    - What the script cannot know is an [oracle]: the uuids drawn, the
      system calls the operating system refuses, the iteration order of
      a Python [set], the size of a directory.
    - The statements that can raise live in a small exception monad
      over the state of the world (file system, uuids drawn, lines
      printed); a [try] is a case analysis on the result.

    Of the two other scripts the parts that work on text are embedded
    after it: the text processing of [document_hydra_math_functions.py]
    and the table of [update_hydra_math_includes.py]. *)

From Stdlib Require Import String Ascii List Bool Arith ZArith Lia.
From Stdlib Require Import Strings.Byte.
From Stdlib Require Import Numbers.DecimalString Permutation Sorted.
Import ListNotations.
Open Scope string_scope.
Open Scope list_scope.
Open Scope nat_scope.

Set Implicit Arguments.

(* ================================================================= *)
(** ** Python string operations *)

Module Py.

(** [c.isupper()] and [c.islower()] for an ASCII character. *)
Definition is_upper (c : ascii) : bool :=
  (65 <=? nat_of_ascii c) && (nat_of_ascii c <=? 90).

Definition is_lower (c : ascii) : bool :=
  (97 <=? nat_of_ascii c) && (nat_of_ascii c <=? 122).

Definition lower_ascii (c : ascii) : ascii :=
  if is_upper c then ascii_of_nat (nat_of_ascii c + 32) else c.

Definition upper_ascii (c : ascii) : ascii :=
  if is_lower c then ascii_of_nat (nat_of_ascii c - 32) else c.

(** [s.lower()] *)
Fixpoint lower (s : string) : string :=
  match s with
  | EmptyString => EmptyString
  | String c r => String (lower_ascii c) (lower r)
  end.

(** [s.upper()] *)
Fixpoint upper (s : string) : string :=
  match s with
  | EmptyString => EmptyString
  | String c r => String (upper_ascii c) (upper r)
  end.

(** [s.capitalize()]: first character upper case, the rest lower case. *)
Definition capitalize (s : string) : string :=
  match s with
  | EmptyString => EmptyString
  | String c r => String (upper_ascii c) (lower r)
  end.

(** [s.startswith(p)] *)
Definition startswith (s p : string) : bool := String.prefix p s.

(** [s.endswith(p)] *)
Definition endswith (s p : string) : bool :=
  (String.length p <=? String.length s) &&
  String.eqb (substring (String.length s - String.length p) (String.length p) s) p.

(** [s.endswith((p1, p2, ...))] *)
Definition endswith_any (s : string) (ps : list string) : bool :=
  existsb (endswith s) ps.

(** [s.split(sep)] for a one-character separator. *)
Fixpoint split (sep : ascii) (s : string) : list string :=
  match s with
  | EmptyString => [EmptyString]
  | String c r =>
      if Ascii.eqb c sep then EmptyString :: split sep r
      else match split sep r with
           | h :: t => String c h :: t
           | [] => [String c EmptyString]
           end
  end.

(** [sep.join(l)] *)
Definition join (sep : string) (l : list string) : string := String.concat sep l.

(** [s.rfind(c)] for one character: [None] stands for [-1]. *)
Fixpoint rfind (c : ascii) (s : string) : option nat :=
  match s with
  | EmptyString => None
  | String a r =>
      match rfind c r with
      | Some i => Some (S i)
      | None => if Ascii.eqb a c then Some 0 else None
      end
  end.

(** [s[i:]] and [s[:i]] *)
Definition slice_from (i : nat) (s : string) : string :=
  substring i (String.length s - i) s.

Definition slice_to (i : nat) (s : string) : string := substring 0 i s.

(** [s.rstrip(c)] for one character. *)
Fixpoint rstrip (c : ascii) (s : string) : string :=
  match s with
  | EmptyString => EmptyString
  | String a r =>
      match rstrip c r with
      | EmptyString => if Ascii.eqb a c then EmptyString else String a EmptyString
      | r' => String a r'
      end
  end.

(** [c * n] *)
Fixpoint repeat_char (c : ascii) (n : nat) : string :=
  match n with
  | 0 => EmptyString
  | S k => String c (repeat_char c k)
  end.

(** [str(n)] for a natural number. *)
Definition str_of_nat (n : nat) : string := NilEmpty.string_of_uint (Nat.to_uint n).

(** [enumerate(l)] *)
Fixpoint enumerate_from {A : Type} (i : nat) (l : list A) : list (nat * A) :=
  match l with
  | [] => []
  | x :: r => (i, x) :: enumerate_from (S i) r
  end.

Definition enumerate {A : Type} (l : list A) : list (nat * A) := enumerate_from 0 l.

End Py.

(* ================================================================= *)
(** ** [os.path] (posixpath) *)

Module OsPath.

Definition sep : ascii := "/"%char.

(** [os.path.join(a, b)] *)
Definition join (a b : string) : string :=
  if Py.startswith b "/" then b
  else if (String.eqb a "") || Py.endswith a "/" then (a ++ b)%string
  else (a ++ "/" ++ b)%string.

(** Is there a character other than a dot in [p[lo:hi]]? *)
Fixpoint nondot_between (p : string) (lo hi : nat) : bool :=
  match p with
  | EmptyString => false
  | String c r =>
      match hi with
      | 0 => false
      | S hi' =>
          match lo with
          | 0 => negb (Ascii.eqb c ".") || nondot_between r 0 hi'
          | S lo' => nondot_between r lo' hi'
          end
      end
  end.

(** [os.path.splitext(p)]: the extension starts at the last dot of the
    last path component, leading dots of the component not counting. *)
Definition splitext (p : string) : string * string :=
  let filenameIndex := match Py.rfind sep p with Some i => S i | None => 0 end in
  match Py.rfind "." p with
  | Some dotIndex =>
      if (filenameIndex <=? dotIndex) && nondot_between p filenameIndex dotIndex
      then (Py.slice_to dotIndex p, Py.slice_from dotIndex p)
      else (p, EmptyString)
  | None => (p, EmptyString)
  end.

(** [os.path.dirname(p)] *)
Definition dirname (p : string) : string :=
  let i := match Py.rfind sep p with Some i => S i | None => 0 end in
  let head := Py.slice_to i p in
  if negb (String.eqb head "") &&
     negb (String.eqb head (Py.repeat_char sep (String.length head)))
  then Py.rstrip sep head
  else head.

End OsPath.

(* ================================================================= *)
(** ** The file system *)

(** A node is a regular file with its bytes, or a directory.  The file
    system lists every node under the spelling of its path; the order of
    the list is the order in which [os.scandir] reports the entries. *)
Inductive node : Type :=
| File (data : list byte)
| Dir.

Definition fsys : Type := list (string * node).

Module Fs.

Fixpoint lookup (p : string) (f : fsys) : option node :=
  match f with
  | [] => None
  | (k, n) :: r => if String.eqb k p then Some n else lookup p r
  end.

Definition remove_key (p : string) (f : fsys) : fsys :=
  filter (fun kn => negb (String.eqb (fst kn) p)) f.

(** The entry [src] takes the name [dst], in place (POSIX leaves the
    position of a renamed entry in the listing open). *)
Definition rekey (src dst : string) (f : fsys) : fsys :=
  map (fun kn => if String.eqb (fst kn) src then (dst, snd kn) else kn) f.

(** The directory [src] and everything below it move to [dst]. *)
Definition rekey_tree (src dst : string) (f : fsys) : fsys :=
  map (fun kn =>
         if String.eqb (fst kn) src then (dst, snd kn)
         else if String.prefix (src ++ "/") (fst kn)
              then ((dst ++ Py.slice_from (String.length src) (fst kn))%string, snd kn)
              else kn) f.

Definition has_child (d : string) (f : fsys) : bool :=
  existsb (fun kn => String.prefix (d ++ "/") (fst kn)) f.

Fixpoint contains_sep (s : string) : bool :=
  match s with
  | EmptyString => false
  | String c r => Ascii.eqb c OsPath.sep || contains_sep r
  end.

(** The name under which [k] is an entry of the directory [top], if it
    is one: [k] is [os.path.join(top, name)] for a one-component name. *)
Definition child_name (top k : string) : option string :=
  let pre := OsPath.join top "" in
  if String.prefix pre k then
    let name := Py.slice_from (String.length pre) k in
    if String.eqb name "" || contains_sep name then None else Some name
  else None.

(** [os.scandir(top)]: the entries of a directory, in listing order. *)
Fixpoint scandir (f : fsys) (top : string) : list (string * node) :=
  match f with
  | [] => []
  | (k, n) :: r =>
      match child_name top k with
      | Some name => (name, n) :: scandir r top
      | None => scandir r top
      end
  end.

Definition is_dir (n : node) : bool :=
  match n with Dir => true | File _ => false end.

Definition dirs_of (es : list (string * node)) : list string :=
  map fst (filter (fun e => is_dir (snd e)) es).

Definition nondirs_of (es : list (string * node)) : list string :=
  map fst (filter (fun e => negb (is_dir (snd e))) es).

(** The longest path of a directory: no walk goes deeper than that. *)
Fixpoint max_dir_len (f : fsys) : nat :=
  match f with
  | [] => 0
  | (k, Dir) :: r => Nat.max (String.length k) (max_dir_len r)
  | (_, File _) :: r => max_dir_len r
  end.

Definition walk_budget (f : fsys) (top : string) : nat :=
  S (max_dir_len f) - String.length top.

(** [os.walk(top)], top-down, on a file system that does not change
    during the walk: the triples [(root, dirs, files)] in the order they
    are yielded.  A [top] that is not a directory yields nothing. *)
Fixpoint walk_fuel (n : nat) (f : fsys) (top : string)
  : list (string * list string * list string) :=
  match n with
  | 0 => []
  | S n' =>
      match lookup top f with
      | Some Dir =>
          let es := scandir f top in
          (top, dirs_of es, nondirs_of es)
            :: flat_map (fun d => walk_fuel n' f (OsPath.join top d)) (dirs_of es)
      | _ => []
      end
  end.

Definition os_walk (f : fsys) (top : string) : list (string * list string * list string) :=
  walk_fuel (walk_budget f top) f top.

Fixpoint bytes_eqb (a b : list byte) : bool :=
  match a, b with
  | [], [] => true
  | x :: a', y :: b' => Byte.eqb x y && bytes_eqb a' b'
  | _, _ => false
  end.

End Fs.

Definition demo_tree : fsys :=
  [ ("/r", Dir); ("/r/Math", Dir); ("/r/Math/BigInt.hpp", File [x01; x02]);
    ("/r/readme.txt", File []); ("/r/lib", Dir); ("/r/lib/Z.CPP", File [x03]);
    ("/r/Math/detail", Dir); ("/r/Math/detail/a.cpp", File []) ].


(* ================================================================= *)
(** ** The world, exceptions and system calls *)

Inductive syscall : Type :=
| SysRename (src dst : string)
| SysRemove (p : string)
| SysStat (p : string)
| SysOpen (p : string).

(** What the script does not determine: the value of each
    [uuid.uuid4().hex], the system calls the operating system refuses
    (permissions, I/O errors), the iteration order of a [set] of strings,
    and the size [stat] reports for a directory. *)
Record oracle : Type := {
  uuid4_hex : nat -> string;
  denied : syscall -> bool;
  set_order : list string -> list string;
  dir_st_size : string -> nat }.

Record world : Type := {
  fs : fsys;
  uuid_count : nat;
  stdout : list string }.

Definition set_fs (f : fsys) (w : world) : world :=
  {| fs := f; uuid_count := uuid_count w; stdout := stdout w |}.

(** [print(s)] *)
Definition print (s : string) (w : world) : world :=
  {| fs := fs w; uuid_count := uuid_count w; stdout := stdout w ++ [s] |}.

(** Python exceptions: the [OSError]s of the system calls, and the
    [UnboundLocalError] of reading a local variable never assigned. *)
Inductive exn : Type :=
| OSError (errno : nat) (strerror : string) (filename : string) (filename2 : option string)
| UnboundLocalError (name : string).

(** [repr] of a file name without quotes, backslashes or control characters. *)
Definition repr (s : string) : string := ("'" ++ s ++ "'")%string.

(** [str(e)] *)
Definition str_exn (e : exn) : string :=
  match e with
  | OSError errno msg f1 None =>
      ("[Errno " ++ Py.str_of_nat errno ++ "] " ++ msg ++ ": " ++ repr f1)%string
  | OSError errno msg f1 (Some f2) =>
      ("[Errno " ++ Py.str_of_nat errno ++ "] " ++ msg ++ ": " ++ repr f1 ++ " -> " ++ repr f2)%string
  | UnboundLocalError x =>
      ("cannot access local variable " ++ repr x ++ " where it is not associated with a value")%string
  end.

Inductive result (A : Type) : Type :=
| Ok (a : A) (w : world)
| Raise (e : exn) (w : world).

Arguments Raise {A} e w.

(** Statements that may raise. *)
Definition M (A : Type) : Type := world -> result A.

Definition ret {A : Type} (a : A) : M A := fun w => Ok a w.

Definition bind {A B : Type} (m : M A) (k : A -> M B) : M B :=
  fun w => match m w with
           | Ok a w' => k a w'
           | Raise e w' => Raise e w'
           end.

Definition raise {A : Type} (e : exn) : M A := fun w => Raise e w.

Definition say (s : string) : M unit := fun w => Ok tt (print s w).

Declare Scope py_scope.
Delimit Scope py_scope with py.
Notation "x <- m ;; k" := (bind m (fun x => k))
  (at level 61, m at next level, right associativity) : py_scope.
Notation "m ;;; k" := (bind m (fun _ => k))
  (at level 61, right associativity) : py_scope.
Open Scope py_scope.

(** The world after a statement, whether it returned or raised. *)
Definition world_of {A : Type} (r : result A) : world :=
  match r with Ok _ w => w | Raise _ w => w end.

Section Script.

Variable O : oracle.

(** [uuid.uuid4().hex] *)
Definition uuid4 (w : world) : string * world :=
  (uuid4_hex O (uuid_count w),
   {| fs := fs w; uuid_count := S (uuid_count w); stdout := stdout w |}).

(** [os.path.exists(p)] (it never raises). *)
Definition os_path_exists (p : string) (w : world) : bool :=
  match Fs.lookup p (fs w) with Some _ => true | None => false end.

(** [os.path.isdir(p)] *)
Definition os_path_isdir (p : string) (w : world) : bool :=
  match Fs.lookup p (fs w) with Some Dir => true | _ => false end.

(** [os.rename(src, dst)], POSIX: an existing file at [dst] is replaced
    silently; the destination directory always exists here, for every
    destination of the script is a sibling of its source. *)
Definition os_rename (src dst : string) : M unit :=
  fun w =>
    if denied O (SysRename src dst)
    then Raise (OSError 13 "Permission denied" src (Some dst)) w
    else
      match Fs.lookup src (fs w) with
      | None => Raise (OSError 2 "No such file or directory" src (Some dst)) w
      | Some (File _) =>
          match Fs.lookup dst (fs w) with
          | Some Dir => Raise (OSError 21 "Is a directory" src (Some dst)) w
          | _ =>
              if String.eqb src dst then Ok tt w
              else Ok tt (set_fs (Fs.rekey src dst (Fs.remove_key dst (fs w))) w)
          end
      | Some Dir =>
          match Fs.lookup dst (fs w) with
          | Some (File _) => Raise (OSError 20 "Not a directory" src (Some dst)) w
          | Some Dir =>
              if String.eqb src dst then Ok tt w
              else if Fs.has_child dst (fs w)
                   then Raise (OSError 39 "Directory not empty" src (Some dst)) w
                   else Ok tt (set_fs (Fs.rekey_tree src dst (Fs.remove_key dst (fs w))) w)
          | None => Ok tt (set_fs (Fs.rekey_tree src dst (fs w)) w)
          end
      end.

(** [os.remove(p)] *)
Definition os_remove (p : string) : M unit :=
  fun w =>
    if denied O (SysRemove p) then Raise (OSError 13 "Permission denied" p None) w
    else
      match Fs.lookup p (fs w) with
      | None => Raise (OSError 2 "No such file or directory" p None) w
      | Some Dir => Raise (OSError 21 "Is a directory" p None) w
      | Some (File _) => Ok tt (set_fs (Fs.remove_key p (fs w)) w)
      end.

(** [os.path.getsize(p)] *)
Definition os_path_getsize (p : string) : M nat :=
  fun w =>
    if denied O (SysStat p) then Raise (OSError 13 "Permission denied" p None) w
    else
      match Fs.lookup p (fs w) with
      | None => Raise (OSError 2 "No such file or directory" p None) w
      | Some Dir => Ok (dir_st_size O p) w
      | Some (File d) => Ok (List.length d) w
      end.

(** [open(p, 'rb')]: the handle stands for the bytes it will read. *)
Definition open_rb (p : string) : M (list byte) :=
  fun w =>
    if denied O (SysOpen p) then Raise (OSError 13 "Permission denied" p None) w
    else
      match Fs.lookup p (fs w) with
      | None => Raise (OSError 2 "No such file or directory" p None) w
      | Some Dir => Raise (OSError 21 "Is a directory" p None) w
      | Some (File d) => Ok d w
      end.

(** [try: os.rename(a, b) except: pass] *)
Definition try_rename_pass (a b : string) (w : world) : world :=
  world_of (os_rename a b w).

(** The handlers' compensation:
    [if os.path.exists(temp_filepath): try: os.rename(temp_filepath, filepath) except: pass] *)
Definition restore (temp_filepath filepath : string) (w : world) : world :=
  if os_path_exists temp_filepath w then try_rename_pass temp_filepath filepath w else w.

(* ----------------------------------------------------------------- *)
(** *** [convert_to_lowercase]: first pass *)

(** [filename.lower().endswith(('.cpp', '.hpp'))] *)
Definition in_scope (filename : string) : bool :=
  Py.endswith_any (Py.lower filename) [".cpp"; ".hpp"].

(** The state of the collecting loops: the list [files_to_rename] and
    the local variable [lowercase_filename], unbound at first. *)
Definition collect_state : Type := list (string * string) * option string.

(** One turn of [for filename in files]. *)
Definition collect_file (root : string) (st : collect_state) (filename : string)
  : collect_state :=
  if in_scope filename then
    let filepath := OsPath.join root filename in
    let lowercase_filename := Py.lower filename in
    let lowercase_filepath := OsPath.join root lowercase_filename in
    if negb (String.eqb filename lowercase_filename)
    then (fst st ++ [(filepath, lowercase_filepath)], Some lowercase_filename)
    else (fst st, Some lowercase_filename)
  else st.

(** [root.startswith(exclude_dir)] for some [exclude_dir]. *)
Definition should_exclude (exclude_dirs : list string) (root : string) : bool :=
  existsb (fun exclude_dir => Py.startswith root exclude_dir) exclude_dirs.

(** One turn of [for root, _, files in os.walk(directory)]. *)
Definition collect_dir (exclude_dirs : list string) (st : collect_state)
  (y : string * list string * list string) : collect_state :=
  let '(root, _, files) := y in
  if should_exclude exclude_dirs root then st
  else fold_left (collect_file root) files st.

Definition first_pass (f : fsys) (directory : string) (exclude_dirs : list string)
  : collect_state :=
  fold_left (collect_dir exclude_dirs) (Fs.os_walk f directory) ([], None).

(* ----------------------------------------------------------------- *)
(** *** [convert_to_lowercase]: second pass *)

(** [f"temp_{uuid.uuid4().hex}{os.path.splitext(filepath)[1]}"] joined
    to the directory [dir]. *)
Definition fresh_path (kind : string) (dir : string) (like : string) (w : world)
  : string * world :=
  let '(u, w') := uuid4 w in
  (OsPath.join dir (kind ++ u ++ snd (OsPath.splitext like)), w').

(** Reading the local variable [lowercase_filename]. *)
Definition read_lowercase_filename (v : option string) : M string :=
  match v with
  | Some s => ret s
  | None => raise (UnboundLocalError "lowercase_filename")
  end.

(** Step 4 of the [try] body, when [backup_filepath] is set.  It returns
    after the [continue] of the identical case as after the renaming of
    the backup: both are followed by the same [renamed_files.append]. *)
Definition resolve_backup (lowercase_filename : option string)
  (filepath lowercase_filepath backup_filepath : string) : M unit :=
  size1 <- os_path_getsize backup_filepath ;;
  size2 <- os_path_getsize lowercase_filepath ;;
  identical <-
    (if size1 =? size2 then
       f1 <- open_rb backup_filepath ;;
       f2 <- open_rb lowercase_filepath ;;
       if Fs.bytes_eqb f1 f2 then
         os_remove backup_filepath ;;;
         say ("Renamed: " ++ filepath ++ " -> " ++ lowercase_filepath
              ++ " (identical to existing file)") ;;;
         ret true
       else ret false
     else ret false) ;;
  if (identical : bool) then ret tt
  else
    name <- read_lowercase_filename lowercase_filename ;;
    let alt_filename :=
      (fst (OsPath.splitext name) ++ "_alt" ++ snd (OsPath.splitext name))%string in
    let alt_filepath := OsPath.join (OsPath.dirname lowercase_filepath) alt_filename in
    os_rename backup_filepath alt_filepath ;;;
    say ("Renamed: " ++ filepath ++ " -> " ++ lowercase_filepath
         ++ " (kept existing as " ++ alt_filename ++ ")").

(** The [try] body after [temp_filepath] is computed: steps 1 to 4. *)
Definition rename_steps (lowercase_filename : option string)
  (filepath lowercase_filepath temp_filepath : string) : M unit :=
  os_rename filepath temp_filepath ;;;
  backup_filepath <-
    (fun w =>
       if os_path_exists lowercase_filepath w then
         let '(b, w') :=
           fresh_path "backup_" (OsPath.dirname lowercase_filepath) lowercase_filepath w in
         (os_rename lowercase_filepath b ;;; ret (Some b)) w'
       else ret None w) ;;
  os_rename temp_filepath lowercase_filepath ;;;
  match backup_filepath with
  | Some b => resolve_backup lowercase_filename filepath lowercase_filepath b
  | None => say ("Renamed: " ++ filepath ++ " -> " ++ lowercase_filepath)
  end.

(** The lists [renamed_files] and [skipped_files]. *)
Definition report : Type := list (string * string) * list (string * string).

(** One turn of [for filepath, lowercase_filepath in files_to_rename]:
    the [try] statement with its handler.  [temp_filepath] is assigned
    before any statement of the body that can raise, so the handler's
    test ['temp_filepath' in locals()] holds. *)
Definition apply_plan (lowercase_filename : option string)
  (st : report * world) (plan : string * string) : report * world :=
  let '((renamed_files, skipped_files), w) := st in
  let '(filepath, lowercase_filepath) := plan in
  let '(temp_filepath, w0) := fresh_path "temp_" (OsPath.dirname filepath) filepath w in
  match rename_steps lowercase_filename filepath lowercase_filepath temp_filepath w0 with
  | Ok _ w1 =>
      ((renamed_files ++ [(filepath, lowercase_filepath)], skipped_files), w1)
  | Raise e w1 =>
      let w2 := print ("ERROR: Failed to rename " ++ filepath ++ ": " ++ str_exn e) w1 in
      ((renamed_files, skipped_files ++ [(filepath, str_exn e)]),
       restore temp_filepath filepath w2)
  end.

Definition second_pass (lowercase_filename : option string)
  (files_to_rename : list (string * string)) (w : world) : report * world :=
  fold_left (apply_plan lowercase_filename) files_to_rename (([], []), w).

(** The two passes, lines 46 to 117 of the script. *)
Definition forward_pass (directory : string) (exclude_dirs : list string) (w : world)
  : report * world :=
  let '(files_to_rename, lowercase_filename) := first_pass (fs w) directory exclude_dirs in
  second_pass lowercase_filename files_to_rename w.

(* ----------------------------------------------------------------- *)
(** *** [revert_lowercase_conversion] *)

(** [case_map.get(key)] *)
Definition case_map (key : string) : option (list string) :=
  if String.eqb key "cpp" then Some ["CPP"; "Cpp"]
  else if String.eqb key "hpp" then Some ["HPP"; "Hpp"]
  else None.

(** [lambda s: s[0].upper() + s[1:] if s else s] *)
Definition pattern_first_upper (s : string) : string :=
  match s with
  | EmptyString => s
  | String c r => String (Py.upper_ascii c) r
  end.

(** [lambda s: s.upper()] *)
Definition pattern_upper (s : string) : string := Py.upper s.

(** [lambda s: ''.join(word if i == 0 else word.capitalize()
                        for i, word in enumerate(s.split('_')))] *)
Definition pattern_camel (s : string) : string :=
  Py.join "" (map (fun iw => if fst iw =? 0 then snd iw else Py.capitalize (snd iw))
                  (Py.enumerate (Py.split "_" s))).

(** [lambda s: ''.join(word.capitalize() for word in s.split('_'))] *)
Definition pattern_pascal (s : string) : string :=
  Py.join "" (map Py.capitalize (Py.split "_" s)).

Definition capitalization_patterns : list (string -> string) :=
  [pattern_first_upper; pattern_upper; pattern_camel; pattern_pascal].

(** [case_map.get(ext.lower(), [ext.upper(), ext.capitalize()])] *)
Definition potential_exts (ext : string) : list string :=
  match case_map (Py.lower ext) with
  | Some l => l
  | None => [Py.upper ext; Py.capitalize ext]
  end.

(** The list [potential_original_names] as the loops build it, before
    the duplicates are removed. *)
Definition build_potential_names (name ext : string) : list string :=
  let names :=
    fold_left
      (fun (acc : list string) (pattern : string -> string) =>
         let potential_name := pattern name in
         if negb (String.eqb potential_name name)
         then fold_left
                (fun (acc' : list string) (potential_ext : string) =>
                   acc' ++ [(potential_name ++ "." ++ potential_ext)%string])
                (potential_exts ext) acc
         else acc)
      capitalization_patterns [] in
  let names := names ++ [(Py.upper name ++ "." ++ ext)%string] in
  names ++ [(Py.capitalize name ++ "." ++ ext)%string].

(** [list(set(potential_original_names))] *)
Definition potential_original_names (name ext : string) : list string :=
  set_order O (build_potential_names name ext).

(** The files of [root] whose name differs from [filename] in case only,
    found by a new [os.walk(root)] of which only [root] itself is kept. *)
Definition similar_files (f : fsys) (root filename : string) : list string :=
  flat_map
    (fun y : string * list string * list string =>
       let '(root_dir, _, dir_files) := y in
       if negb (String.eqb root_dir root) then []
       else filter (fun dir_file =>
                      String.eqb (Py.lower dir_file) (Py.lower filename)
                      && negb (String.eqb dir_file filename))
                   dir_files)
    (Fs.os_walk f root).

(** The lists [reverted_files] with the world. *)
Definition revert_state : Type := list (string * string) * world.

(** The branch [if similar_files:]. *)
Definition revert_to_sibling (root filepath original_name : string)
  (st : revert_state) : revert_state :=
  let '(reverted_files, w) := st in
  let original_path := OsPath.join root original_name in
  let '(temp_filepath, w0) := fresh_path "temp_" root filepath w in
  match (os_rename filepath temp_filepath ;;; os_rename temp_filepath original_path) w0 with
  | Ok _ w1 =>
      (reverted_files ++ [(filepath, original_path)],
       print ("Reverted: " ++ filepath ++ " -> " ++ original_path) w1)
  | Raise e w1 =>
      (reverted_files,
       restore temp_filepath filepath
         (print ("ERROR: Failed to revert " ++ filepath ++ ": " ++ str_exn e) w1))
  end.

(** The branch [elif potential_original_names:], the loop
    [for original_name in potential_original_names] with its [continue]
    and its [break]. *)
Fixpoint try_candidates (root filepath : string) (candidates : list string)
  (st : revert_state) : revert_state :=
  match candidates with
  | [] => st
  | original_name :: rest =>
      let '(reverted_files, w) := st in
      let original_path := OsPath.join root original_name in
      if os_path_exists original_path w then try_candidates root filepath rest st
      else
        let '(temp_filepath, w0) := fresh_path "temp_" root filepath w in
        match (os_rename filepath temp_filepath ;;;
               os_rename temp_filepath original_path) w0 with
        | Ok _ w1 =>
            (reverted_files ++ [(filepath, original_path)],
             print ("Reverted: " ++ filepath ++ " -> " ++ original_path ++ " (best guess)") w1)
        | Raise e w1 =>
            try_candidates root filepath rest
              (reverted_files,
               restore temp_filepath filepath
                 (print ("ERROR: Failed to revert " ++ filepath ++ " to " ++ original_path
                         ++ ": " ++ str_exn e) w1))
        end
  end.

(** One turn of [for filename in files]. *)
Definition revert_file (root : string) (st : revert_state) (filename : string)
  : revert_state :=
  if in_scope filename then
    let filepath := OsPath.join root filename in
    if negb (String.eqb filename (Py.lower filename)) then st
    else
      let '(name, dot_ext) := OsPath.splitext filename in
      let ext := Py.slice_from 1 dot_ext in
      let candidates := potential_original_names name ext in
      match similar_files (fs (snd st)) root filename with
      | original_name :: _ => revert_to_sibling root filepath original_name st
      | [] => try_candidates root filepath candidates st
      end
  else st.

(** [for root, _, files in os.walk(directory)]: the walk is a generator,
    so each directory is listed when the walk reaches it, after the
    files of the directories before it were handled. *)
Fixpoint revert_walk (n : nat) (top : string) (st : revert_state) : revert_state :=
  match n with
  | 0 => st
  | S n' =>
      match Fs.lookup top (fs (snd st)) with
      | Some Dir =>
          let es := Fs.scandir (fs (snd st)) top in
          let st1 := fold_left (revert_file top) (Fs.nondirs_of es) st in
          fold_left (fun s d => revert_walk n' (OsPath.join top d) s) (Fs.dirs_of es) st1
      | _ => st
      end
  end.

Definition revert_lowercase_conversion (directory : string) (w : world) : revert_state :=
  revert_walk (Fs.walk_budget (fs w) directory) directory ([], w).

(* ----------------------------------------------------------------- *)
(** *** [convert_to_lowercase] and [main] *)

(** [for revert_dir in revert_dirs] *)
Definition revert_dir_step (st : revert_state) (revert_dir : string) : revert_state :=
  let '(reverted_files, w) := st in
  let '(more, w') :=
    revert_lowercase_conversion revert_dir
      (print ("Reverting changes in " ++ revert_dir ++ "...") w) in
  (reverted_files ++ more, w').

(** [convert_to_lowercase(directory, exclude_dirs, revert_dirs)] returns
    [(renamed_files, skipped_files, reverted_files)]. *)
Definition convert_to_lowercase (directory : string) (exclude_dirs revert_dirs : list string)
  (w : world)
  : (list (string * string) * list (string * string) * list (string * string)) * world :=
  let '(reverted_files, w1) := fold_left revert_dir_step revert_dirs ([], w) in
  let '((renamed_files, skipped_files), w2) := forward_pass directory exclude_dirs w1 in
  ((renamed_files, skipped_files, reverted_files), w2).

(** The loop [while i < len(sys.argv)] over the arguments from index 2;
    [inr] is the message printed before [sys.exit(1)]. *)
Fixpoint parse_args (args : list string) (exclude_dirs revert_dirs : list string)
  : (list string * list string) + string :=
  match args with
  | [] => inl (exclude_dirs, revert_dirs)
  | a :: rest =>
      match rest with
      | v :: rest' =>
          if String.eqb a "--exclude" then parse_args rest' (Py.split "," v) revert_dirs
          else if String.eqb a "--revert" then parse_args rest' exclude_dirs (Py.split "," v)
          else inr ("ERROR: Unknown argument " ++ a)%string
      | [] => inr ("ERROR: Unknown argument " ++ a)%string
      end
  end.

Definition nl : string := String (ascii_of_nat 10) EmptyString.

Definition print_pairs (title : string) (l : list (string * string)) (w : world) : world :=
  match l with
  | [] => w
  | _ => fold_left (fun w' p => print ("  " ++ fst p ++ " -> " ++ snd p) w') l
                   (print (nl ++ title) w)
  end.

Definition print_skipped (l : list (string * string)) (w : world) : world :=
  match l with
  | [] => w
  | _ => fold_left (fun w' p => print ("  " ++ fst p ++ " - Reason: " ++ snd p) w') l
                   (print (nl ++ "Skipped files:") w)
  end.

(** [main()] with [sys.argv = argv]; the result is the exit status. *)
Definition main (argv : list string) (w : world) : nat * world :=
  match argv with
  | prog :: directory :: args =>
      if negb (os_path_isdir directory w)
      then (1, print ("ERROR: " ++ directory ++ " is not a valid directory") w)
      else
        match parse_args args [] [] with
        | inr msg => (1, print msg w)
        | inl (exclude_dirs, revert_dirs) =>
            let lib_dir := OsPath.join directory "lib" in
            let default_lib :=
              match exclude_dirs, revert_dirs with
              | [], [] => os_path_isdir lib_dir w
              | _, _ => false
              end in
            let exclude_dirs := if default_lib then [lib_dir] else exclude_dirs in
            let w := if default_lib
                     then print ("Note: Automatically excluding " ++ lib_dir) w else w in
            let w :=
              match revert_dirs with
              | _ :: _ =>
                  print ("Reverting .cpp and .hpp filename conversions in: "
                         ++ Py.join ", " revert_dirs) w
              | [] =>
                  let w := print ("Converting .cpp and .hpp filenames to lowercase in "
                                  ++ directory) w in
                  match exclude_dirs with
                  | _ :: _ => print ("Excluding directories: " ++ Py.join ", " exclude_dirs) w
                  | [] => w
                  end
              end in
            let w := print (Py.repeat_char "=" 80) w in
            let '((renamed_files, skipped_files, reverted_files), w) :=
              convert_to_lowercase directory exclude_dirs revert_dirs w in
            let w := print (nl ++ "Summary:") w in
            let w := print ("- Total files renamed: "
                            ++ Py.str_of_nat (List.length renamed_files)) w in
            let w := print ("- Total files skipped: "
                            ++ Py.str_of_nat (List.length skipped_files)) w in
            let w := print ("- Total files reverted: "
                            ++ Py.str_of_nat (List.length reverted_files)) w in
            let w := print_pairs "Renamed files:" renamed_files w in
            let w := print_skipped skipped_files w in
            let w := print_pairs "Reverted files:" reverted_files w in
            (0, w)
        end
  | _ =>
      let prog := hd "" argv in
      let w := print ("Usage: " ++ prog
                      ++ " <directory> [--exclude dir1,dir2,...] [--revert dir1,dir2,...]") w in
      let w := print ("Example: " ++ prog
                      ++ " /Volumes/BIGCODE/hydra_sdk --exclude /Volumes/BIGCODE/hydra_sdk/lib") w in
      let w := print ("Example: " ++ prog
                      ++ " /Volumes/BIGCODE/hydra_sdk --revert /Volumes/BIGCODE/hydra_sdk/lib") w in
      (1, w)
  end.

End Script.

(* ================================================================= *)
(** ** A quiet world for examples *)

(** Thirty-two hexadecimal digits, different for different draws. *)
Definition hex32 (n : nat) : string :=
  let d := Py.str_of_nat n in
  (Py.repeat_char "0" (32 - String.length d) ++ d)%string.

(** No system call is refused; a set is listed in the order of the last
    occurrence of its elements. *)
Definition quiet : oracle :=
  {| uuid4_hex := hex32;
     denied := fun _ => false;
     set_order := nodup string_dec;
     dir_st_size := fun _ => 4096 |}.

(** The same, with a set listed the other way round. *)
Definition quiet_rev : oracle :=
  {| uuid4_hex := hex32;
     denied := fun _ => false;
     set_order := fun l => rev (nodup string_dec l);
     dir_st_size := fun _ => 4096 |}.

(** A world where the system calls in [bad] are refused. *)
Definition refusing (bad : list syscall) : oracle :=
  {| uuid4_hex := hex32;
     denied := fun c =>
       existsb (fun b =>
                  match b, c with
                  | SysRename a1 b1, SysRename a2 b2 => String.eqb a1 a2 && String.eqb b1 b2
                  | SysRemove a1, SysRemove a2 => String.eqb a1 a2
                  | SysStat a1, SysStat a2 => String.eqb a1 a2
                  | SysOpen a1, SysOpen a2 => String.eqb a1 a2
                  | _, _ => false
                  end) bad;
     set_order := nodup string_dec;
     dir_st_size := fun _ => 4096 |}.

Definition boot (f : fsys) : world := {| fs := f; uuid_count := 0; stdout := [] |}.

(** The set order the script may meet: every element once, none added. *)
Definition set_like (order : list string -> list string) : Prop :=
  forall l, NoDup (order l) /\ (forall x, In x (order l) <-> In x l).

(* ================================================================= *)
(** ** Notions the properties are stated with *)

(** The plan the first pass makes for the file [filename] of the
    directory [root]: one when the name is in scope and not lowercase. *)
Definition plan_of (root filename : string) : list (string * string) :=
  if in_scope filename && negb (String.eqb filename (Py.lower filename))
  then [(OsPath.join root filename, OsPath.join root (Py.lower filename))]
  else [].

(** The plans one walked directory contributes. *)
Definition dir_plans (exclude_dirs : list string) (y : string * list string * list string)
  : list (string * string) :=
  if should_exclude exclude_dirs (fst (fst y)) then []
  else flat_map (plan_of (fst (fst y))) (snd y).

(** A normalized tree: every [.cpp]/[.hpp] file the walk of [directory]
    meets has a lowercase name. *)
Definition normalizedb (f : fsys) (directory : string) : bool :=
  forallb (fun y : string * list string * list string =>
             forallb (fun filename =>
                        negb (in_scope filename) || String.eqb filename (Py.lower filename))
                     (snd y))
          (Fs.os_walk f directory).

(** [os.path.basename(p)] *)
Definition basename (p : string) : string :=
  Py.slice_from (match Py.rfind OsPath.sep p with Some i => S i | None => 0 end) p.

(** A set listed in the order of the first occurrence of its elements. *)
Definition dedup_first (l : list string) : list string :=
  rev (nodup string_dec (rev l)).

(** A quiet world where a set keeps the order of construction. *)
Definition quiet_first : oracle :=
  {| uuid4_hex := hex32;
     denied := fun _ => false;
     set_order := dedup_first;
     dir_st_size := fun _ => 4096 |}.

(** A world where every system call is refused. *)
Definition refusing_all : oracle :=
  {| uuid4_hex := hex32;
     denied := fun _ => true;
     set_order := dedup_first;
     dir_st_size := fun _ => 4096 |}.

(** The guesses the revert pass tries for the file [filename] of
    [root], in the order it tries them: the first similar file alone
    when there is one, the guessed names otherwise. *)
Definition guesses_tried (O : oracle) (f : fsys) (root filename : string) : list string :=
  match similar_files f root filename with
  | original_name :: _ => [original_name]
  | [] =>
      potential_original_names O (fst (OsPath.splitext filename))
        (Py.slice_from 1 (snd (OsPath.splitext filename)))
  end.

(** The sequence of guesses in the words of the specification: the
    sibling that matches without regard to case, if any, then the four
    transforms in their order, each with the uppercase and the
    title-case extension. *)
Definition spec_guess_sequence (f : fsys) (root filename : string) : list string :=
  let name := fst (OsPath.splitext filename) in
  let ext := Py.slice_from 1 (snd (OsPath.splitext filename)) in
  firstn 1 (similar_files f root filename)
  ++ flat_map (fun pattern : string -> string =>
                 map (fun e => (pattern name ++ "." ++ e)%string)
                     [Py.upper ext; Py.capitalize ext])
              capitalization_patterns.

(** The guesses as the loops of the script build them, transform by
    transform. *)
Definition guesses_of_pattern (name ext : string) (pattern : string -> string)
  : list string :=
  if String.eqb (pattern name) name then []
  else map (fun e => (pattern name ++ "." ++ e)%string) (potential_exts ext).

(** The path is in the skipped category of the result of a run. *)
Definition reported_skipped (path : string)
  (result : (list (string * string) * list (string * string) * list (string * string)) * world)
  : Prop :=
  In path (map fst (snd (fst (fst result)))).

Definition libfoo_tree : fsys :=
  [ ("/src", Dir); ("/src/lib", Dir); ("/src/libfoo", Dir);
    ("/src/lib/A.cpp", File [x01]); ("/src/libfoo/B.cpp", File [x02]);
    ("/src/C.cpp", File [x03]) ].


(** The paths a plan can touch: its source, its destination, a
    temporary name, a backup name, the alternate name. *)
Definition touchable (O : oracle) (lf : option string) (plan : string * string)
  (k : string) : Prop :=
  k = fst plan \/ k = snd plan \/
  (exists n, k = OsPath.join (OsPath.dirname (fst plan))
                   ("temp_" ++ uuid4_hex O n ++ snd (OsPath.splitext (fst plan)))) \/
  (exists n, k = OsPath.join (OsPath.dirname (snd plan))
                   ("backup_" ++ uuid4_hex O n ++ snd (OsPath.splitext (snd plan)))) \/
  (exists name, lf = Some name /\
                k = OsPath.join (OsPath.dirname (snd plan))
                      (fst (OsPath.splitext name) ++ "_alt" ++ snd (OsPath.splitext name))).

(** The file system [f'] is [f] outside the paths of [T], and has no
    directory that [f] has not. *)
Definition frame (T : string -> Prop) (f f' : fsys) : Prop :=
  (forall k, ~ T k -> Fs.lookup k f' = Fs.lookup k f) /\
  (forall k, Fs.lookup k f' = Some Dir -> Fs.lookup k f = Some Dir).

(** No path of [T] is a directory. *)
Definition no_dir_in (T : string -> Prop) (f : fsys) : Prop :=
  forall k, T k -> Fs.lookup k f <> Some Dir.

(** A statement that changes the file system within [T] only. *)
Definition framed (T : string -> Prop) {A : Type} (m : M A) : Prop :=
  forall w, no_dir_in T (fs w) -> frame T (fs w) (fs (world_of (m w))).

(** The paths some plan of a batch can touch. *)
Definition touchable_by (O : oracle) (lf : option string) (all : list (string * string))
  (k : string) : Prop :=
  exists plan, In plan all /\ touchable O lf plan k.

(** Does the character occur in the string? *)
Definition has_char (c : ascii) (s : string) : bool :=
  match Py.rfind c s with Some _ => true | None => false end.

(** The temporary paths the revert pass can give the file [filepath] of
    [root], one for every uuid. *)
Definition temp_of (O : oracle) (root filepath k : string) : Prop :=
  exists n, k = OsPath.join root ("temp_" ++ uuid4_hex O n ++ snd (OsPath.splitext filepath)).

(* ================================================================= *)
(** ** [document_hydra_math_functions.py]

    The part of [document_functions] that works on the text of one
    file (lines 82-141): the parameters of a declaration, the comment
    generated for it, the test for a comment already there, and the
    insertion of the comment.  The declarations are found by a regular
    expression; what it matched is taken as given, match by match.  The
    text is ASCII. *)

Module Doc.

(** [c.isspace()] for an ASCII character. *)
Definition is_space (c : ascii) : bool :=
  let n := nat_of_ascii c in
  ((9 <=? n) && (n <=? 13)) || ((28 <=? n) && (n <=? 32)).

(** [s.lstrip()], [s.rstrip()] and [s.strip()] *)
Fixpoint lstrip (s : string) : string :=
  match s with
  | EmptyString => EmptyString
  | String c r => if is_space c then lstrip r else s
  end.

Fixpoint rstrip (s : string) : string :=
  match s with
  | EmptyString => EmptyString
  | String c r =>
      match rstrip r with
      | EmptyString => if is_space c then EmptyString else String c EmptyString
      | r' => String c r'
      end
  end.

Definition strip (s : string) : string := lstrip (rstrip s).

(** [s.split()]: the words between the runs of whitespace; [cur] is the
    word being read. *)
Fixpoint split_words (cur s : string) : list string :=
  match s with
  | EmptyString => if String.eqb cur "" then [] else [cur]
  | String c r =>
      if is_space c
      then (if String.eqb cur "" then split_words "" r else cur :: split_words "" r)
      else split_words (cur ++ String c "") r
  end.

Definition split_ws (s : string) : list string := split_words "" s.

(** [s.replace(c, "")] for one character. *)
Fixpoint remove_char (c : ascii) (s : string) : string :=
  match s with
  | EmptyString => EmptyString
  | String a r => if Ascii.eqb a c then remove_char c r else String a (remove_char c r)
  end.

(** [sub in s] *)
Fixpoint contains (sub s : string) : bool :=
  String.prefix sub s ||
  match s with
  | EmptyString => false
  | String _ r => contains sub r
  end.

(** [s.count(c)] for one character. *)
Fixpoint count_char (c : ascii) (s : string) : nat :=
  match s with
  | EmptyString => 0
  | String a r => (if Ascii.eqb a c then 1 else 0) + count_char c r
  end.

(** [l[-1]]; [None] stands for the [IndexError] of an empty list. *)
Definition last_item {A : Type} (l : list A) : option A :=
  match rev l with
  | [] => None
  | x :: _ => Some x
  end.

(** [l.insert(i, x)] for [i >= 0]: past the end it appends. *)
Definition list_insert {A : Type} (i : nat) (x : A) (l : list A) : list A :=
  firstn i l ++ x :: skipn i l.

(** The exception the text processing can raise. *)
Inductive error : Type :=
| IndexError.

(** [str(e)] *)
Definition str_error (e : error) : string :=
  match e with
  | IndexError => "list index out of range"
  end.

(** One turn of [for char in params_str] (lines 105-114), on
    [(params, current_param, bracket_count)]. *)
Definition param_step (st : list string * string * Z) (char : ascii)
  : list string * string * Z :=
  let '(params, current_param, bracket_count) := st in
  if Ascii.eqb char "," && Z.eqb bracket_count 0
  then (params ++ [strip current_param], EmptyString, bracket_count)
  else
    let current_param := (current_param ++ String char EmptyString)%string in
    let bracket_count :=
      if Ascii.eqb char "<" then (bracket_count + 1)%Z
      else if Ascii.eqb char ">" then (bracket_count - 1)%Z
      else bracket_count in
    (params, current_param, bracket_count).

(** The parameters of a declaration (lines 100-116). *)
Definition parse_parameters (params_str : string) : list string :=
  if String.eqb params_str "" then []
  else
    let '(params, current_param, _) :=
      fold_left param_step (list_ascii_of_string params_str) ([], EmptyString, 0%Z) in
    if String.eqb current_param "" then params
    else params ++ [strip current_param].

(** [for param in params] of [generate_documentation] (lines 39-41). *)
Fixpoint document_params (doc : string) (params : list string) : string + error :=
  match params with
  | [] => inl doc
  | param :: rest =>
      match last_item (split_ws (strip param)) with
      | None => inr IndexError
      | Some word =>
          let param_name := remove_char "*" (remove_char "&" word) in
          document_params
            (doc ++ " * @param " ++ param_name ++ " Description of " ++ param_name ++ nl)
            rest
      end
  end.

(** [generate_documentation(func_name, params, return_type)] *)
Definition generate_documentation (func_name : string) (params : list string)
  (return_type : string) : string + error :=
  let doc := ("/**" ++ nl)%string in
  let doc := (doc ++ " * @brief " ++ func_name ++ nl)%string in
  let doc := (doc ++ " *" ++ nl)%string in
  match document_params doc params with
  | inr e => inr e
  | inl doc =>
      let doc :=
        if negb (String.eqb return_type "") && negb (String.eqb (strip return_type) "void")
        then (doc ++ " *" ++ nl ++ " * @return Description of return value" ++ nl)%string
        else doc in
      inl (doc ++ " */" ++ nl)%string
  end.

(** The test for a comment in the five lines above (lines 122-126). *)
Definition has_doc (lines : list string) (func_start_line : nat) : bool :=
  existsb (fun i => (i <? List.length lines)
                    && (contains "/**" (nth i lines "") || contains "///" (nth i lines "")))
          (seq (func_start_line - 5) (func_start_line - (func_start_line - 5))).

(** A match of [func_pattern]: its three groups and where it starts. *)
Record rmatch : Type := {
  group1 : string;
  group2 : string;
  group3 : string;
  mstart : nat }.

(** [content[:match.start()].count('\n')] *)
Definition func_start_line (content : string) (m : rmatch) : nat :=
  count_char (ascii_of_nat 10) (Py.slice_to (mstart m) content).

(** The constructors and destructors passed over (lines 95-97). *)
Definition is_ctor_or_dtor (filename : string) (m : rmatch) : bool :=
  let func_name := strip (group2 m) in
  Py.startswith func_name "~" || String.eqb func_name (hd "" (Py.split "." filename)).

(** [modified_lines], [changes_made] and the lines printed. *)
Definition doc_state : Type := list string * bool * list string.

(** One turn of [for match in matches] (lines 89-137). *)
Definition document_match (filename filepath content : string) (lines : list string)
  (st : doc_state) (m : rmatch) : doc_state + error :=
  let '(modified_lines, changes_made, out) := st in
  let return_type := strip (group1 m) in
  let func_name := strip (group2 m) in
  let params_str := strip (group3 m) in
  if is_ctor_or_dtor filename m then inl st
  else
    let params := parse_parameters params_str in
    if has_doc lines (func_start_line content m) then inl st
    else
      match generate_documentation func_name params return_type with
      | inr e => inr e
      | inl doc =>
          inl (list_insert (func_start_line content m) (rstrip doc) modified_lines,
               true,
               out ++ [("In " ++ filepath ++ ":")%string;
                       ("  Adding documentation for function: " ++ func_name)%string])
      end.

(** [for match in matches], an exception ending the loop. *)
Fixpoint document_matches (filename filepath content : string) (lines : list string)
  (matches : list rmatch) (st : doc_state) : doc_state + error :=
  match matches with
  | [] => inl st
  | m :: rest =>
      match document_match filename filepath content lines st m with
      | inr e => inr e
      | inl st' => document_matches filename filepath content lines rest st'
      end
  end.

(** Lines 82-137 for the text [content] of the file and the matches
    found in it. *)
Definition document_content (filename filepath content : string) (matches : list rmatch)
  : doc_state + error :=
  let lines := Py.split (ascii_of_nat 10) content in
  document_matches filename filepath content lines matches (lines, false, []).

End Doc.

(** The declarations that get a comment: neither a constructor nor a
    destructor, and no comment seen above. *)
Definition gets_comment (filename content : string) (m : Doc.rmatch) : bool :=
  negb (Doc.is_ctor_or_dtor filename m)
  && negb (Doc.has_doc (Py.split (ascii_of_nat 10) content) (Doc.func_start_line content m)).

(** The line numbers at which the comments of the matches are inserted. *)
Definition insert_positions (filename content : string) (matches : list Doc.rmatch)
  : list nat :=
  map (Doc.func_start_line content) (filter (gets_comment filename content) matches).

(* ================================================================= *)
(** ** [update_hydra_math_includes.py]: the table of the headers *)

Module Includes.

(** [header_map]: the capitalized header names and the names that
    replace them in the include statements. *)
Definition header_map : list (string * string) :=
  [("BigInt.hpp", "bigint.hpp");
   ("BKZ.hpp", "bkz.hpp");
   ("ComplexMatrix.hpp", "complexmatrix.hpp");
   ("GaloisVector.hpp", "galoisvector.hpp");
   ("Huffman.hpp", "huffman.hpp");
   ("LatticeUtils.hpp", "latticeutils.hpp");
   ("LatticeSolver.hpp", "latticesolver.hpp");
   ("LLL.hpp", "lll.hpp");
   ("MatrixUtils.hpp", "matrixutils.hpp");
   ("Modular.hpp", "modular.hpp");
   ("Pedersen.hpp", "pedersen.hpp");
   ("Rational.hpp", "rational.hpp");
   ("Shamir.hpp", "shamir.hpp")].

End Includes.

(* ################################################################# *)
(** * Lemmas *)

(* ================================================================= *)
(** ** Lemmas on the file system *)

Unset Implicit Arguments.

Section FsFacts.

Lemma lookup_in (p : string) (f : fsys) (n : node) :
  Fs.lookup p f = Some n -> In (p, n) f.
Proof.
  induction f as [|[k m] r IH]; simpl; [discriminate|].
  destruct (String.eqb_spec k p) as [->|Hne].
  - intros [= ->]. now left.
  - intros H. right. auto.
Qed.

Lemma lookup_remove_key (k p : string) (f : fsys) :
  Fs.lookup k (Fs.remove_key p f) = if String.eqb k p then None else Fs.lookup k f.
Proof.
  induction f as [|[a m] r IH]; simpl.
  - now destruct (String.eqb k p).
  - destruct (String.eqb_spec a p) as [->|Hap]; simpl.
    + rewrite IH. destruct (String.eqb_spec k p) as [->|Hkp]; [reflexivity|].
      destruct (String.eqb_spec p k); [congruence|reflexivity].
    + rewrite IH. destruct (String.eqb_spec a k) as [->|Hak].
      * destruct (String.eqb_spec k p); [congruence|reflexivity].
      * reflexivity.
Qed.

Lemma lookup_rekey (k src dst : string) (f : fsys) :
  Fs.lookup dst f = None ->
  Fs.lookup k (Fs.rekey src dst f) =
    if String.eqb k dst then Fs.lookup src f
    else if String.eqb k src then None else Fs.lookup k f.
Proof.
  induction f as [|[a m] r IH]; simpl.
  - intros _. destruct (String.eqb k dst), (String.eqb k src); reflexivity.
  - destruct (String.eqb_spec a dst) as [->|Had]; [discriminate|].
    intros Hd. specialize (IH Hd). rewrite (String.eqb_sym k dst), (String.eqb_sym k src).
    rewrite (String.eqb_sym k dst), (String.eqb_sym k src) in IH.
    destruct (String.eqb_spec a src) as [->|Has]; simpl.
    + destruct (String.eqb_spec dst k) as [->|Hdk]; [reflexivity|].
      rewrite IH. now destruct (String.eqb_spec src k).
    + destruct (String.eqb_spec a k) as [->|Hak]; [|exact IH].
      destruct (String.eqb_spec dst k); [congruence|].
      destruct (String.eqb_spec src k); [congruence|reflexivity].
Qed.

Lemma max_dir_len_ge (k : string) (f : fsys) :
  In (k, Dir) f -> String.length k <= Fs.max_dir_len f.
Proof.
  induction f as [|[a m] r IH]; simpl; [tauto|].
  intros [H|H].
  - injection H as -> ->. lia.
  - specialize (IH H). destruct m; lia.
Qed.

End FsFacts.

(* ================================================================= *)
(** ** Lemmas on paths and on the walk *)

Section WalkFacts.

Lemma append_empty_r (s : string) : (s ++ "")%string = s.
Proof. induction s; simpl; congruence. Qed.

Lemma append_assoc (a b c : string) : ((a ++ b) ++ c)%string = (a ++ (b ++ c))%string.
Proof. induction a; simpl; congruence. Qed.

Lemma length_append (a b : string) :
  String.length (a ++ b) = String.length a + String.length b.
Proof. induction a; simpl; congruence. Qed.

Lemma substring_all (s : string) : substring 0 (String.length s) s = s.
Proof. induction s; simpl; congruence. Qed.

Lemma prefix_split (p s : string) :
  String.prefix p s = true -> s = (p ++ Py.slice_from (String.length p) s)%string.
Proof.
  revert s. induction p as [|c p IH]; intros s; simpl.
  - intros _. unfold Py.slice_from. rewrite Nat.sub_0_r. now rewrite substring_all.
  - destruct s as [|d s]; simpl; [discriminate|].
    destruct (Ascii.ascii_dec c d) as [->|]; [|discriminate].
    intros H. unfold Py.slice_from. simpl.
    rewrite (IH s H) at 1. reflexivity.
Qed.

Lemma no_sep_no_slash_start (name : string) :
  Fs.contains_sep name = false -> Py.startswith name "/" = false.
Proof.
  unfold Py.startswith. destruct name as [|c r]; [reflexivity|].
  cbn [Fs.contains_sep String.prefix]. intros H. apply orb_false_elim in H as [H _].
  destruct (Ascii.ascii_dec "/" c) as [<-|]; [discriminate H|].
  reflexivity.
Qed.

(** Joining a one-component name: the directory, a separator when it
    is needed, and the name. *)
Lemma join_child (top name : string) :
  Fs.contains_sep name = false ->
  OsPath.join top name = (OsPath.join top "" ++ name)%string.
Proof.
  intros H. unfold OsPath.join. rewrite (no_sep_no_slash_start _ H).
  simpl (Py.startswith "" "/").
  destruct (String.eqb top "" || Py.endswith top "/").
  - now rewrite append_empty_r.
  - now rewrite !append_assoc.
Qed.

Lemma join_child_longer (top name : string) :
  Fs.contains_sep name = false -> name <> "" ->
  String.length top < String.length (OsPath.join top name).
Proof.
  intros H Hne. destruct name as [|c r]; [congruence|].
  unfold OsPath.join. rewrite (no_sep_no_slash_start _ H).
  destruct (String.eqb top "" || Py.endswith top "/");
    rewrite !length_append; simpl; lia.
Qed.

Lemma child_name_spec (top k name : string) :
  Fs.child_name top k = Some name ->
  k = OsPath.join top name /\ name <> "" /\ Fs.contains_sep name = false.
Proof.
  unfold Fs.child_name.
  destruct (String.prefix (OsPath.join top "") k) eqn:Hp; [|discriminate].
  destruct (String.eqb_spec (Py.slice_from (String.length (OsPath.join top "")) k) "")
    as [|Hne]; simpl; [discriminate|].
  destruct (Fs.contains_sep _) eqn:Hs; [discriminate|].
  intros [= <-]. repeat split; trivial.
  rewrite (join_child _ _ Hs). now apply prefix_split.
Qed.

Lemma scandir_in (f : fsys) (top name : string) (nd : node) :
  In (name, nd) (Fs.scandir f top) ->
  In (OsPath.join top name, nd) f /\ name <> "" /\ Fs.contains_sep name = false.
Proof.
  induction f as [|[k m] r IH]; simpl; [tauto|].
  destruct (Fs.child_name top k) as [nm|] eqn:Hc.
  - intros [H|H].
    + injection H as -> ->. destruct (child_name_spec _ _ _ Hc) as (-> & ? & ?). auto.
    + destruct (IH H) as (? & ? & ?). auto.
  - intros H. destruct (IH H) as (? & ? & ?). auto.
Qed.

Lemma dirs_of_in (es : list (string * node)) (d : string) :
  In d (Fs.dirs_of es) -> In (d, Dir) es.
Proof.
  unfold Fs.dirs_of. rewrite in_map_iff. intros ([n m] & <- & H).
  apply filter_In in H as [H Hd]. simpl in *. destruct m; [discriminate|exact H].
Qed.

Lemma nondirs_of_in (es : list (string * node)) (x : string) :
  In x (Fs.nondirs_of es) -> exists d, In (x, File d) es.
Proof.
  unfold Fs.nondirs_of. rewrite in_map_iff. intros ([n m] & <- & H).
  apply filter_In in H as [H Hd]. simpl in *. destruct m; [eauto|discriminate].
Qed.

Lemma flat_map_agree {A B : Type} (g h : A -> list B) (l : list A) :
  (forall a, In a l -> g a = h a) -> flat_map g l = flat_map h l.
Proof.
  induction l as [|a l IH]; simpl; intros H; [reflexivity|].
  rewrite (H a) by now left. rewrite IH; [reflexivity|]. intros b Hb. apply H. now right.
Qed.

Lemma walk_fuel_zero_budget (m : nat) (f : fsys) (top : string) :
  Fs.walk_budget f top = 0 -> Fs.walk_fuel m f top = [].
Proof.
  unfold Fs.walk_budget. intros Hb. destruct m; simpl; [reflexivity|].
  destruct (Fs.lookup top f) as [[|]|] eqn:Hl; trivial.
  apply lookup_in, max_dir_len_ge in Hl. lia.
Qed.

(** The fuel of [os_walk] is enough: more fuel walks the same way, so
    [os_walk] stops because the tree ends and never because the fuel
    does. *)
Lemma walk_fuel_enough (n m : nat) (f : fsys) (top : string) :
  Fs.walk_budget f top <= n -> Fs.walk_budget f top <= m ->
  Fs.walk_fuel n f top = Fs.walk_fuel m f top.
Proof.
  revert m top. induction n as [|n IH]; intros m top Hn Hm.
  - rewrite (walk_fuel_zero_budget m f top) by lia. reflexivity.
  - destruct m as [|m].
    + rewrite (walk_fuel_zero_budget (S n) f top) by lia. reflexivity.
    + simpl. destruct (Fs.lookup top f) as [[|]|] eqn:Hl; trivial.
      f_equal. apply flat_map_agree. intros d Hd.
      apply dirs_of_in, scandir_in in Hd as (Hin & Hne & Hs).
      pose proof (max_dir_len_ge _ _ Hin).
      pose proof (join_child_longer top _ Hs Hne).
      unfold Fs.walk_budget in *. apply IH; lia.
Qed.

Lemma os_walk_any_fuel (n : nat) (f : fsys) (top : string) :
  Fs.walk_budget f top <= n -> Fs.walk_fuel n f top = Fs.os_walk f top.
Proof. intros H. unfold Fs.os_walk. now apply walk_fuel_enough. Qed.

End WalkFacts.

(* ================================================================= *)
(** ** The forward pass: plans and reports *)

Section ForwardFacts.

Variable O : oracle.

Lemma collect_file_plans (root : string) (st : collect_state) (filename : string) :
  fst (collect_file root st filename) = fst st ++ plan_of root filename.
Proof.
  unfold collect_file, plan_of. destruct (in_scope filename); simpl.
  - destruct (String.eqb filename (Py.lower filename)); simpl; [now rewrite app_nil_r|reflexivity].
  - now rewrite app_nil_r.
Qed.

Lemma fold_collect_file_plans (root : string) (files : list string) (st : collect_state) :
  fst (fold_left (collect_file root) files st) = fst st ++ flat_map (plan_of root) files.
Proof.
  revert st. induction files as [|x files IH]; intros st; simpl.
  - now rewrite app_nil_r.
  - rewrite IH, collect_file_plans. now rewrite <- app_assoc.
Qed.

Lemma collect_dir_plans (exclude_dirs : list string) (st : collect_state)
  (y : string * list string * list string) :
  fst (collect_dir exclude_dirs st y) = fst st ++ dir_plans exclude_dirs y.
Proof.
  destruct y as [[root dirs] files]. unfold collect_dir, dir_plans. simpl.
  destruct (should_exclude exclude_dirs root).
  - now rewrite app_nil_r.
  - apply fold_collect_file_plans.
Qed.

Lemma fold_collect_dir_plans (exclude_dirs : list string)
  (ys : list (string * list string * list string)) (st : collect_state) :
  fst (fold_left (collect_dir exclude_dirs) ys st)
  = fst st ++ flat_map (dir_plans exclude_dirs) ys.
Proof.
  revert st. induction ys as [|y ys IH]; intros st; simpl.
  - now rewrite app_nil_r.
  - rewrite IH, collect_dir_plans. now rewrite <- app_assoc.
Qed.

(** [files_to_rename], directory by directory, file by file. *)
Lemma first_pass_plans (f : fsys) (directory : string) (exclude_dirs : list string) :
  fst (first_pass f directory exclude_dirs)
  = flat_map (dir_plans exclude_dirs) (Fs.os_walk f directory).
Proof. unfold first_pass. now rewrite fold_collect_dir_plans. Qed.

(** Where a plan comes from. *)
Lemma plan_origin (f : fsys) (directory : string) (exclude_dirs : list string)
  (src dst : string) :
  In (src, dst) (fst (first_pass f directory exclude_dirs)) ->
  exists root dirs files filename,
    In (root, dirs, files) (Fs.os_walk f directory) /\ In filename files /\
    should_exclude exclude_dirs root = false /\
    in_scope filename = true /\ filename <> Py.lower filename /\
    src = OsPath.join root filename /\ dst = OsPath.join root (Py.lower filename).
Proof.
  rewrite first_pass_plans, in_flat_map. intros ([[root dirs] files] & Hy & Hin).
  unfold dir_plans in Hin. simpl in Hin.
  destruct (should_exclude exclude_dirs root) eqn:Hex; [contradiction|].
  apply in_flat_map in Hin as (filename & Hf & Hp). unfold plan_of in Hp.
  destruct (in_scope filename) eqn:Hs; simpl in Hp; [|contradiction].
  destruct (String.eqb_spec filename (Py.lower filename)) as [|Hne]; simpl in Hp; [contradiction|].
  destruct Hp as [[= <- <-]|[]].
  exists root, dirs, files, filename. repeat split; trivial.
Qed.

(** A plan ends in exactly one of the two lists. *)
Lemma apply_plan_cases (lf : option string) (rep : report) (w : world)
  (plan : string * string) :
  exists w',
    apply_plan O lf (rep, w) plan = ((fst rep ++ [plan], snd rep), w') \/
    exists e, apply_plan O lf (rep, w) plan
              = ((fst rep, snd rep ++ [(fst plan, str_exn e)]), w').
Proof.
  destruct rep as [renamed skipped], plan as [filepath lowercase_filepath].
  unfold apply_plan.
  destruct (fresh_path O "temp_" (OsPath.dirname filepath) filepath w) as [temp w0].
  destruct (rename_steps O lf filepath lowercase_filepath temp w0) as [[] w1|e w1]; simpl.
  - exists w1. now left.
  - eexists. right. exists e. reflexivity.
Qed.

(** The reports of a run of the second pass, started with any report:
    what is added accounts for every plan once. *)
Lemma second_pass_accounts (lf : option string) (plans : list (string * string))
  (rep : report) (w : world) :
  exists renamed skipped,
    fst (fold_left (apply_plan O lf) plans (rep, w))
    = (fst rep ++ renamed, snd rep ++ skipped) /\
    Permutation (map fst plans) (map fst renamed ++ map fst skipped) /\
    incl renamed plans /\
    List.length renamed + List.length skipped = List.length plans.
Proof.
  revert rep w. induction plans as [|p plans IH]; intros rep w; cbn [fold_left].
  - exists [], []. rewrite !app_nil_r. destruct rep. repeat split; simpl; auto.
    intros x [].
  - destruct (apply_plan_cases lf rep w p) as (w' & [E|(e & E)]); rewrite E.
    + destruct (IH (fst rep ++ [p], snd rep) w') as (ren & sk & E' & HP & Hi & Hl).
      exists (p :: ren), sk. repeat split.
      * etransitivity; [exact E'|]. simpl. now rewrite <- app_assoc.
      * simpl. now constructor.
      * intros x [<-|Hx]; [now left|right; auto].
      * simpl. lia.
    + destruct (IH (fst rep, snd rep ++ [(fst p, str_exn e)]) w')
        as (ren & sk & E' & HP & Hi & Hl).
      exists ren, ((fst p, str_exn e) :: sk). repeat split.
      * etransitivity; [exact E'|]. simpl. now rewrite <- app_assoc.
      * simpl. apply Permutation_cons_app. exact HP.
      * intros x Hx. right. auto.
      * simpl. rewrite <- Hl. lia.
Qed.

End ForwardFacts.

Section ForwardReports.

Variable O : oracle.

(** What the forward pass reports as renamed was planned, and whatever
    it reports, renamed or skipped, accounts for every plan once. *)
Lemma forward_pass_accounts (directory : string) (exclude_dirs : list string) (w : world) :
  let plans := fst (first_pass (fs w) directory exclude_dirs) in
  let rep := fst (forward_pass O directory exclude_dirs w) in
  incl (fst rep) plans /\
  Permutation (map fst plans) (map fst (fst rep) ++ map fst (snd rep)) /\
  List.length (fst rep) + List.length (snd rep) = List.length plans.
Proof.
  unfold forward_pass.
  destruct (first_pass (fs w) directory exclude_dirs) as [plans lf]. simpl.
  unfold second_pass.
  destruct (second_pass_accounts O lf plans ([], []) w) as (ren & sk & E & HP & Hi & Hl).
  unfold report in *. simpl in E. rewrite E. simpl. auto.
Qed.

Lemma normalized_no_plans (f : fsys) (directory : string) (exclude_dirs : list string) :
  normalizedb f directory = true ->
  fst (first_pass f directory exclude_dirs) = [].
Proof.
  unfold normalizedb. rewrite first_pass_plans, forallb_forall. intros H.
  induction (Fs.os_walk f directory) as [|[[root dirs] files] ys IH]; simpl; [reflexivity|].
  rewrite IH by (intros y Hy; apply H; now right).
  rewrite app_nil_r. unfold dir_plans. simpl.
  destruct (should_exclude exclude_dirs root); [reflexivity|].
  specialize (H (root, dirs, files) (or_introl eq_refl)). simpl in H.
  rewrite forallb_forall in H.
  induction files as [|x files IHf]; simpl; [reflexivity|].
  rewrite IHf by (intros z Hz; apply H; now right).
  rewrite app_nil_r. specialize (H x (or_introl eq_refl)). unfold plan_of.
  destruct (in_scope x); simpl in *; [|reflexivity]. now rewrite H.
Qed.

End ForwardReports.

(* ================================================================= *)
(** ** What the walk yields *)

Section WalkYields.

Lemma walk_fuel_yield (n : nat) (f : fsys) (top root : string) (dirs files : list string) :
  In (root, dirs, files) (Fs.walk_fuel n f top) ->
  Fs.lookup root f = Some Dir /\
  dirs = Fs.dirs_of (Fs.scandir f root) /\ files = Fs.nondirs_of (Fs.scandir f root).
Proof.
  revert top. induction n as [|n IH]; intros top; simpl; [tauto|].
  destruct (Fs.lookup top f) as [[|]|] eqn:Hl; simpl; try tauto.
  intros [H|H].
  - injection H as <- <- <-. auto.
  - apply in_flat_map in H as (d & _ & H). eauto.
Qed.

(** A file the walk yields is a regular file of the file system, under
    the path the script builds for it, and its name is one component. *)
Lemma os_walk_file (f : fsys) (top root : string) (dirs files : list string)
  (filename : string) :
  In (root, dirs, files) (Fs.os_walk f top) -> In filename files ->
  (exists d, In (OsPath.join root filename, File d) f) /\
  filename <> "" /\ Fs.contains_sep filename = false.
Proof.
  intros Hy Hf. apply walk_fuel_yield in Hy as (_ & _ & ->).
  apply nondirs_of_in in Hf as (d & Hd). apply scandir_in in Hd as (? & ? & ?). eauto.
Qed.

Lemma should_exclude_false (exclude_dirs : list string) (root : string) :
  should_exclude exclude_dirs root = false ->
  forall e, In e exclude_dirs -> Py.startswith root e = false.
Proof.
  unfold should_exclude. intros H e He.
  destruct (Py.startswith root e) eqn:Hs; [|reflexivity].
  rewrite <- H. symmetry. apply existsb_exists. eauto.
Qed.

End WalkYields.

(* ================================================================= *)
(** ** The last component of a joined path *)

Section PathFacts.

Lemma rfind_no_sep (s : string) :
  Fs.contains_sep s = false -> Py.rfind OsPath.sep s = None.
Proof.
  induction s as [|a r IH]; simpl; [reflexivity|].
  intros H. apply orb_false_elim in H as [Ha Hr]. now rewrite (IH Hr), Ha.
Qed.

Lemma rfind_app_no_sep (pre name : string) :
  Fs.contains_sep name = false ->
  Py.rfind OsPath.sep (pre ++ name) = Py.rfind OsPath.sep pre.
Proof.
  intros H. induction pre as [|a r IH]; simpl.
  - now apply rfind_no_sep.
  - now rewrite IH.
Qed.

Lemma rfind_ends_with_sep (x : string) :
  Py.rfind OsPath.sep (x ++ "/") = Some (String.length x).
Proof.
  induction x as [|a r IH]; simpl; [reflexivity|]. now rewrite IH.
Qed.

Lemma endswith_sep_split (s : string) :
  Py.endswith s "/" = true -> exists x, s = (x ++ "/")%string.
Proof.
  unfold Py.endswith. induction s as [|a r IH]; [discriminate|].
  intros H. apply andb_prop in H as [_ H].
  destruct r as [|b r'].
  - simpl in H. destruct (Ascii.eqb_spec a "/") as [->|]; [|discriminate].
    exists "". reflexivity.
  - destruct IH as (x & Hx).
    + apply andb_true_intro. split; [reflexivity|].
      simpl String.length in *. rewrite Nat.sub_succ, Nat.sub_0_r in H.
      rewrite Nat.sub_succ, Nat.sub_0_r. exact H.
    + exists (String a x). simpl. now rewrite <- Hx.
Qed.

Lemma substring_skip (a b : string) :
  substring (String.length a) (String.length b) (a ++ b) = b.
Proof.
  induction a as [|c a IH]; simpl; [apply substring_all|exact IH].
Qed.

Lemma slice_from_app (a b : string) : Py.slice_from (String.length a) (a ++ b) = b.
Proof.
  unfold Py.slice_from. rewrite length_append.
  replace (String.length a + String.length b - String.length a) with (String.length b) by lia.
  apply substring_skip.
Qed.

(** [os.path.join(root, "")] is empty or ends with the separator. *)
Lemma join_empty_shape (root : string) :
  OsPath.join root "" = "" \/ exists x, OsPath.join root "" = (x ++ "/")%string.
Proof.
  unfold OsPath.join. simpl (Py.startswith "" "/").
  destruct (String.eqb_spec root "") as [->|Hne]; simpl; [now left|].
  destruct (Py.endswith root "/") eqn:He.
  - right. rewrite append_empty_r. now apply endswith_sep_split.
  - right. exists root. reflexivity.
Qed.

Lemma basename_join (root filename : string) :
  Fs.contains_sep filename = false ->
  basename (OsPath.join root filename) = filename.
Proof.
  intros H. rewrite (join_child _ _ H). unfold basename.
  rewrite (rfind_app_no_sep _ _ H).
  destruct (join_empty_shape root) as [E|(x & E)]; rewrite E.
  - simpl. unfold Py.slice_from. rewrite Nat.sub_0_r. apply substring_all.
  - rewrite rfind_ends_with_sep.
    replace (S (String.length x)) with (String.length (x ++ "/"))
      by (rewrite length_append; simpl; lia).
    apply slice_from_app.
Qed.

End PathFacts.

(* ================================================================= *)
(** ** The directory part of a joined path *)

Section DirnameFacts.

Lemma prefix_refl (s : string) : String.prefix s s = true.
Proof.
  induction s as [|a s IH]; simpl; [reflexivity|].
  destruct (Ascii.ascii_dec a a); [exact IH|congruence].
Qed.

Lemma prefix_empty (s : string) : String.prefix "" s = true.
Proof. destruct s; reflexivity. Qed.

Lemma prefix_trans (a b c : string) :
  String.prefix a b = true -> String.prefix b c = true -> String.prefix a c = true.
Proof.
  revert b c. induction a as [|x a IH]; intros b c Hab Hbc; [apply prefix_empty|].
  destruct b as [|y b]; [discriminate|]. destruct c as [|z c]; [discriminate|].
  cbn [String.prefix] in *.
  destruct (Ascii.ascii_dec x y) as [->|]; [|discriminate].
  destruct (Ascii.ascii_dec y z) as [->|]; [|discriminate].
  eauto.
Qed.

Lemma rstrip_prefix (c : ascii) (s : string) : String.prefix (Py.rstrip c s) s = true.
Proof.
  induction s as [|a s IH]; [reflexivity|].
  cbn [Py.rstrip]. destruct (Py.rstrip c s) as [|b r] eqn:E.
  - destruct (Ascii.eqb a c); [apply prefix_empty|].
    cbn [String.prefix]. destruct (Ascii.ascii_dec a a); [apply prefix_empty|congruence].
  - cbn [String.prefix]. destruct (Ascii.ascii_dec a a); [exact IH|congruence].
Qed.

Lemma rstrip_app_sep (s : string) : Py.rstrip "/" (s ++ "/") = Py.rstrip "/" s.
Proof.
  induction s as [|a s IH]; [reflexivity|].
  simpl. now rewrite IH.
Qed.

Lemma slice_to_app (a b : string) : Py.slice_to (String.length a) (a ++ b) = a.
Proof.
  unfold Py.slice_to. induction a as [|c a IH]; simpl.
  - destruct b; reflexivity.
  - now rewrite IH.
Qed.

Lemma endswith_cons (a : ascii) (b : ascii) (r : string) :
  Py.endswith (String a (String b r)) "/" = Py.endswith (String b r) "/".
Proof.
  unfold Py.endswith. simpl String.length.
  rewrite !Nat.sub_succ, !Nat.sub_0_r. reflexivity.
Qed.

(** A string of separators only, when it is not empty, ends with one. *)
Lemma all_sep_ends_with_sep (s : string) (n : nat) :
  s = Py.repeat_char OsPath.sep n -> s = "" \/ Py.endswith s "/" = true.
Proof.
  revert n. induction s as [|a r IH]; intros n H; [now left|]. right.
  destruct n as [|n]; [discriminate|]. simpl in H. injection H as -> Hr.
  destruct r as [|b r']; [reflexivity|].
  rewrite endswith_cons. destruct (IH n Hr) as [|]; [discriminate|assumption].
Qed.

Lemma app_sep_all_sep (root : string) (n : nat) :
  (root ++ "/")%string = Py.repeat_char OsPath.sep n ->
  exists m, root = Py.repeat_char OsPath.sep m.
Proof.
  revert n. induction root as [|a r IH]; intros n H; [now exists 0|].
  destruct n as [|n]; [discriminate|]. simpl in H. injection H as -> Hr.
  destruct (IH n Hr) as (m & ->). now exists (S m).
Qed.

Lemma join_empty_cases (root : string) :
  (root = "" /\ OsPath.join root "" = "") \/
  (Py.endswith root "/" = true /\ OsPath.join root "" = root) \/
  (root <> "" /\ Py.endswith root "/" = false /\ OsPath.join root "" = (root ++ "/")%string).
Proof.
  unfold OsPath.join. simpl (Py.startswith "" "/").
  destruct (String.eqb_spec root "") as [->|Hne]; simpl orb; [now left|].
  right. destruct (Py.endswith root "/") eqn:He.
  - left. now rewrite append_empty_r.
  - right. auto.
Qed.

(** The directory part of a joined path spells a prefix of the
    directory it was joined from. *)
Lemma dirname_join_prefix (root filename : string) :
  Fs.contains_sep filename = false ->
  String.prefix (OsPath.dirname (OsPath.join root filename)) root = true.
Proof.
  intros H. rewrite (join_child _ _ H). unfold OsPath.dirname.
  rewrite (rfind_app_no_sep _ _ H).
  destruct (join_empty_cases root) as [[-> E]|[[He E]|(Hne & He & E)]]; rewrite E.
  - simpl. destruct filename; reflexivity.
  - destruct (endswith_sep_split _ He) as (x & Hx).
    assert (R : Py.rfind OsPath.sep root = Some (String.length x))
      by (rewrite Hx; apply rfind_ends_with_sep).
    rewrite R.
    replace (S (String.length x)) with (String.length root)
      by (rewrite Hx, length_append; simpl; lia).
    rewrite slice_to_app.
    destruct (negb (root =? "")%string && _); [apply rstrip_prefix|apply prefix_refl].
  - rewrite rfind_ends_with_sep.
    replace (S (String.length root)) with (String.length (root ++ "/"))
      by (rewrite length_append; simpl; lia).
    rewrite slice_to_app.
    destruct (String.eqb_spec (root ++ "/") "") as [E'|_].
    { destruct root; discriminate. }
    destruct (String.eqb_spec (root ++ "/")
                (Py.repeat_char OsPath.sep (String.length (root ++ "/")))) as [E'|_].
    + exfalso. destruct (app_sep_all_sep _ _ E') as (m & Hm).
      destruct (all_sep_ends_with_sep _ _ Hm); congruence.
    + simpl andb. cbv iota. rewrite rstrip_app_sep. apply rstrip_prefix.
Qed.

End DirnameFacts.

(* ================================================================= *)
(** ** The system calls on regular files *)

Section SyscallFacts.

Variable O : oracle.


Lemma bytes_eqb_eq (a b : list byte) : Fs.bytes_eqb a b = true -> a = b.
Proof.
  revert b. induction a as [|x a IH]; intros [|y b]; simpl; try discriminate; [reflexivity|].
  intros H. apply andb_prop in H as [Hx Ha].
  apply Byte.byte_dec_bl in Hx. f_equal; auto.
Qed.

(** Renaming a regular file onto a path that is not a directory. *)
Lemma os_rename_file (src dst : string) (d : list byte) (w : world) :
  denied O (SysRename src dst) = false ->
  Fs.lookup src (fs w) = Some (File d) ->
  Fs.lookup dst (fs w) <> Some Dir ->
  src <> dst ->
  exists w',
    os_rename O src dst w = Ok tt w' /\
    uuid_count w' = uuid_count w /\ stdout w' = stdout w /\
    forall k, Fs.lookup k (fs w') =
              if String.eqb k dst then Some (File d)
              else if String.eqb k src then None else Fs.lookup k (fs w).
Proof.
  intros Hden Hsrc Hdst Hne. unfold os_rename. rewrite Hden, Hsrc.
  assert (E : forall k,
             Fs.lookup k (Fs.rekey src dst (Fs.remove_key dst (fs w))) =
             if String.eqb k dst then Some (File d)
             else if String.eqb k src then None else Fs.lookup k (fs w)).
  { intros k. rewrite lookup_rekey.
    - rewrite !lookup_remove_key.
      destruct (String.eqb_spec src dst); [contradiction|].
      rewrite Hsrc. destruct (String.eqb k dst); reflexivity.
    - rewrite lookup_remove_key. now rewrite String.eqb_refl. }
  destruct (String.eqb_spec src dst); [contradiction|].
  destruct (Fs.lookup dst (fs w)) as [[|]|]; try contradiction;
    eexists; repeat split; simpl; exact E.
Qed.


Lemma os_path_getsize_file (p : string) (d : list byte) (w : world) :
  denied O (SysStat p) = false ->
  Fs.lookup p (fs w) = Some (File d) ->
  os_path_getsize O p w = Ok (List.length d) w.
Proof. intros Hden Hp. unfold os_path_getsize. now rewrite Hden, Hp. Qed.

Lemma open_rb_file (p : string) (d : list byte) (w : world) :
  denied O (SysOpen p) = false ->
  Fs.lookup p (fs w) = Some (File d) ->
  open_rb O p w = Ok d w.
Proof. intros Hden Hp. unfold open_rb. now rewrite Hden, Hp. Qed.

End SyscallFacts.

(* ================================================================= *)
(** ** The handler of the forward pass *)

Section Handler.

Variable O : oracle.

Lemma os_rename_keeps_output (a b : string) (w : world) :
  stdout (world_of (os_rename O a b w)) = stdout w /\
  uuid_count (world_of (os_rename O a b w)) = uuid_count w.
Proof.
  unfold os_rename.
  destruct (denied O (SysRename a b)); [now split|].
  destruct (Fs.lookup a (fs w)) as [[|]|]; [| |now split].
  - destruct (Fs.lookup b (fs w)) as [[|]|]; try now split.
    + destruct (String.eqb a b); now split.
    + destruct (String.eqb a b); now split.
  - destruct (Fs.lookup b (fs w)) as [[|]|]; try now split.
    destruct (String.eqb a b); [now split|].
    destruct (Fs.has_child b (fs w)); now split.
Qed.

Lemma restore_keeps_output (temp_filepath filepath : string) (w : world) :
  stdout (restore O temp_filepath filepath w) = stdout w.
Proof.
  unfold restore, try_rename_pass.
  destruct (os_path_exists temp_filepath w); [|reflexivity].
  apply os_rename_keeps_output.
Qed.

(** When the temporary file is there and may be renamed, the handler
    puts it back under the name of the source. *)
Lemma restore_puts_back (temp_filepath filepath : string) (d : list byte) (w : world) :
  denied O (SysRename temp_filepath filepath) = false ->
  Fs.lookup temp_filepath (fs w) = Some (File d) ->
  Fs.lookup filepath (fs w) = None ->
  Fs.lookup filepath (fs (restore O temp_filepath filepath w)) = Some (File d) /\
  Fs.lookup temp_filepath (fs (restore O temp_filepath filepath w)) = None.
Proof.
  intros Hden Ht Hf. unfold restore, os_path_exists, try_rename_pass. rewrite Ht.
  destruct (os_rename_file O temp_filepath filepath d w Hden Ht) as (w' & E & _ & _ & L).
  - rewrite Hf. discriminate.
  - congruence.
  - rewrite E. simpl. rewrite !L, String.eqb_refl.
    split; [reflexivity|].
    destruct (String.eqb_spec temp_filepath filepath); [congruence|].
    now rewrite String.eqb_refl.
Qed.

End Handler.

(* ================================================================= *)
(** ** The revert pass and the skipped list *)

Section RevertMiss.

Variable O : oracle.

(** Every guess exists already: the loop changes nothing. *)
Lemma no_free_guess_no_change (root filepath : string) (candidates : list string)
  (st : revert_state) :
  (forall c, In c candidates -> os_path_exists (OsPath.join root c) (snd st) = true) ->
  try_candidates O root filepath candidates st = st.
Proof.
  induction candidates as [|c rest IH]; intros H; [reflexivity|].
  cbn [try_candidates]. destruct st as [reverted_files w]. simpl in H.
  rewrite (H c (or_introl eq_refl)). apply IH. intros c' Hc'. apply H. now right.
Qed.

(** The paths of the skipped list are sources of plans of the forward
    pass: files in scope whose name is not lowercase. *)
Lemma skipped_are_forward_sources (directory : string) (exclude_dirs revert_dirs : list string)
  (w : world) (path : string) :
  reported_skipped path (convert_to_lowercase O directory exclude_dirs revert_dirs w) ->
  in_scope (basename path) = true /\ basename path <> Py.lower (basename path).
Proof.
  unfold reported_skipped, convert_to_lowercase.
  destruct (fold_left (revert_dir_step O) revert_dirs ([], w)) as [reverted w1].
  pose proof (forward_pass_accounts O directory exclude_dirs w1) as (_ & HP & _).
  destruct (forward_pass O directory exclude_dirs w1) as [[renamed skipped] w2].
  simpl in *. intros Hin.
  assert (Hp : In path (map fst (fst (first_pass (fs w1) directory exclude_dirs)))).
  { apply (Permutation_in _ (Permutation_sym HP)). apply in_or_app. now right. }
  apply in_map_iff in Hp as ([s d] & <- & Hp). simpl.
  destruct (plan_origin _ _ _ _ _ Hp)
    as (root & dirs & files & filename & Hy & Hf & _ & Hs & Hne & -> & _).
  destruct (os_walk_file _ _ _ _ _ _ Hy Hf) as (_ & _ & Hsep).
  rewrite (basename_join _ _ Hsep). auto.
Qed.

End RevertMiss.

(* ================================================================= *)
(** ** How the guesses are built *)

Section Guesses.

Lemma fold_append_each {A : Type} (g : A -> string) (l : list A) (acc : list string) :
  fold_left (fun (acc' : list string) (x : A) => acc' ++ [g x]) l acc = acc ++ map g l.
Proof.
  revert acc. induction l as [|x l IH]; intros acc; simpl.
  - now rewrite app_nil_r.
  - rewrite IH. now rewrite <- app_assoc.
Qed.

Lemma fold_patterns (name ext : string) (ps : list (string -> string)) (acc : list string) :
  fold_left
    (fun (acc : list string) (pattern : string -> string) =>
       let potential_name := pattern name in
       if negb (String.eqb potential_name name)
       then fold_left
              (fun (acc' : list string) (potential_ext : string) =>
                 acc' ++ [(potential_name ++ "." ++ potential_ext)%string])
              (potential_exts ext) acc
       else acc)
    ps acc
  = acc ++ flat_map (guesses_of_pattern name ext) ps.
Proof.
  revert acc. induction ps as [|p ps IH]; intros acc; simpl.
  - now rewrite app_nil_r.
  - rewrite IH. unfold guesses_of_pattern at 2.
    destruct (String.eqb (p name) name); simpl.
    + reflexivity.
    + rewrite (fold_append_each (fun e => (p name ++ "." ++ e)%string)).
      now rewrite <- app_assoc.
Qed.

Lemma build_potential_names_eq (name ext : string) :
  build_potential_names name ext
  = flat_map (guesses_of_pattern name ext) capitalization_patterns
    ++ [(Py.upper name ++ "." ++ ext)%string; (Py.capitalize name ++ "." ++ ext)%string].
Proof.
  unfold build_potential_names. rewrite fold_patterns. simpl app at 1.
  now rewrite <- app_assoc.
Qed.

Lemma set_like_nodup : set_like (nodup string_dec).
Proof.
  intros l. split; [apply NoDup_nodup|]. intros x. apply nodup_In.
Qed.

Lemma set_like_dedup_first : set_like dedup_first.
Proof.
  intros l. unfold dedup_first. split.
  - apply NoDup_rev, NoDup_nodup.
  - intros x. rewrite <- in_rev, nodup_In, <- in_rev. tauto.
Qed.

End Guesses.

(* ================================================================= *)
(** ** What the forward pass can touch *)

Section Frames.

Variable O : oracle.
Variable T : string -> Prop.

Lemma frame_refl (f : fsys) : frame T f f.
Proof. split; auto. Qed.

Lemma frame_trans (f g h : fsys) : frame T f g -> frame T g h -> frame T f h.
Proof.
  intros [A1 A2] [B1 B2]. split.
  - intros k Hk. rewrite (B1 k Hk). auto.
  - auto.
Qed.

Lemma frame_keeps_no_dir (f g : fsys) : no_dir_in T f -> frame T f g -> no_dir_in T g.
Proof. intros H [_ F] k Hk Hd. exact (H k Hk (F k Hd)). Qed.

Lemma framed_ret {A : Type} (a : A) : framed T (ret a).
Proof. intros w _. apply frame_refl. Qed.

Lemma framed_raise {A : Type} (e : exn) : framed T (@raise A e).
Proof. intros w _. apply frame_refl. Qed.

Lemma framed_say (s : string) : framed T (say s).
Proof. intros w _. apply frame_refl. Qed.

Lemma framed_bind {A B : Type} (m : M A) (k : A -> M B) :
  framed T m -> (forall a w w1, m w = Ok a w1 -> framed T (k a)) -> framed T (bind m k).
Proof.
  intros Hm Hk w Hw. unfold bind. specialize (Hm w Hw).
  destruct (m w) as [a w1|e w1] eqn:E; simpl in Hm; [|exact Hm].
  apply (frame_trans _ _ _ Hm). apply (Hk a w w1 E). exact (frame_keeps_no_dir _ _ Hw Hm).
Qed.

Lemma lookup_renamed (a b : string) (d : list byte) (f : fsys) (k : string) :
  a <> b -> Fs.lookup a f = Some (File d) ->
  Fs.lookup k (Fs.rekey a b (Fs.remove_key b f)) =
  if String.eqb k b then Some (File d)
  else if String.eqb k a then None else Fs.lookup k f.
Proof.
  intros Hab Ha. rewrite lookup_rekey.
  - rewrite !lookup_remove_key.
    destruct (String.eqb_spec a b); [contradiction|].
    rewrite Ha. destruct (String.eqb k b); reflexivity.
  - rewrite lookup_remove_key. now rewrite String.eqb_refl.
Qed.

Lemma rekey_frame (a b : string) (d : list byte) (f : fsys) :
  T a -> T b -> a <> b -> Fs.lookup a f = Some (File d) ->
  frame T f (Fs.rekey a b (Fs.remove_key b f)).
Proof.
  intros Ta Tb Hab Ha. split; intros k Hk.
  - rewrite (lookup_renamed a b d f k Hab Ha).
    destruct (String.eqb_spec k b) as [E|]; [subst k; contradiction|].
    destruct (String.eqb_spec k a) as [E|]; [subst k; contradiction|reflexivity].
  - rewrite (lookup_renamed a b d f k Hab Ha) in Hk.
    destruct (String.eqb_spec k b) as [E|]; [discriminate|].
    destruct (String.eqb_spec k a) as [E|]; [discriminate|assumption].
Qed.

Lemma framed_rename (a b : string) : T a -> T b -> framed T (os_rename O a b).
Proof.
  intros Ta Tb w Hw. unfold os_rename.
  destruct (denied O (SysRename a b)) eqn:Hden; [apply frame_refl|].
  destruct (Fs.lookup a (fs w)) as [[d|]|] eqn:Ha; [|now elim (Hw a Ta)|apply frame_refl].
  destruct (String.eqb_spec a b) as [->|Hab].
  - destruct (Fs.lookup b (fs w)) as [[|]|]; apply frame_refl.
  - destruct (Fs.lookup b (fs w)) as [[db|]|] eqn:Hb; simpl;
      [|apply frame_refl|]; now apply (rekey_frame a b d).
Qed.

Lemma framed_remove (p : string) : T p -> framed T (os_remove O p).
Proof.
  intros Tp w Hw. unfold os_remove.
  destruct (denied O (SysRemove p)); [apply frame_refl|].
  destruct (Fs.lookup p (fs w)) as [[d|]|] eqn:Hp; try apply frame_refl.
  simpl. split; intros k Hk.
  - rewrite lookup_remove_key.
    destruct (String.eqb_spec k p) as [E|]; [subst k; contradiction|reflexivity].
  - rewrite lookup_remove_key in Hk.
    destruct (String.eqb_spec k p) as [E|]; [discriminate|assumption].
Qed.

Lemma framed_getsize (p : string) : framed T (os_path_getsize O p).
Proof.
  intros w _. unfold os_path_getsize.
  destruct (denied O (SysStat p)); [apply frame_refl|].
  destruct (Fs.lookup p (fs w)) as [[d|]|]; apply frame_refl.
Qed.

Lemma framed_open (p : string) : framed T (open_rb O p).
Proof.
  intros w _. unfold open_rb.
  destruct (denied O (SysOpen p)); [apply frame_refl|].
  destruct (Fs.lookup p (fs w)) as [[d|]|]; apply frame_refl.
Qed.

End Frames.

Section PlanFrame.

Variable O : oracle.
Variable lf : option string.

Lemma resolve_backup_framed (T : string -> Prop) (filepath lowercase_filepath b : string) :
  T b ->
  (forall name, lf = Some name ->
     T (OsPath.join (OsPath.dirname lowercase_filepath)
          (fst (OsPath.splitext name) ++ "_alt" ++ snd (OsPath.splitext name)))) ->
  framed T (resolve_backup O lf filepath lowercase_filepath b).
Proof.
  intros Tb Talt. unfold resolve_backup.
  apply framed_bind; [apply framed_getsize|intros size1 _ _ _].
  apply framed_bind; [apply framed_getsize|intros size2 _ _ _].
  apply framed_bind.
  - destruct (size1 =? size2); [|apply framed_ret].
    apply framed_bind; [apply framed_open|intros f1 _ _ _].
    apply framed_bind; [apply framed_open|intros f2 _ _ _].
    destruct (Fs.bytes_eqb f1 f2); [|apply framed_ret].
    apply framed_bind; [now apply framed_remove|intros _ _ _ _].
    apply framed_bind; [apply framed_say|intros _ _ _ _; apply framed_ret].
  - intros [|] _ _ _; [apply framed_ret|].
    apply framed_bind.
    + unfold read_lowercase_filename. destruct lf; [apply framed_ret|apply framed_raise].
    + intros name w w1 E. unfold read_lowercase_filename in E.
      destruct lf as [nm|] eqn:Hlf; [|discriminate]. injection E as <- _.
      apply framed_bind; [|intros _ _ _ _; apply framed_say].
      apply framed_rename; [exact Tb|]. now apply Talt.
Qed.

Lemma rename_steps_framed (plan : string * string) (temp_filepath : string) :
  touchable O lf plan temp_filepath ->
  framed (touchable O lf plan)
    (rename_steps O lf (fst plan) (snd plan) temp_filepath).
Proof.
  intros Ttemp. destruct plan as [filepath lowercase_filepath]. simpl fst. simpl snd.
  set (T := touchable O lf (filepath, lowercase_filepath)) in *.
  assert (Tsrc : T filepath) by (left; reflexivity).
  assert (Tdst : T lowercase_filepath) by (right; left; reflexivity).
  unfold rename_steps.
  apply framed_bind; [now apply framed_rename|intros _ _ _ _].
  apply framed_bind.
  - intros w Hw. destruct (os_path_exists lowercase_filepath w); [|apply frame_refl].
    unfold fresh_path, uuid4.
    set (b := OsPath.join (OsPath.dirname lowercase_filepath)
                ("backup_" ++ uuid4_hex O (uuid_count w)
                 ++ snd (OsPath.splitext lowercase_filepath))).
    assert (Hf : framed T (os_rename O lowercase_filepath b ;;; ret (Some b))).
    { apply framed_bind; [|intros; apply framed_ret].
      apply framed_rename; [exact Tdst|]. right. right. right. left.
      now exists (uuid_count w). }
    exact (Hf {| fs := fs w; uuid_count := S (uuid_count w); stdout := stdout w |} Hw).
  - intros backup w w1 E.
    assert (Tb : forall b, backup = Some b -> T b).
    { intros b ->. destruct (os_path_exists lowercase_filepath w); [|discriminate].
      unfold fresh_path, uuid4, bind, ret in E.
      destruct (os_rename O lowercase_filepath _ _); [|discriminate].
      injection E as <- _. right. right. right. left. now exists (uuid_count w). }
    apply framed_bind; [now apply framed_rename|intros _ _ _ _].
    destruct backup as [b|]; [|apply framed_say].
    apply resolve_backup_framed; [now apply Tb|].
    intros name Hn. right. right. right. right. now exists name.
Qed.

Lemma apply_plan_frame (rep : report) (w : world) (plan : string * string) :
  no_dir_in (touchable O lf plan) (fs w) ->
  frame (touchable O lf plan) (fs w) (fs (snd (apply_plan O lf (rep, w) plan))).
Proof.
  intros Hw. destruct rep as [renamed skipped]. unfold apply_plan.
  destruct plan as [filepath lowercase_filepath].
  unfold fresh_path at 1. unfold uuid4.
  set (temp := OsPath.join (OsPath.dirname filepath)
                 ("temp_" ++ uuid4_hex O (uuid_count w) ++ snd (OsPath.splitext filepath))).
  set (w0 := {| fs := fs w; uuid_count := S (uuid_count w); stdout := stdout w |}).
  assert (Ttemp : touchable O lf (filepath, lowercase_filepath) temp).
  { right. right. left. now exists (uuid_count w). }
  pose proof (rename_steps_framed (filepath, lowercase_filepath) temp Ttemp w0 Hw) as F.
  simpl fst in F. simpl snd in F.
  destruct (rename_steps O lf filepath lowercase_filepath temp w0) as [[] w1|e w1];
    cbn [world_of snd] in *; [exact F|].
  apply (frame_trans _ _ _ _ F). unfold restore, try_rename_pass.
  set (w2 := print _ w1).
  destruct (os_path_exists temp w2); [|apply frame_refl].
  apply (framed_rename O _ temp filepath Ttemp (or_introl eq_refl) w2).
  exact (frame_keeps_no_dir _ _ _ Hw F).
Qed.

End PlanFrame.

Section BatchFrame.

Variable O : oracle.
Variable lf : option string.

Lemma frame_weaken (T T' : string -> Prop) (f g : fsys) :
  (forall k, T k -> T' k) -> frame T f g -> frame T' f g.
Proof. intros H [A B]. split; auto. Qed.

Lemma second_pass_frame (all plans : list (string * string)) (rep : report) (w : world) :
  incl plans all ->
  no_dir_in (touchable_by O lf all) (fs w) ->
  frame (touchable_by O lf all) (fs w) (fs (snd (fold_left (apply_plan O lf) plans (rep, w)))).
Proof.
  revert rep w. induction plans as [|p ps IH]; intros rep w Hi Hw; [apply frame_refl|].
  cbn [fold_left].
  assert (Hp : forall k, touchable O lf p k -> touchable_by O lf all k).
  { intros k Hk. exists p. split; [apply Hi; now left|exact Hk]. }
  assert (F : frame (touchable_by O lf all) (fs w) (fs (snd (apply_plan O lf (rep, w) p)))).
  { apply (frame_weaken _ _ _ _ Hp). apply apply_plan_frame.
    intros k Hk. apply Hw. now apply Hp. }
  destruct (apply_plan O lf (rep, w) p) as [rep1 w1]. cbn [snd] in F.
  apply (frame_trans _ _ _ _ F). apply IH.
  - intros x Hx. apply Hi. now right.
  - exact (frame_keeps_no_dir _ _ _ Hw F).
Qed.

End BatchFrame.

Section TouchedPaths.

Lemma lower_ascii_sep (c : ascii) :
  Ascii.eqb (Py.lower_ascii c) OsPath.sep = Ascii.eqb c OsPath.sep.
Proof. destruct c as [[] [] [] [] [] [] [] []]; reflexivity. Qed.

Lemma lower_no_sep (s : string) : Fs.contains_sep (Py.lower s) = Fs.contains_sep s.
Proof.
  induction s as [|c s IH]; simpl; [reflexivity|]. now rewrite IH, lower_ascii_sep.
Qed.

Lemma contains_sep_app (a b : string) :
  Fs.contains_sep (a ++ b) = Fs.contains_sep a || Fs.contains_sep b.
Proof.
  induction a as [|c a IH]; simpl; [reflexivity|]. now rewrite IH, orb_assoc.
Qed.

Lemma substring_no_sep (s : string) (a n : nat) :
  Fs.contains_sep s = false -> Fs.contains_sep (substring a n s) = false.
Proof.
  revert a n. induction s as [|c s IH]; intros a n H.
  - destruct a, n; reflexivity.
  - simpl in H. apply orb_false_elim in H as [Hc Hs].
    destruct a as [|a]; simpl.
    + destruct n as [|n]; simpl; [reflexivity|]. rewrite Hc. now apply IH.
    + now apply IH.
Qed.

Lemma rfind_none_no_sep (s : string) :
  Py.rfind OsPath.sep s = None -> Fs.contains_sep s = false.
Proof.
  induction s as [|c s IH]; simpl; [reflexivity|].
  destruct (Py.rfind OsPath.sep s); [discriminate|].
  destruct (Ascii.eqb c OsPath.sep); [discriminate|]. intros _. now apply IH.
Qed.

(** Past the last separator there is none. *)
Lemma no_sep_past_last (p : string) (d : nat) :
  match Py.rfind OsPath.sep p with Some i => i < d | None => True end ->
  Fs.contains_sep (Py.slice_from d p) = false.
Proof.
  revert d. induction p as [|c p IH]; intros d H.
  - destruct d; reflexivity.
  - destruct d as [|d].
    + unfold Py.slice_from. rewrite Nat.sub_0_r, substring_all.
      apply rfind_none_no_sep.
      destruct (Py.rfind OsPath.sep (String c p)); [lia|reflexivity].
    + change (Fs.contains_sep (Py.slice_from d p) = false). apply IH. simpl in H.
      destruct (Py.rfind OsPath.sep p); [lia|exact I].
Qed.

Lemma splitext_ext_no_sep (p : string) :
  Fs.contains_sep (snd (OsPath.splitext p)) = false.
Proof.
  unfold OsPath.splitext.
  destruct (Py.rfind "." p) as [dotIndex|]; [|reflexivity].
  destruct (Py.rfind OsPath.sep p) as [i|] eqn:Hi.
  - destruct (Nat.leb_spec (S i) dotIndex); simpl; [|reflexivity].
    destruct (OsPath.nondot_between p (S i) dotIndex); simpl; [|reflexivity].
    apply no_sep_past_last. rewrite Hi. lia.
  - destruct (0 <=? dotIndex); simpl; [|reflexivity].
    destruct (OsPath.nondot_between p 0 dotIndex); simpl; [|reflexivity].
    apply no_sep_past_last. now rewrite Hi.
Qed.

Lemma splitext_stem_no_sep (name : string) :
  Fs.contains_sep name = false -> Fs.contains_sep (fst (OsPath.splitext name)) = false.
Proof.
  intros H. unfold OsPath.splitext.
  destruct (Py.rfind "." name) as [dotIndex|]; [|exact H].
  destruct (_ && _); simpl; [|exact H].
  now apply substring_no_sep.
Qed.

End TouchedPaths.

Section ExcludedUntouched.

Variable O : oracle.

Lemma fold_collect_file_var (root : string) (files : list string) (st : collect_state) :
  snd (fold_left (collect_file root) files st) = snd st \/
  exists filename, In filename files /\
                   snd (fold_left (collect_file root) files st) = Some (Py.lower filename).
Proof.
  revert st. induction files as [|x files IH]; intros st; [now left|].
  cbn [fold_left]. destruct (IH (collect_file root st x)) as [E|(y & Hy & E)].
  - rewrite E. unfold collect_file. destruct (in_scope x); [|now left].
    right. exists x. split; [now left|].
    destruct (negb (x =? Py.lower x)%string); reflexivity.
  - right. exists y. split; [now right|exact E].
Qed.

Lemma fold_collect_dir_var (exclude_dirs : list string)
  (ys : list (string * list string * list string)) (st : collect_state) :
  snd (fold_left (collect_dir exclude_dirs) ys st) = snd st \/
  exists root dirs files filename,
    In (root, dirs, files) ys /\ In filename files /\
    snd (fold_left (collect_dir exclude_dirs) ys st) = Some (Py.lower filename).
Proof.
  revert st. induction ys as [|[[root dirs] files] ys IH]; intros st; [now left|].
  cbn [fold_left].
  destruct (IH (collect_dir exclude_dirs st (root, dirs, files)))
    as [E|(r & d & fl & x & Hy & Hx & E)].
  - rewrite E. unfold collect_dir. destruct (should_exclude exclude_dirs root); [now left|].
    destruct (fold_collect_file_var root files st) as [E'|(x & Hx & E')]; [now left|].
    right. exists root, dirs, files, x. split; [now left|]. split; [exact Hx|exact E'].
  - right. exists r, d, fl, x. split; [now right|]. split; [exact Hx|exact E].
Qed.

(** The variable [lowercase_filename], when bound after the first pass,
    holds the lowercase name of a file the walk met. *)
Lemma first_pass_var_no_sep (f : fsys) (directory : string) (exclude_dirs : list string)
  (name : string) :
  snd (first_pass f directory exclude_dirs) = Some name -> Fs.contains_sep name = false.
Proof.
  unfold first_pass.
  destruct (fold_collect_dir_var exclude_dirs (Fs.os_walk f directory) ([], None))
    as [E|(root & dirs & files & x & Hy & Hx & E)]; rewrite E; [discriminate|].
  intros [= <-]. rewrite lower_no_sep.
  now destruct (os_walk_file _ _ _ _ _ _ Hy Hx) as (_ & _ & ?).
Qed.

Lemma prefix_not_excluded (exclude_dirs : list string) (d root : string) :
  String.prefix d root = true ->
  should_exclude exclude_dirs root = false -> should_exclude exclude_dirs d = false.
Proof.
  intros Hp Hr. destruct (should_exclude exclude_dirs d) eqn:Hd; [|reflexivity].
  unfold should_exclude in Hd. apply existsb_exists in Hd as (e & He & Hs).
  rewrite <- Hr. symmetry. apply existsb_exists. exists e. split; [exact He|].
  unfold Py.startswith in *. exact (prefix_trans _ _ _ Hs Hp).
Qed.

(** The directory part of a name built in the directory part of a
    joined path is again a prefix of the directory joined from. *)
Lemma sibling_dirname_prefix (root x y : string) :
  Fs.contains_sep x = false -> Fs.contains_sep y = false ->
  String.prefix
    (OsPath.dirname (OsPath.join (OsPath.dirname (OsPath.join root x)) y)) root = true.
Proof.
  intros Hx Hy.
  exact (prefix_trans _ _ _ (dirname_join_prefix _ y Hy) (dirname_join_prefix root x Hx)).
Qed.

Lemma touchable_not_excluded (lf : option string) (exclude_dirs : list string)
  (root filename k : string) :
  (forall n, Fs.contains_sep (uuid4_hex O n) = false) ->
  (forall name, lf = Some name -> Fs.contains_sep name = false) ->
  should_exclude exclude_dirs root = false ->
  Fs.contains_sep filename = false ->
  touchable O lf (OsPath.join root filename, OsPath.join root (Py.lower filename)) k ->
  should_exclude exclude_dirs (OsPath.dirname k) = false.
Proof.
  intros Hu Hlf Hex Hf Hk.
  assert (Hl : Fs.contains_sep (Py.lower filename) = false) by now rewrite lower_no_sep.
  apply (fun H => prefix_not_excluded exclude_dirs _ root H Hex).
  destruct Hk as [->|[->|[(n & ->)|[(n & ->)|(name & Hn & ->)]]]]; cbn [fst snd].
  - now apply dirname_join_prefix.
  - now apply dirname_join_prefix.
  - apply sibling_dirname_prefix; [exact Hf|].
    rewrite !contains_sep_app, Hu, splitext_ext_no_sep. reflexivity.
  - apply sibling_dirname_prefix; [exact Hl|].
    rewrite !contains_sep_app, Hu, splitext_ext_no_sep. reflexivity.
  - apply sibling_dirname_prefix; [exact Hl|].
    rewrite !contains_sep_app, splitext_ext_no_sep.
    rewrite (splitext_stem_no_sep _ (Hlf name Hn)). reflexivity.
Qed.

(** A path whose directory part starts with an exclusion entry is not
    touched by the forward pass: what is there before is there after,
    whatever the system calls do, provided no directory bears a name
    the pass handles. *)
Lemma excluded_paths_untouched (directory : string) (exclude_dirs : list string) (w : world) :
  (forall n, Fs.contains_sep (uuid4_hex O n) = false) ->
  (forall plan k,
      In plan (fst (first_pass (fs w) directory exclude_dirs)) ->
      touchable O (snd (first_pass (fs w) directory exclude_dirs)) plan k ->
      Fs.lookup k (fs w) <> Some Dir) ->
  forall p,
    should_exclude exclude_dirs (OsPath.dirname p) = true ->
    Fs.lookup p (fs (snd (forward_pass O directory exclude_dirs w))) = Fs.lookup p (fs w).
Proof.
  intros Hu Hdir p Hp. unfold forward_pass.
  pose proof (first_pass_var_no_sep (fs w) directory exclude_dirs) as Hvar.
  pose proof (plan_origin (fs w) directory exclude_dirs) as Horigin.
  destruct (first_pass (fs w) directory exclude_dirs) as [plans lf]. cbn [fst snd] in *.
  unfold second_pass.
  destruct (second_pass_frame O lf plans plans ([], []) w) as [F _].
  - intros x Hx. exact Hx.
  - intros k (plan & Hin & Hk). exact (Hdir plan k Hin Hk).
  - apply F. intros (plan & Hin & Hk). destruct plan as [src dst].
    destruct (Horigin src dst Hin)
      as (root & dirs & files & filename & Hy & Hf & Hex & _ & _ & -> & ->).
    destruct (os_walk_file _ _ _ _ _ _ Hy Hf) as (_ & _ & Hsep).
    rewrite (touchable_not_excluded lf exclude_dirs root filename p Hu Hvar Hex Hsep Hk) in Hp.
    discriminate.
Qed.

End ExcludedUntouched.

Lemma repeat_char_no_sep (n : nat) : Fs.contains_sep (Py.repeat_char "0" n) = false.
Proof. induction n as [|n IH]; simpl; [reflexivity|exact IH]. Qed.

Lemma str_of_nat_no_sep (n : nat) : Fs.contains_sep (Py.str_of_nat n) = false.
Proof.
  unfold Py.str_of_nat. induction (Nat.to_uint n) as [|d IH|d IH|d IH|d IH|d IH|d IH|d IH|d IH|d IH|d IH];
    simpl; auto.
Qed.

(** The uuids of the example worlds are digits. *)
Lemma hex32_no_sep (n : nat) : Fs.contains_sep (hex32 n) = false.
Proof.
  unfold hex32. now rewrite contains_sep_app, repeat_char_no_sep, str_of_nat_no_sep.
Qed.

(* ################################################################# *)
(** * The script on small inputs *)

Example lower_ex : Py.lower "BigInt.HPP" = "bigint.hpp".
Proof. reflexivity. Qed.
Example upper_ex : Py.upper "big_int9" = "BIG_INT9".
Proof. reflexivity. Qed.
Example split_ex : Py.split "_" "big_int_" = ["big"; "int"; ""].
Proof. reflexivity. Qed.
Example splitext_ex1 : OsPath.splitext "/r/a.b/Foo.hpp" = ("/r/a.b/Foo", ".hpp").
Proof. reflexivity. Qed.
Example splitext_ex2 : OsPath.splitext "/r/a.b/.hpp" = ("/r/a.b/.hpp", "").
Proof. reflexivity. Qed.
Example splitext_ex3 : OsPath.splitext "/r/a.b/foo" = ("/r/a.b/foo", "").
Proof. reflexivity. Qed.
Example dirname_ex : OsPath.dirname "/r/lib/foo.hpp" = "/r/lib"
  /\ OsPath.dirname "/foo.hpp" = "/" /\ OsPath.dirname "foo.hpp" = "".
Proof. repeat split. Qed.
Example join_ex : OsPath.join "/r" "lib" = "/r/lib" /\ OsPath.join "/r/" "lib" = "/r/lib"
  /\ OsPath.join "" "lib" = "lib".
Proof. repeat split. Qed.
Example endswith_ex : Py.endswith_any "foo.hpp" [".cpp"; ".hpp"] = true
  /\ Py.endswith_any "hpp" [".cpp"; ".hpp"] = false.
Proof. repeat split. Qed.

Example os_walk_ex :
  Fs.os_walk demo_tree "/r" =
  [ ("/r", ["Math"; "lib"], ["readme.txt"]);
    ("/r/Math", ["detail"], ["BigInt.hpp"]);
    ("/r/Math/detail", [], ["a.cpp"]);
    ("/r/lib", [], ["Z.CPP"]) ].
Proof. reflexivity. Qed.

Example os_walk_not_a_dir : Fs.os_walk demo_tree "/r/readme.txt" = [] /\ Fs.os_walk demo_tree "/x" = [].
Proof. split; reflexivity. Qed.


(** The spelling of the script's own scenario: one file, renamed. *)
Example bigint_scenario :
  let '(r, w) :=
    convert_to_lowercase quiet "/root" [] []
      (boot [("/root", Dir); ("/root/Math", Dir); ("/root/Math/BigInt.hpp", File [x01; x02])]) in
  r = ([("/root/Math/BigInt.hpp", "/root/Math/bigint.hpp")], [], []) /\
  fs w = [("/root", Dir); ("/root/Math", Dir); ("/root/Math/bigint.hpp", File [x01; x02])].
Proof. vm_compute. split; reflexivity. Qed.

(** The walk of the revert pass lists each directory when it reaches
    it; on these inputs more fuel changes nothing. *)
Example revert_walk_fuel :
  let w0 := boot [("/r", Dir); ("/r/foo.hpp", File [x01]); ("/r/Foo.hpp", File [x02; x03])] in
  let w1 := boot [("/r", Dir); ("/r/lib", Dir); ("/r/lib/foo.hpp", File [x01])] in
  revert_walk quiet 50 "/r" ([], w0) = revert_lowercase_conversion quiet "/r" w0 /\
  revert_walk quiet 50 "/r" ([], w1) = revert_lowercase_conversion quiet "/r" w1 /\
  revert_walk quiet 50 "/r/lib" ([], w1) = revert_lowercase_conversion quiet "/r/lib" w1.
Proof. vm_compute. repeat split. Qed.

(** A revert in a tree with sub-directories: each file is tried in its
    own directory. *)
Example revert_in_tree :
  let '(r, w) :=
    revert_lowercase_conversion quiet_first "/r"
      (boot [("/r", Dir); ("/r/a", Dir); ("/r/a/big_int.cpp", File [x01]);
             ("/r/top.hpp", File [x02]); ("/r/a/Keep.HPP", File [x03])]) in
  r = [("/r/top.hpp", "/r/Top.HPP"); ("/r/a/big_int.cpp", "/r/a/Big_int.CPP")] /\
  fs w = [("/r", Dir); ("/r/a", Dir); ("/r/a/Big_int.CPP", File [x01]);
          ("/r/Top.HPP", File [x02]); ("/r/a/Keep.HPP", File [x03])].
Proof. vm_compute. split; reflexivity. Qed.

(** The command line: an unknown argument, a missing value, a root
    that is not a directory. *)
Example main_rejects :
  fst (main quiet ["prog"] (boot demo_tree)) = 1 /\
  fst (main quiet ["prog"; "/nowhere"] (boot demo_tree)) = 1 /\
  fst (main quiet ["prog"; "/r"; "--exclude"] (boot demo_tree)) = 1 /\
  stdout (snd (main quiet ["prog"; "/r"; "--frob"; "x"] (boot demo_tree)))
  = ["ERROR: Unknown argument --frob"].
Proof. vm_compute. repeat split. Qed.

(* ################################################################# *)
(** * The properties of the specification *)

(* ================================================================= *)
(** ** Reverting: the branch of the sibling *)

(** C1, evaluated on a directory holding [foo.hpp] and [Foo.hpp]: the
    branch of the similar file picks [Foo.hpp], which exists, as the
    target and renames [foo.hpp] onto it; the bytes of [Foo.hpp] are
    gone.  The branch of the guessed names has the test this one lacks
    (lemma [guessed_target_was_free] below). *)
Theorem sibling_branch_overwrites :
  let w0 := boot [("/r", Dir); ("/r/foo.hpp", File [x01]); ("/r/Foo.hpp", File [x02; x03])] in
  similar_files (fs w0) "/r" "foo.hpp" = ["Foo.hpp"] /\
  os_path_exists "/r/Foo.hpp" w0 = true /\
  revert_lowercase_conversion quiet "/r" w0
  = ([("/r/foo.hpp", "/r/Foo.hpp")],
     {| fs := [("/r", Dir); ("/r/Foo.hpp", File [x01])];
        uuid_count := 1;
        stdout := ["Reverted: /r/foo.hpp -> /r/Foo.hpp"] |}).
Proof. vm_compute. repeat split. Qed.

(** The branch of the guessed names, for comparison: a pair it records
    has a target that did not exist when the attempt began, and the
    attempt is the two renamings through the temporary name. *)
Lemma guessed_target_was_free (O : oracle) (root filepath : string)
  (candidates : list string) (reverted_files : list (string * string)) (w : world) :
  let r := try_candidates O root filepath candidates (reverted_files, w) in
  fst r = reverted_files \/
  exists original_name w_at,
    In original_name candidates /\
    fst r = reverted_files ++ [(filepath, OsPath.join root original_name)] /\
    os_path_exists (OsPath.join root original_name) w_at = false /\
    let tw := fresh_path O "temp_" root filepath w_at in
    exists w1,
      (os_rename O filepath (fst tw) ;;;
       os_rename O (fst tw) (OsPath.join root original_name)) (snd tw) = Ok tt w1.
Proof.
  revert reverted_files w. induction candidates as [|c rest IH]; intros reverted_files w.
  - left. reflexivity.
  - cbn [try_candidates].
    destruct (os_path_exists (OsPath.join root c) w) eqn:Hex.
    + destruct (IH reverted_files w) as [H|(n & w_at & Hin & H)].
      * now left.
      * right. exists n, w_at. split; [now right|exact H].
    + destruct (fresh_path O "temp_" root filepath w) as [temp w0] eqn:Hfp.
      destruct ((os_rename O filepath temp ;;;
                 os_rename O temp (OsPath.join root c)) w0) as [[] w1|e w1] eqn:Hat.
      * right. exists c, w. split; [now left|]. split; [reflexivity|]. split; [exact Hex|].
        rewrite Hfp. simpl. exists w1. exact Hat.
      * destruct (IH reverted_files
                    (restore O temp filepath
                       (print ("ERROR: Failed to revert " ++ filepath ++ " to "
                               ++ OsPath.join root c ++ ": " ++ str_exn e) w1)))
          as [H|(n & w_at & Hin & H)].
        -- now left.
        -- right. exists n, w_at. split; [now right|exact H].
Qed.

(* ================================================================= *)
(** ** The name of the alternate file *)

(** C2, evaluated on a directory where two plans meet a destination
    with other bytes.  The alternate name is built from the variable
    [lowercase_filename], which the collecting loop left at the last
    file it saw, [bar.cpp]: the backup of [foo.hpp] becomes
    [bar_alt.cpp], not [foo_alt.hpp], and the second plan renames its
    own backup onto the same path, so the old bytes of [foo.hpp] are
    lost.  The report holds the pairs of source and destination only. *)
Theorem alt_name_of_last_collected :
  let w0 := boot [("/r", Dir); ("/r/Foo.hpp", File [x01]); ("/r/foo.hpp", File [x02]);
                  ("/r/Bar.cpp", File [x03]); ("/r/bar.cpp", File [x04])] in
  first_pass (fs w0) "/r" []
  = ([("/r/Foo.hpp", "/r/foo.hpp"); ("/r/Bar.cpp", "/r/bar.cpp")], Some "bar.cpp") /\
  convert_to_lowercase quiet "/r" [] [] w0
  = (([("/r/Foo.hpp", "/r/foo.hpp"); ("/r/Bar.cpp", "/r/bar.cpp")], [], []),
     {| fs := [("/r", Dir); ("/r/foo.hpp", File [x01]); ("/r/bar.cpp", File [x03]);
               ("/r/bar_alt.cpp", File [x04])];
        uuid_count := 4;
        stdout := ["Renamed: /r/Foo.hpp -> /r/foo.hpp (kept existing as bar_alt.cpp)";
                   "Renamed: /r/Bar.cpp -> /r/bar.cpp (kept existing as bar_alt.cpp)"] |}) /\
  Fs.lookup "/r/foo_alt.hpp" (fs (snd (convert_to_lowercase quiet "/r" [] [] w0))) = None.
Proof. vm_compute. repeat split. Qed.

(** One plan is enough when a file in scope is listed after it. *)
Example alt_name_single_plan :
  fs (snd (convert_to_lowercase quiet "/r" [] []
             (boot [("/r", Dir); ("/r/Foo.hpp", File [x01]); ("/r/foo.hpp", File [x02]);
                    ("/r/zzz.cpp", File [x03])])))
  = [("/r", Dir); ("/r/foo.hpp", File [x01]); ("/r/zzz_alt.cpp", File [x02]);
     ("/r/zzz.cpp", File [x03])].
Proof. vm_compute. reflexivity. Qed.

(** When the plan is the last file in scope the name is the expected one. *)
Example alt_name_when_last :
  fs (snd (convert_to_lowercase quiet "/r" [] []
             (boot [("/r", Dir); ("/r/foo.hpp", File [x02]); ("/r/Foo.hpp", File [x01])])))
  = [("/r", Dir); ("/r/foo_alt.hpp", File [x02]); ("/r/foo.hpp", File [x01])].
Proof. vm_compute. reflexivity. Qed.

(* ================================================================= *)
(** ** Reverting and the forward pass in one run *)

(** C3, evaluated on the command line [prog /r --revert /r/lib]: the
    file of the revert directory is reverted, and the forward pass of
    the same run, which walks [/r] with nothing excluded, renames it
    back to lowercase.  It is so whichever way the set of guesses is
    listed. *)
Theorem revert_then_forward_same_run :
  let w0 := boot [("/r", Dir); ("/r/lib", Dir); ("/r/lib/foo.hpp", File [x01])] in
  parse_args ["--revert"; "/r/lib"] [] [] = inl ([], ["/r/lib"]) /\
  convert_to_lowercase quiet "/r" [] ["/r/lib"] w0
  = (([("/r/lib/FOO.HPP", "/r/lib/foo.hpp")], [], [("/r/lib/foo.hpp", "/r/lib/FOO.HPP")]),
     {| fs := fs w0; uuid_count := 2;
        stdout := ["Reverting changes in /r/lib...";
                   "Reverted: /r/lib/foo.hpp -> /r/lib/FOO.HPP (best guess)";
                   "Renamed: /r/lib/FOO.HPP -> /r/lib/foo.hpp"] |}) /\
  fst (convert_to_lowercase quiet_rev "/r" [] ["/r/lib"] w0)
  = ([("/r/lib/Foo.hpp", "/r/lib/foo.hpp")], [], [("/r/lib/foo.hpp", "/r/lib/Foo.hpp")]) /\
  (let '(status, w) := main quiet ["prog"; "/r"; "--revert"; "/r/lib"] w0 in
   status = 0 /\ fs w = fs w0 /\
   In "Renamed: /r/lib/FOO.HPP -> /r/lib/foo.hpp" (stdout w) /\
   In "- Total files renamed: 1" (stdout w)).
Proof. vm_compute. repeat split; auto 20. Qed.

(* ================================================================= *)
(** ** Forward normalization is idempotent *)

(** C4. A plan is made for a file only when its name differs from the
    lowercase name, the two paths of a plan being the same directory
    joined to the name and to the lowercase name; hence on a tree whose
    [.cpp]/[.hpp] files all have lowercase names the forward pass plans
    nothing, reports nothing and leaves the world as it is. *)
Theorem forward_idempotent (O : oracle) (directory : string) (exclude_dirs : list string) :
  (forall (f : fsys) (src dst : string),
      In (src, dst) (fst (first_pass f directory exclude_dirs)) ->
      exists root filename,
        src = OsPath.join root filename /\ dst = OsPath.join root (Py.lower filename) /\
        in_scope filename = true /\ filename <> Py.lower filename) /\
  (forall w : world,
      normalizedb (fs w) directory = true ->
      fst (first_pass (fs w) directory exclude_dirs) = [] /\
      convert_to_lowercase O directory exclude_dirs [] w = (([], [], []), w)).
Proof.
  split.
  - intros f src dst H.
    destruct (plan_origin f directory exclude_dirs src dst H)
      as (root & dirs & files & filename & _ & _ & _ & Hs & Hne & -> & ->).
    exists root, filename. auto.
  - intros w H. pose proof (normalized_no_plans _ _ exclude_dirs H) as Hp.
    split; [exact Hp|].
    unfold convert_to_lowercase, forward_pass. simpl.
    destruct (first_pass (fs w) directory exclude_dirs) as [plans lf].
    simpl in Hp. subst plans. reflexivity.
Qed.

Lemma forward_idempotent_witness :
  (exists root filename,
      "/r/Math/BigInt.hpp" = OsPath.join root filename /\
      "/r/Math/bigint.hpp" = OsPath.join root (Py.lower filename) /\
      in_scope filename = true /\ filename <> Py.lower filename) /\
  (fst (first_pass [("/r", Dir); ("/r/a.cpp", File [x01]); ("/r/README", File [])] "/r" []) = [] /\
   convert_to_lowercase quiet "/r" []  []
     (boot [("/r", Dir); ("/r/a.cpp", File [x01]); ("/r/README", File [])])
   = (([], [], []), boot [("/r", Dir); ("/r/a.cpp", File [x01]); ("/r/README", File [])])).
Proof.
  split.
  - apply (proj1 (forward_idempotent quiet "/r" []) demo_tree).
    vm_compute. left. reflexivity.
  - apply (proj2 (forward_idempotent quiet "/r" [])
             (boot [("/r", Dir); ("/r/a.cpp", File [x01]); ("/r/README", File [])])).
    reflexivity.
Defined.

(** Two runs in a row: the first renames, the second finds nothing to do. *)
Example forward_twice :
  let '(r1, w1) := convert_to_lowercase quiet "/r" ["/r/lib"] [] (boot demo_tree) in
  let '(r2, w2) := convert_to_lowercase quiet "/r" ["/r/lib"] [] w1 in
  r1 = ([("/r/Math/BigInt.hpp", "/r/Math/bigint.hpp")], [], []) /\
  r2 = ([], [], []) /\ w2 = w1.
Proof. vm_compute. repeat split. Qed.

(* ================================================================= *)
(** ** A destination that exists with the same bytes *)



(** The scenario of the specification: [Math/bigint.hpp] and
    [Math/BigInt.hpp] with the same bytes. *)
Example identical_collision_run :
  let '(r, w) :=
    convert_to_lowercase quiet "/root" [] []
      (boot [("/root", Dir); ("/root/Math", Dir);
             ("/root/Math/bigint.hpp", File [x0a; x0b]);
             ("/root/Math/BigInt.hpp", File [x0a; x0b])]) in
  r = ([("/root/Math/BigInt.hpp", "/root/Math/bigint.hpp")], [], []) /\
  fs w = [("/root", Dir); ("/root/Math", Dir); ("/root/Math/bigint.hpp", File [x0a; x0b])].
Proof. vm_compute. split; reflexivity. Qed.

(** The lengths are compared first: when they differ the contents are
    not read, so a refusal to open the files does not matter; when they
    agree the files are opened, and the refusal makes the plan fail. *)
Example sizes_before_contents :
  let bad := refusing [SysOpen "/r/foo.hpp"] in
  fst (fst (convert_to_lowercase bad "/r" [] []
              (boot [("/r", Dir); ("/r/Foo.hpp", File [x01]); ("/r/foo.hpp", File [x01; x02])])))
  = ([("/r/Foo.hpp", "/r/foo.hpp")], []) /\
  fst (fst (convert_to_lowercase bad "/r" [] []
              (boot [("/r", Dir); ("/r/Foo.hpp", File [x01]); ("/r/foo.hpp", File [x02])])))
  = ([], [("/r/Foo.hpp", "[Errno 13] Permission denied: '/r/foo.hpp'")]).
Proof. vm_compute. split; reflexivity. Qed.

(* ================================================================= *)
(** ** Failures of the forward pass stay local *)

(** C6. Whatever the system calls do, a plan whose steps raise is
    caught by its own handler: the plan goes to the skipped list with
    the text of the error, an error line is printed, and the handler
    renames the temporary file back when it exists, keeping the record
    whether or not that renaming works; when the temporary file is
    there and the renaming is not refused, the source is back under
    its name.  The loop goes on: each plan of the batch ends in the
    renamed or in the skipped list, once. *)
Theorem failures_stay_local (O : oracle) (lf : option string) :
  (forall (rep : report) (w : world) (filepath lowercase_filepath : string),
      let tw := fresh_path O "temp_" (OsPath.dirname filepath) filepath w in
      match rename_steps O lf filepath lowercase_filepath (fst tw) (snd tw) with
      | Ok _ w1 =>
          apply_plan O lf (rep, w) (filepath, lowercase_filepath)
          = ((fst rep ++ [(filepath, lowercase_filepath)], snd rep), w1)
      | Raise e w1 =>
          let line := ("ERROR: Failed to rename " ++ filepath ++ ": " ++ str_exn e)%string in
          let w2 := snd (apply_plan O lf (rep, w) (filepath, lowercase_filepath)) in
          fst (apply_plan O lf (rep, w) (filepath, lowercase_filepath))
          = (fst rep, snd rep ++ [(filepath, str_exn e)]) /\
          stdout w2 = stdout w1 ++ [line] /\
          w2 = (if os_path_exists (fst tw) w1
                then world_of (os_rename O (fst tw) filepath (print line w1))
                else print line w1) /\
          (forall d, denied O (SysRename (fst tw) filepath) = false ->
                     Fs.lookup (fst tw) (fs w1) = Some (File d) ->
                     Fs.lookup filepath (fs w1) = None ->
                     Fs.lookup filepath (fs w2) = Some (File d))
      end) /\
  (forall (plans : list (string * string)) (w : world),
      let rep := fst (second_pass O lf plans w) in
      Permutation (map fst plans) (map fst (fst rep) ++ map fst (snd rep)) /\
      incl (fst rep) plans /\
      List.length (fst rep) + List.length (snd rep) = List.length plans).
Proof.
  split.
  - intros [renamed skipped] w filepath lowercase_filepath tw.
    unfold apply_plan. fold tw. destruct tw as [temp w0]. simpl fst. simpl snd.
    destruct (rename_steps O lf filepath lowercase_filepath temp w0) as [[] w1|e w1].
    + reflexivity.
    + simpl. repeat split.
      * now rewrite restore_keeps_output.
      * intros d Hden Ht Hf. now apply restore_puts_back.
  - intros plans w rep. subst rep. unfold second_pass.
    destruct (second_pass_accounts O lf plans ([], []) w) as (ren & sk & E & HP & Hi & Hl).
    unfold report in *. simpl in E. rewrite E. simpl. auto.
Qed.

Lemma failures_stay_local_witness :
  Fs.lookup "/r/Foo.hpp"
    (fs (snd (apply_plan
                (refusing [SysRename "/r/temp_00000000000000000000000000000000.hpp"
                                     "/r/foo.hpp"])
                None (([], []), boot [("/r", Dir); ("/r/Foo.hpp", File [x01])])
                ("/r/Foo.hpp", "/r/foo.hpp"))))
  = Some (File [x01]).
Proof.
  pose proof
    (proj1 (failures_stay_local
              (refusing [SysRename "/r/temp_00000000000000000000000000000000.hpp"
                                   "/r/foo.hpp"]) None)
       ([], []) (boot [("/r", Dir); ("/r/Foo.hpp", File [x01])])
       "/r/Foo.hpp" "/r/foo.hpp") as H.
  vm_compute in H. destruct H as (_ & _ & _ & H).
  apply (H [x01]); reflexivity.
Defined.

(** A batch of two plans where the first fails at its third step: it is
    skipped with the reason, its file is back under its name, and the
    second plan is carried out. *)
Example failure_then_next_plan :
  let bad := refusing [SysRename "/r/temp_00000000000000000000000000000000.hpp"
                                 "/r/foo.hpp"] in
  let '(r, w) :=
    convert_to_lowercase bad "/r" [] []
      (boot [("/r", Dir); ("/r/Foo.hpp", File [x01]); ("/r/Bar.cpp", File [x02])]) in
  r = ([("/r/Bar.cpp", "/r/bar.cpp")],
       [("/r/Foo.hpp",
         "[Errno 13] Permission denied: '/r/temp_00000000000000000000000000000000.hpp' -> '/r/foo.hpp'")],
       []) /\
  fs w = [("/r", Dir); ("/r/Foo.hpp", File [x01]); ("/r/bar.cpp", File [x02])].
Proof. vm_compute. split; reflexivity. Qed.

(** The same when the renaming back is refused too: the file stays
    under the temporary name, and the failure is recorded all the same. *)
Example failure_with_failed_compensation :
  let bad := refusing [SysRename "/r/temp_00000000000000000000000000000000.hpp" "/r/foo.hpp";
                       SysRename "/r/temp_00000000000000000000000000000000.hpp" "/r/Foo.hpp"] in
  let '(r, w) :=
    convert_to_lowercase bad "/r" [] []
      (boot [("/r", Dir); ("/r/Foo.hpp", File [x01]); ("/r/Bar.cpp", File [x02])]) in
  r = ([("/r/Bar.cpp", "/r/bar.cpp")],
       [("/r/Foo.hpp",
         "[Errno 13] Permission denied: '/r/temp_00000000000000000000000000000000.hpp' -> '/r/foo.hpp'")],
       []) /\
  fs w = [("/r", Dir); ("/r/temp_00000000000000000000000000000000.hpp", File [x01]);
          ("/r/bar.cpp", File [x02])].
Proof. vm_compute. split; reflexivity. Qed.

(* ================================================================= *)
(** ** A revert that finds nothing *)

(** C7, refuted as stated.  The file [1.cpp] has one guess, its own
    name, which exists: no candidate is viable, and the run reports
    nothing for it, the skipped list being empty.  And when every
    renaming is refused, each attempt prints a line starting with
    ERROR, and the skipped list is empty again. *)
Lemma revert_miss_not_skipped :
  let w0 := boot [("/r", Dir); ("/r/1.cpp", File [x01])] in
  let w1 := boot [("/r", Dir); ("/r/foo.hpp", File [x01])] in
  (guesses_tried quiet (fs w0) "/r" "1.cpp" = ["1.cpp"] /\
   os_path_exists "/r/1.cpp" w0 = true /\
   convert_to_lowercase quiet "/r" [] ["/r"] w0
   = (([], [], []),
      {| fs := fs w0; uuid_count := 0; stdout := ["Reverting changes in /r..."] |}) /\
   ~ reported_skipped "/r/1.cpp" (convert_to_lowercase quiet "/r" [] ["/r"] w0)) /\
  (fst (convert_to_lowercase refusing_all "/r" [] ["/r"] w1) = ([], [], []) /\
   ~ reported_skipped "/r/foo.hpp" (convert_to_lowercase refusing_all "/r" [] ["/r"] w1) /\
   hd "" (tl (stdout (snd (convert_to_lowercase refusing_all "/r" [] ["/r"] w1))))
   = "ERROR: Failed to revert /r/foo.hpp to /r/Foo.HPP: [Errno 13] Permission denied: '/r/foo.hpp' -> '/r/temp_00000000000000000000000000000000.hpp'").
Proof.
  vm_compute. repeat split; try (intros H; exact H).
Qed.

(** C7, amended.  When every guess exists already the loop leaves the
    world and the lists as they are; an attempt that raises prints an
    ERROR line, lets the handler rename the temporary file back, and
    goes on with the next guess, adding to no list; and no run puts a
    file the revert pass handles, whose name is lowercase, in the
    skipped list, which holds sources of the forward pass only. *)
Theorem revert_miss_leaves_no_record (O : oracle) :
  (forall (root filepath : string) (candidates : list string) (st : revert_state),
      (forall c, In c candidates -> os_path_exists (OsPath.join root c) (snd st) = true) ->
      try_candidates O root filepath candidates st = st) /\
  (forall (root filepath c : string) (rest : list string)
          (reverted_files : list (string * string)) (w : world),
      os_path_exists (OsPath.join root c) w = false ->
      let tw := fresh_path O "temp_" root filepath w in
      match (os_rename O filepath (fst tw) ;;;
             os_rename O (fst tw) (OsPath.join root c)) (snd tw) with
      | Ok _ _ => True
      | Raise e w1 =>
          try_candidates O root filepath (c :: rest) (reverted_files, w)
          = try_candidates O root filepath rest
              (reverted_files,
               restore O (fst tw) filepath
                 (print ("ERROR: Failed to revert " ++ filepath ++ " to "
                         ++ OsPath.join root c ++ ": " ++ str_exn e) w1))
      end) /\
  (forall (directory : string) (exclude_dirs revert_dirs : list string) (w : world)
          (root filename : string),
      Fs.contains_sep filename = false ->
      filename = Py.lower filename ->
      ~ reported_skipped (OsPath.join root filename)
          (convert_to_lowercase O directory exclude_dirs revert_dirs w)).
Proof.
  split; [|split].
  - intros. now apply no_free_guess_no_change.
  - intros root filepath c rest reverted_files w Hex tw.
    cbn [try_candidates]. rewrite Hex. fold tw. destruct tw as [temp w0]. simpl fst. simpl snd.
    destruct ((os_rename O filepath temp ;;; os_rename O temp (OsPath.join root c)) w0)
      as [[] w1|e w1]; [exact I|reflexivity].
  - intros directory exclude_dirs revert_dirs w root filename Hsep Hlow Hin.
    apply skipped_are_forward_sources in Hin as [_ Hne].
    rewrite (basename_join _ _ Hsep) in Hne. contradiction.
Qed.

Lemma revert_miss_leaves_no_record_witness :
  try_candidates quiet "/r" "/r/1.cpp" ["1.cpp"]
    ([], boot [("/r", Dir); ("/r/1.cpp", File [x01])])
  = ([], boot [("/r", Dir); ("/r/1.cpp", File [x01])]) /\
  ~ reported_skipped (OsPath.join "/r" "1.cpp")
      (convert_to_lowercase quiet "/r" [] ["/r"] (boot [("/r", Dir); ("/r/1.cpp", File [x01])])).
Proof.
  split.
  - apply (proj1 (revert_miss_leaves_no_record quiet)).
    intros c [<-|[]]. reflexivity.
  - apply (proj2 (proj2 (revert_miss_leaves_no_record quiet))); reflexivity.
Defined.

(* ================================================================= *)
(** ** Exclusion *)

(** C8, evaluated on a directory [/r] holding the file [Foo.hpp] and
    the excluded directory [foo.hpp] with the file [X.CPP] in it.  The
    containing directory of [X.CPP] starts with the exclusion entry and
    the first pass makes no plan for it.  The plan for [Foo.hpp] finds
    its lowercase path taken, by the excluded directory: step 2 tests
    [os.path.exists], which holds of a directory too, and renames what
    is there to a backup name, and step 4 renames the backup to the
    [_alt] name.  The excluded directory is now [foo_alt.hpp], and the
    file of the excluded directory is no longer under its path but
    under [/r/foo_alt.hpp/X.CPP]: the forward pass has renamed it. *)
Theorem excluded_directory_is_moved :
  let w0 := boot [("/r", Dir); ("/r/Foo.hpp", File [x01]); ("/r/foo.hpp", Dir);
                  ("/r/foo.hpp/X.CPP", File [x02; x03])] in
  let result := forward_pass quiet "/r" ["/r/foo.hpp"] w0 in
  Py.startswith (OsPath.dirname "/r/foo.hpp/X.CPP") "/r/foo.hpp" = true /\
  should_exclude ["/r/foo.hpp"] (OsPath.dirname "/r/foo.hpp/X.CPP") = true /\
  fst (first_pass (fs w0) "/r" ["/r/foo.hpp"]) = [("/r/Foo.hpp", "/r/foo.hpp")] /\
  Fs.lookup "/r/foo.hpp/X.CPP" (fs w0) = Some (File [x02; x03]) /\
  fst result = ([("/r/Foo.hpp", "/r/foo.hpp")], []) /\
  Fs.lookup "/r/foo.hpp/X.CPP" (fs (snd result)) = None /\
  Fs.lookup "/r/foo_alt.hpp/X.CPP" (fs (snd result)) = Some (File [x02; x03]) /\
  fs (snd result) = [("/r", Dir); ("/r/foo.hpp", File [x01]); ("/r/foo_alt.hpp", Dir);
                     ("/r/foo_alt.hpp/X.CPP", File [x02; x03])] /\
  stdout (snd result)
  = ["Renamed: /r/Foo.hpp -> /r/foo.hpp (kept existing as foo_alt.hpp)"].
Proof. vm_compute. repeat split. Qed.

(** The same through [main], with [--exclude /r/foo.hpp]. *)
Example main_moves_excluded_directory :
  fs (snd (main quiet ["prog"; "/r"; "--exclude"; "/r/foo.hpp"]
             (boot [("/r", Dir); ("/r/Foo.hpp", File [x01]); ("/r/foo.hpp", Dir);
                    ("/r/foo.hpp/X.CPP", File [x02; x03])])))
  = [("/r", Dir); ("/r/foo.hpp", File [x01]); ("/r/foo_alt.hpp", Dir);
     ("/r/foo_alt.hpp/X.CPP", File [x02; x03])].
Proof. vm_compute. reflexivity. Qed.

(** When the directory reports the size of the file, the comparison of
    the contents opens the directory and raises: the plan is recorded
    as skipped, and the excluded directory stays under the backup
    name. *)
Example equal_sizes_leave_directory_under_backup :
  let O := {| uuid4_hex := hex32; denied := fun _ => false; set_order := nodup string_dec;
              dir_st_size := fun _ => 1 |} in
  let result := forward_pass O "/r" ["/r/foo.hpp"]
                  (boot [("/r", Dir); ("/r/Foo.hpp", File [x01]); ("/r/foo.hpp", Dir);
                         ("/r/foo.hpp/X.CPP", File [x02; x03])]) in
  map fst (snd (fst result)) = ["/r/Foo.hpp"] /\
  Fs.lookup "/r/foo.hpp/X.CPP" (fs (snd result)) = None /\
  Fs.lookup "/r/backup_00000000000000000000000000000001.hpp/X.CPP" (fs (snd result))
  = Some (File [x02; x03]).
Proof. vm_compute. repeat split. Qed.

(** What holds of the claim.  Whatever the forward pass reports,
    renamed or failed, is a file the walk found in a directory whose
    path starts with no exclusion entry, and the path of its containing
    directory, [os.path.dirname] of its path, starts with none either:
    a file under an excluded prefix is never the source of a renaming.
    A directory whose path starts with an exclusion entry gives no
    plan, whatever the case of its files.  A path whose containing
    directory starts with an exclusion entry holds after the pass what
    it held before, whatever the system calls do, when no directory
    bears a name the pass handles.  The test is on the raw string:
    excluding [/src/lib] excludes [/src/libfoo] too. *)
Lemma exclusion_respected (O : oracle) (directory : string) (exclude_dirs : list string)
  (w : world) :
  (forall src : string,
      In src (map fst (fst (fst (forward_pass O directory exclude_dirs w)))
              ++ map fst (snd (fst (forward_pass O directory exclude_dirs w)))) ->
      (exists root dirs files filename,
          In (root, dirs, files) (Fs.os_walk (fs w) directory) /\ In filename files /\
          src = OsPath.join root filename /\
          forall e, In e exclude_dirs -> Py.startswith root e = false) /\
      (forall e, In e exclude_dirs -> Py.startswith (OsPath.dirname src) e = false)) /\
  (forall (root : string) (dirs files : list string) (e : string),
      In e exclude_dirs -> Py.startswith root e = true ->
      dir_plans exclude_dirs (root, dirs, files) = []) /\
  ((forall n, Fs.contains_sep (uuid4_hex O n) = false) ->
   (forall plan k,
       In plan (fst (first_pass (fs w) directory exclude_dirs)) ->
       touchable O (snd (first_pass (fs w) directory exclude_dirs)) plan k ->
       Fs.lookup k (fs w) <> Some Dir) ->
   forall p e,
     In e exclude_dirs -> Py.startswith (OsPath.dirname p) e = true ->
     Fs.lookup p (fs (snd (forward_pass O directory exclude_dirs w))) = Fs.lookup p (fs w)) /\
  (should_exclude ["/src/lib"] "/src/libfoo" = true /\
   fst (first_pass libfoo_tree "/src" ["/src/lib"]) = [("/src/C.cpp", "/src/c.cpp")]).
Proof.
  split; [|split; [|split]].
  - intros src Hsrc.
    destruct (forward_pass_accounts O directory exclude_dirs w) as (_ & HP & _).
    apply (Permutation_in _ (Permutation_sym HP)) in Hsrc.
    apply in_map_iff in Hsrc as ([s d] & <- & Hin). simpl.
    destruct (plan_origin _ _ _ _ _ Hin)
      as (root & dirs & files & filename & Hy & Hf & Hex & _ & _ & -> & _).
    pose proof (should_exclude_false _ _ Hex) as Hroot.
    split.
    + exists root, dirs, files, filename. repeat split; trivial.
    + destruct (os_walk_file _ _ _ _ _ _ Hy Hf) as (_ & _ & Hsep).
      apply should_exclude_false.
      exact (prefix_not_excluded _ _ _ (dirname_join_prefix root filename Hsep) Hex).
  - intros root dirs files e He Hs. unfold dir_plans. simpl.
    replace (should_exclude exclude_dirs root) with true; [reflexivity|].
    symmetry. apply existsb_exists. eauto.
  - intros Hu Hdir p e He Hs. apply (excluded_paths_untouched O); trivial.
    apply existsb_exists. eauto.
  - split; reflexivity.
Qed.

Lemma exclusion_on_libfoo :
  ((exists root dirs files filename,
       In (root, dirs, files) (Fs.os_walk libfoo_tree "/src") /\ In filename files /\
       "/src/C.cpp" = OsPath.join root filename /\
       forall e, In e ["/src/lib"] -> Py.startswith root e = false) /\
   (forall e, In e ["/src/lib"] -> Py.startswith (OsPath.dirname "/src/C.cpp") e = false)) /\
  dir_plans ["/src/lib"] ("/src/libfoo", [], ["B.cpp"]) = [] /\
  Fs.lookup "/src/libfoo/B.cpp"
    (fs (snd (forward_pass quiet "/src" ["/src/lib"] (boot libfoo_tree))))
  = Fs.lookup "/src/libfoo/B.cpp" (fs (boot libfoo_tree)).
Proof.
  split; [|split].
  - apply (proj1 (exclusion_respected quiet "/src" ["/src/lib"] (boot libfoo_tree))).
    vm_compute. left. reflexivity.
  - apply (proj1 (proj2 (exclusion_respected quiet "/src" ["/src/lib"] (boot libfoo_tree)))
             "/src/libfoo" [] ["B.cpp"] "/src/lib").
    + left. reflexivity.
    + reflexivity.
  - apply (proj1 (proj2 (proj2 (exclusion_respected quiet "/src" ["/src/lib"]
                                  (boot libfoo_tree))))) with (e := "/src/lib").
    + exact hex32_no_sep.
    + intros plan k Hin Hk.
      change (fst (first_pass (fs (boot libfoo_tree)) "/src" ["/src/lib"]))
        with [("/src/C.cpp", "/src/c.cpp")] in Hin.
      change (snd (first_pass (fs (boot libfoo_tree)) "/src" ["/src/lib"]))
        with (Some "c.cpp") in Hk.
      destruct Hin as [<-|[]].
      destruct Hk as [->|[->|[(n & ->)|[(n & ->)|(name & Hn & ->)]]]];
        try (injection Hn as <-); cbv; discriminate.
    + left. reflexivity.
    + reflexivity.
Defined.

(** The whole run on that tree: only [C.cpp] is renamed. *)
Example exclusion_run :
  let '(r, w) := convert_to_lowercase quiet "/src" ["/src/lib"] [] (boot libfoo_tree) in
  r = ([("/src/C.cpp", "/src/c.cpp")], [], []) /\
  fs w = [ ("/src", Dir); ("/src/lib", Dir); ("/src/libfoo", Dir);
           ("/src/lib/A.cpp", File [x01]); ("/src/libfoo/B.cpp", File [x02]);
           ("/src/c.cpp", File [x03]) ].
Proof. vm_compute. split; reflexivity. Qed.

(* ================================================================= *)
(** ** The guesses of the revert pass and their order *)

(** C9, refuted as stated.  For [foo.hpp] alone in its directory the
    guesses tried are not the sequence of the specification, even when
    the set keeps the order of construction: the transform that leaves
    the stem as it is gives no guess, and two guesses with the
    extension unchanged are added; with another set order the first
    guess tried is another one.  And next to a sibling [Foo.hpp] the
    sibling is the only guess: no transform follows it. *)
Lemma guesses_not_in_spec_order :
  let f := [("/r", Dir); ("/r/foo.hpp", File [x01])] in
  let g := [("/r", Dir); ("/r/foo.hpp", File [x01]); ("/r/Foo.hpp", File [x02])] in
  spec_guess_sequence f "/r" "foo.hpp"
  = ["Foo.HPP"; "Foo.Hpp"; "FOO.HPP"; "FOO.Hpp"; "foo.HPP"; "foo.Hpp"; "Foo.HPP"; "Foo.Hpp"] /\
  guesses_tried quiet_first f "/r" "foo.hpp"
  = ["Foo.HPP"; "Foo.Hpp"; "FOO.HPP"; "FOO.Hpp"; "FOO.hpp"; "Foo.hpp"] /\
  guesses_tried quiet_first f "/r" "foo.hpp" <> spec_guess_sequence f "/r" "foo.hpp" /\
  guesses_tried quiet f "/r" "foo.hpp"
  = ["FOO.HPP"; "FOO.Hpp"; "Foo.HPP"; "Foo.Hpp"; "FOO.hpp"; "Foo.hpp"] /\
  fst (revert_lowercase_conversion quiet "/r" (boot f)) = [("/r/foo.hpp", "/r/FOO.HPP")] /\
  guesses_tried quiet g "/r" "foo.hpp" = ["Foo.hpp"] /\
  guesses_tried quiet g "/r" "foo.hpp" <> spec_guess_sequence g "/r" "foo.hpp".
Proof.
  vm_compute. repeat split; intros H; discriminate H.
Qed.

(** C9, amended.  With a similar file in the directory the first one
    listed is the only guess.  Otherwise the guesses are those the
    loops build: for each of the four transforms, in the order first
    letter upper, all upper, camel case, Pascal case, and when it
    changes the stem, the transformed stem with each extension variant,
    then the upper and the capitalized stem with the extension
    unchanged; they are tried once each, in the order in which the set
    lists them.  A file in scope with a lowercase name is handled with
    these guesses in this order. *)
Theorem guesses_are_built_then_listed (O : oracle) (f : fsys) (root filename : string) :
  set_like (set_order O) ->
  let name := fst (OsPath.splitext filename) in
  let ext := Py.slice_from 1 (snd (OsPath.splitext filename)) in
  build_potential_names name ext
  = flat_map (guesses_of_pattern name ext)
      [pattern_first_upper; pattern_upper; pattern_camel; pattern_pascal]
    ++ [(Py.upper name ++ "." ++ ext)%string; (Py.capitalize name ++ "." ++ ext)%string] /\
  (similar_files f root filename = [] ->
   NoDup (guesses_tried O f root filename) /\
   forall c, In c (guesses_tried O f root filename) <-> In c (build_potential_names name ext)) /\
  (forall s rest, similar_files f root filename = s :: rest ->
                  guesses_tried O f root filename = [s]) /\
  (forall st : revert_state,
      in_scope filename = true -> filename = Py.lower filename -> fs (snd st) = f ->
      revert_file O root st filename
      = match similar_files f root filename with
        | s :: _ => revert_to_sibling O root (OsPath.join root filename) s st
        | [] => try_candidates O root (OsPath.join root filename)
                  (guesses_tried O f root filename) st
        end).
Proof.
  intros Hset name ext. split; [apply build_potential_names_eq|]. split; [|split].
  - intros Hs. unfold guesses_tried. rewrite Hs. fold name ext.
    unfold potential_original_names. apply Hset.
  - intros s rest Hs. unfold guesses_tried. now rewrite Hs.
  - intros st Hscope Hlow Hf. unfold revert_file, guesses_tried.
    rewrite Hscope, Hf. rewrite <- Hlow, String.eqb_refl. simpl negb. cbv iota.
    subst name ext. destruct (OsPath.splitext filename) as [nm de]. simpl fst. simpl snd.
    destruct (similar_files f root filename); reflexivity.
Qed.

Lemma guesses_are_built_then_listed_witness :
  NoDup (guesses_tried quiet [("/r", Dir); ("/r/big_int.cpp", File [x01])] "/r" "big_int.cpp") /\
  (In "bigInt.Cpp"
      (guesses_tried quiet [("/r", Dir); ("/r/big_int.cpp", File [x01])] "/r" "big_int.cpp")
   <-> In "bigInt.Cpp" (build_potential_names "big_int" "cpp")).
Proof.
  destruct (guesses_are_built_then_listed quiet
              [("/r", Dir); ("/r/big_int.cpp", File [x01])] "/r" "big_int.cpp"
              set_like_nodup) as (_ & H & _).
  destruct (H eq_refl) as [Hn Hi]. split; [exact Hn|exact (Hi "bigInt.Cpp")].
Defined.

(** The guesses for a stem with an underscore. *)
Example guesses_big_int :
  build_potential_names "big_int" "cpp"
  = ["Big_int.CPP"; "Big_int.Cpp"; "BIG_INT.CPP"; "BIG_INT.Cpp"; "bigInt.CPP"; "bigInt.Cpp";
     "BigInt.CPP"; "BigInt.Cpp"; "BIG_INT.cpp"; "Big_int.cpp"].
Proof. reflexivity. Qed.

(** With a sibling and every renaming refused there is one attempt, on
    the sibling, and no other guess is tried. *)
Example sibling_is_the_only_attempt :
  stdout (snd (revert_lowercase_conversion refusing_all "/r"
                 (boot [("/r", Dir); ("/r/foo.hpp", File [x01]); ("/r/Foo.hpp", File [x02])])))
  = ["ERROR: Failed to revert /r/foo.hpp: [Errno 13] Permission denied: '/r/foo.hpp' -> '/r/temp_00000000000000000000000000000000.hpp'"].
Proof. vm_compute. reflexivity. Qed.

(* ================================================================= *)
(** ** Reverting and the files that are not lowercase *)

(** C10, evaluated on a directory holding [Vector.cpp] and
    [vector.cpp]: the revert pass takes the lowercase file as its
    source, as the claim says, and renames it onto [Vector.cpp]; the
    mixed-case file keeps its name and loses its bytes. *)
Theorem revert_changes_mixed_case_file :
  let w0 := boot [("/p", Dir); ("/p/Vector.cpp", File [x0a; x0b]); ("/p/vector.cpp", File [x0c])] in
  let w1 := snd (revert_lowercase_conversion quiet "/p" w0) in
  Fs.lookup "/p/Vector.cpp" (fs w0) = Some (File [x0a; x0b]) /\
  Fs.lookup "/p/Vector.cpp" (fs w1) = Some (File [x0c]) /\
  fs w1 = [("/p", Dir); ("/p/Vector.cpp", File [x0c])].
Proof. vm_compute. repeat split. Qed.

(** What holds of the claim: a file whose name is not lowercase is
    never the source of a reverting. *)
Lemma revert_skips_non_lowercase (O : oracle) (root filename : string) (st : revert_state) :
  filename <> Py.lower filename -> revert_file O root st filename = st.
Proof.
  intros H. unfold revert_file. destruct (in_scope filename); [|reflexivity].
  destruct (String.eqb_spec filename (Py.lower filename)); [contradiction|reflexivity].
Qed.

(* ################################################################# *)
(** * Further properties of the script *)

(* ================================================================= *)
(** ** Lemmas on strings *)

Section SplitFacts.

Lemma should_exclude_empty_entry (exclude_dirs : list string) (root : string) :
  In "" exclude_dirs -> should_exclude exclude_dirs root = true.
Proof.
  intros H. apply existsb_exists. exists "". split; [exact H|].
  unfold Py.startswith. apply prefix_empty.
Qed.

Lemma split_trailing_sep (c : ascii) (s : string) :
  exists l, l <> [] /\ Py.split c (s ++ String c "") = l ++ [""].
Proof.
  induction s as [|a s (l & Hl & E)]; simpl.
  - rewrite Ascii.eqb_refl. exists [""]. split; [discriminate|reflexivity].
  - rewrite E. destruct (Ascii.eqb a c).
    + exists ("" :: l). split; [discriminate|reflexivity].
    + destruct l as [|h t]; [contradiction|]. simpl.
      exists (String a h :: t). split; [discriminate|reflexivity].
Qed.

Lemma has_char_cons (c a : ascii) (s : string) :
  has_char c (String a s) = false -> Ascii.eqb a c = false /\ has_char c s = false.
Proof.
  unfold has_char. simpl. destruct (Py.rfind c s); [discriminate|].
  destruct (Ascii.eqb a c); [discriminate|]. auto.
Qed.

Lemma split_no_sep (c : ascii) (s : string) : has_char c s = false -> Py.split c s = [s].
Proof.
  induction s as [|a s IH]; intros H; [reflexivity|].
  apply has_char_cons in H as [Ha Hs]. simpl. rewrite Ha, (IH Hs). reflexivity.
Qed.

Lemma split_app_sep (c : ascii) (x rest : string) :
  has_char c x = false -> Py.split c (x ++ String c rest) = x :: Py.split c rest.
Proof.
  induction x as [|a x IH]; intros H; simpl.
  - now rewrite Ascii.eqb_refl.
  - apply has_char_cons in H as [Ha Hx]. rewrite Ha, (IH Hx). reflexivity.
Qed.

(** Splitting at the commas the list that was joined with commas. *)
Lemma split_join (c : ascii) (l : list string) :
  l <> [] -> (forall x, In x l -> has_char c x = false) ->
  Py.split c (Py.join (String c "") l) = l.
Proof.
  unfold Py.join. induction l as [|x l IH]; intros Hne Hl; [contradiction|].
  destruct l as [|y l].
  - simpl. apply split_no_sep. apply Hl. now left.
  - change (String.concat (String c "") (x :: y :: l))
      with (x ++ String c (String.concat (String c "") (y :: l)))%string.
    rewrite split_app_sep by (apply Hl; now left).
    f_equal. apply IH; [discriminate|]. intros z Hz. apply Hl. now right.
Qed.

End SplitFacts.

Section CaseFacts.

Lemma lower_upper_ascii (c : ascii) : Py.lower_ascii (Py.upper_ascii c) = Py.lower_ascii c.
Proof. destruct c as [[] [] [] [] [] [] [] []]; reflexivity. Qed.

Lemma lower_lower_ascii (c : ascii) : Py.lower_ascii (Py.lower_ascii c) = Py.lower_ascii c.
Proof. destruct c as [[] [] [] [] [] [] [] []]; reflexivity. Qed.

Lemma lower_idem (s : string) : Py.lower (Py.lower s) = Py.lower s.
Proof. induction s as [|c s IH]; simpl; [reflexivity|]. now rewrite IH, lower_lower_ascii. Qed.

Lemma lower_upper (s : string) : Py.lower (Py.upper s) = Py.lower s.
Proof. induction s as [|c s IH]; simpl; [reflexivity|]. now rewrite IH, lower_upper_ascii. Qed.

Lemma lower_capitalize (s : string) : Py.lower (Py.capitalize s) = Py.lower s.
Proof. destruct s as [|c s]; simpl; [reflexivity|]. now rewrite lower_idem, lower_upper_ascii. Qed.

Lemma lower_first_upper (s : string) : Py.lower (pattern_first_upper s) = Py.lower s.
Proof. destruct s as [|c s]; simpl; [reflexivity|]. now rewrite lower_upper_ascii. Qed.

Lemma lower_app (a b : string) : Py.lower (a ++ b) = (Py.lower a ++ Py.lower b)%string.
Proof. induction a as [|c a IH]; simpl; [reflexivity|]. now rewrite IH. Qed.

Lemma camel_no_underscore (s : string) : has_char "_" s = false -> pattern_camel s = s.
Proof.
  intros H. unfold pattern_camel. rewrite (split_no_sep "_" s H). simpl.
  reflexivity.
Qed.

Lemma pascal_no_underscore (s : string) :
  has_char "_" s = false -> pattern_pascal s = Py.capitalize s.
Proof.
  intros H. unfold pattern_pascal. rewrite (split_no_sep "_" s H). reflexivity.
Qed.

Lemma potential_exts_lower (ext e : string) :
  In e (potential_exts ext) -> Py.lower e = Py.lower ext.
Proof.
  unfold potential_exts, case_map.
  destruct (String.eqb_spec (Py.lower ext) "cpp") as [E|_].
  - rewrite E. intros [<-|[<-|[]]]; reflexivity.
  - destruct (String.eqb_spec (Py.lower ext) "hpp") as [E|_].
    + rewrite E. intros [<-|[<-|[]]]; reflexivity.
    + intros [<-|[<-|[]]]; [apply lower_upper|apply lower_capitalize].
Qed.

Lemma pattern_lower (name : string) (p : string -> string) :
  has_char "_" name = false -> In p capitalization_patterns ->
  Py.lower (p name) = Py.lower name.
Proof.
  intros H [<-|[<-|[<-|[<-|[]]]]].
  - apply lower_first_upper.
  - apply lower_upper.
  - now rewrite camel_no_underscore.
  - rewrite pascal_no_underscore by exact H. apply lower_capitalize.
Qed.

Lemma built_names_lower (name ext c : string) :
  has_char "_" name = false ->
  In c (build_potential_names name ext) ->
  Py.lower c = Py.lower (name ++ "." ++ ext).
Proof.
  intros Hu Hc. rewrite build_potential_names_eq in Hc.
  rewrite !lower_app. change (Py.lower ".") with ".".
  apply in_app_or in Hc as [Hc|[<-|[<-|[]]]].
  - apply in_flat_map in Hc as (p & Hp & Hc). unfold guesses_of_pattern in Hc.
    destruct (String.eqb (p name) name); [contradiction|].
    apply in_map_iff in Hc as (e & <- & He).
    rewrite !lower_app, (pattern_lower name p Hu Hp), (potential_exts_lower ext e He).
    reflexivity.
  - now rewrite !lower_app, lower_upper.
  - now rewrite !lower_app, lower_capitalize.
Qed.

(** The character at the last occurrence splits the string. *)
Lemma rfind_parts (c : ascii) (s : string) (i : nat) :
  Py.rfind c s = Some i ->
  exists rest, Py.slice_from i s = String c rest /\ s = (Py.slice_to i s ++ String c rest)%string.
Proof.
  revert i. induction s as [|a s IH]; intros i; simpl; [discriminate|].
  destruct (Py.rfind c s) as [j|] eqn:E.
  - intros [= <-]. destruct (IH j eq_refl) as (rest & H1 & H2).
    exists rest. split.
    + exact H1.
    + unfold Py.slice_to in *. simpl. now rewrite <- H2.
  - destruct (Ascii.eqb_spec a c) as [->|]; [|discriminate].
    intros [= <-]. exists s. split; [|reflexivity].
    unfold Py.slice_from. simpl. now rewrite substring_all.
Qed.

(** A name with an extension is its stem, a dot and the extension. *)
Lemma splitext_parts (p : string) :
  snd (OsPath.splitext p) <> "" ->
  (fst (OsPath.splitext p) ++ "." ++ Py.slice_from 1 (snd (OsPath.splitext p)))%string = p.
Proof.
  unfold OsPath.splitext.
  destruct (Py.rfind "." p) as [d|] eqn:E; [|simpl; congruence].
  match goal with |- context [if ?b then _ else _] => destruct b end; [|simpl; congruence].
  cbn [fst snd]. intros _.
  destruct (rfind_parts "." p d E) as (rest & H1 & H2).
  rewrite H1. unfold Py.slice_from at 1. cbn [String.length substring Nat.sub].
  rewrite ?Nat.sub_0_r, substring_all. symmetry. exact H2.
Qed.

End CaseFacts.

Lemma in_scope_lower (filename : string) : in_scope (Py.lower filename) = in_scope filename.
Proof. unfold in_scope. now rewrite lower_idem. Qed.

(* ================================================================= *)
(** ** The forward pass *)

(** X1.  [convert_to_lowercase], the first pass (lines 46-65).  Every
    planned renaming takes a regular file of the tree, whose name is in
    scope, to a different path with the lowercased name; the target
    name is in scope and lowercase, so the first pass makes no plan for
    it. *)
Theorem plans_are_well_formed (f : fsys) (directory : string) (exclude_dirs : list string)
  (src dst : string) :
  In (src, dst) (fst (first_pass f directory exclude_dirs)) ->
  (exists d, In (src, File d) f) /\
  src <> dst /\
  basename dst = Py.lower (basename src) /\
  Py.lower (basename dst) = basename dst /\
  in_scope (basename src) = true /\ in_scope (basename dst) = true /\
  plan_of (OsPath.dirname dst) (basename dst) = [].
Proof.
  intros H.
  destruct (plan_origin f directory exclude_dirs src dst H)
    as (root & dirs & files & filename & Hy & Hf & _ & Hs & Hne & -> & ->).
  destruct (os_walk_file _ _ _ _ _ _ Hy Hf) as (Hd & _ & Hsep).
  assert (Hl : Fs.contains_sep (Py.lower filename) = false) by now rewrite lower_no_sep.
  rewrite (basename_join root filename Hsep), (basename_join root (Py.lower filename) Hl).
  repeat split; trivial.
  - intros E. apply Hne. apply (f_equal basename) in E.
    now rewrite (basename_join root filename Hsep),
      (basename_join root (Py.lower filename) Hl) in E.
  - apply lower_idem.
  - now rewrite in_scope_lower.
  - unfold plan_of. now rewrite lower_idem, String.eqb_refl, andb_false_r.
Qed.

Lemma plans_are_well_formed_witness :
  (exists d, In ("/r/Math/BigInt.hpp", File d) demo_tree) /\
  "/r/Math/BigInt.hpp" <> "/r/Math/bigint.hpp" /\
  basename "/r/Math/bigint.hpp" = Py.lower (basename "/r/Math/BigInt.hpp") /\
  Py.lower (basename "/r/Math/bigint.hpp") = basename "/r/Math/bigint.hpp" /\
  in_scope (basename "/r/Math/BigInt.hpp") = true /\
  in_scope (basename "/r/Math/bigint.hpp") = true /\
  plan_of (OsPath.dirname "/r/Math/bigint.hpp") (basename "/r/Math/bigint.hpp") = [].
Proof.
  apply (plans_are_well_formed demo_tree "/r" ["/r/lib"]).
  vm_compute. left. reflexivity.
Defined.

Lemma bytes_eqb_neq (a b : list byte) : a <> b -> Fs.bytes_eqb a b = false.
Proof.
  intros H. destruct (Fs.bytes_eqb a b) eqn:E; [|reflexivity].
  elim H. now apply bytes_eqb_eq.
Qed.

(** X2.  [convert_to_lowercase], the second pass without a collision
    (lines 68-85, 103-106).  When the lowercase path and the temporary
    path are free and the two renamings are let through, the file is
    recorded as renamed, its bytes are found under the lowercase path,
    the old path is gone, every other path is as before, one line is
    printed and one uuid is drawn. *)
Theorem plain_rename_moves_bytes (O : oracle) (lf : option string) (rep : report) (w : world)
  (src dst : string) (d : list byte) :
  let temp := OsPath.join (OsPath.dirname src)
                ("temp_" ++ uuid4_hex O (uuid_count w) ++ snd (OsPath.splitext src)) in
  denied O (SysRename src temp) = false ->
  denied O (SysRename temp dst) = false ->
  Fs.lookup src (fs w) = Some (File d) ->
  Fs.lookup dst (fs w) = None ->
  Fs.lookup temp (fs w) = None ->
  temp <> dst ->
  exists w',
    apply_plan O lf (rep, w) (src, dst) = ((fst rep ++ [(src, dst)], snd rep), w') /\
    (forall k, Fs.lookup k (fs w') =
               if String.eqb k dst then Some (File d)
               else if String.eqb k src then None else Fs.lookup k (fs w)) /\
    stdout w' = stdout w ++ [("Renamed: " ++ src ++ " -> " ++ dst)%string] /\
    uuid_count w' = S (uuid_count w).
Proof.
  intros temp Hd1 Hd2 Hsrc Hdst Htemp Htd.
  assert (Hts : temp <> src) by congruence.
  assert (Hsd : src <> dst) by congruence.
  destruct rep as [renamed skipped].
  unfold apply_plan, fresh_path, uuid4. cbn [fst snd uuid_count]. fold temp.
  set (w0 := {| fs := fs w; uuid_count := S (uuid_count w); stdout := stdout w |}).
  unfold rename_steps, bind.
  destruct (os_rename_file O src temp d w0 Hd1 Hsrc) as (w1 & E1 & U1 & S1 & L1).
  { simpl. rewrite Htemp. discriminate. }
  { congruence. }
  rewrite E1.
  assert (Ex : os_path_exists dst w1 = false).
  { unfold os_path_exists. rewrite L1.
    rewrite (proj2 (String.eqb_neq dst temp)), (proj2 (String.eqb_neq dst src)) by congruence.
    simpl. now rewrite Hdst. }
  rewrite Ex. unfold ret.
  destruct (os_rename_file O temp dst d w1 Hd2) as (w2 & E2 & U2 & S2 & L2).
  { rewrite L1. now rewrite String.eqb_refl. }
  { rewrite L1.
    rewrite (proj2 (String.eqb_neq dst temp)), (proj2 (String.eqb_neq dst src)) by congruence.
    simpl. rewrite Hdst. discriminate. }
  { exact Htd. }
  rewrite E2. unfold say.
  eexists. split; [reflexivity|]. split; [|split].
  - intros k. simpl. rewrite L2, L1. simpl.
    destruct (String.eqb_spec k dst); destruct (String.eqb_spec k temp);
      destruct (String.eqb_spec k src); congruence.
  - simpl. rewrite S2, S1. reflexivity.
  - simpl. rewrite U2, U1. reflexivity.
Qed.

Lemma plain_rename_moves_bytes_witness :
  exists w',
    apply_plan quiet None (([], []), boot [("/r", Dir); ("/r/Foo.hpp", File [x01; x02])])
      ("/r/Foo.hpp", "/r/foo.hpp")
    = (([] ++ [("/r/Foo.hpp", "/r/foo.hpp")], []), w') /\
    (forall k, Fs.lookup k (fs w') =
               if String.eqb k "/r/foo.hpp" then Some (File [x01; x02])
               else if String.eqb k "/r/Foo.hpp" then None
                    else Fs.lookup k [("/r", Dir); ("/r/Foo.hpp", File [x01; x02])]) /\
    stdout w' = [] ++ [("Renamed: " ++ "/r/Foo.hpp" ++ " -> " ++ "/r/foo.hpp")%string] /\
    uuid_count w' = 1.
Proof.
  apply (plain_rename_moves_bytes quiet None ([], [])
           (boot [("/r", Dir); ("/r/Foo.hpp", File [x01; x02])])
           "/r/Foo.hpp" "/r/foo.hpp" [x01; x02]); try reflexivity.
  vm_compute. discriminate.
Defined.

(** X3.  [convert_to_lowercase], the second pass on a collision with
    different bytes (lines 77-106).  Nothing is refused, the temporary
    and the backup name are free, and the [_alt] path, built from
    [lowercase_filename], is neither the source nor the target of the
    plan nor a directory.  Then the file renamed takes the lowercase
    path; the bytes that were there are kept under the [_alt] path,
    replacing a file that was there; the old path is gone and every
    other path is as before. *)
Theorem divergent_collision_keeps_both (O : oracle) (name : string) (rep : report) (w : world)
  (src dst : string) (d1 d2 : list byte) :
  let temp := OsPath.join (OsPath.dirname src)
                ("temp_" ++ uuid4_hex O (uuid_count w) ++ snd (OsPath.splitext src)) in
  let backup := OsPath.join (OsPath.dirname dst)
                  ("backup_" ++ uuid4_hex O (S (uuid_count w)) ++ snd (OsPath.splitext dst)) in
  let alt_filename :=
    (fst (OsPath.splitext name) ++ "_alt" ++ snd (OsPath.splitext name))%string in
  let alt := OsPath.join (OsPath.dirname dst) alt_filename in
  (forall c, denied O c = false) ->
  Fs.lookup src (fs w) = Some (File d1) ->
  Fs.lookup dst (fs w) = Some (File d2) ->
  d1 <> d2 -> src <> dst ->
  Fs.lookup temp (fs w) = None ->
  Fs.lookup backup (fs w) = None ->
  temp <> backup -> alt <> backup ->
  alt <> src -> alt <> dst ->
  Fs.lookup alt (fs w) <> Some Dir ->
  exists w',
    apply_plan O (Some name) (rep, w) (src, dst)
    = ((fst rep ++ [(src, dst)], snd rep), w') /\
    Fs.lookup dst (fs w') = Some (File d1) /\
    Fs.lookup alt (fs w') = Some (File d2) /\
    Fs.lookup src (fs w') = None /\
    (forall k, k <> dst -> k <> alt -> k <> src -> Fs.lookup k (fs w') = Fs.lookup k (fs w)) /\
    stdout w' = stdout w ++ [("Renamed: " ++ src ++ " -> " ++ dst
                              ++ " (kept existing as " ++ alt_filename ++ ")")%string].
Proof.
  intros temp backup alt_filename alt Hden Hsrc Hdst Hd Hne Htemp Hbackup Htb Hab
    Has Had Halt.
  assert (Hts : temp <> src) by congruence.
  assert (Htd : temp <> dst) by congruence.
  assert (Hbs : backup <> src) by congruence.
  assert (Hbd : backup <> dst) by congruence.
  destruct rep as [renamed skipped].
  unfold apply_plan, fresh_path, uuid4. cbn [fst snd uuid_count]. fold temp.
  set (w0 := {| fs := fs w; uuid_count := S (uuid_count w); stdout := stdout w |}).
  unfold rename_steps, bind.
  destruct (os_rename_file O src temp d1 w0 (Hden _) Hsrc) as (w1 & E1 & U1 & S1 & L1).
  { simpl. rewrite Htemp. discriminate. }
  { congruence. }
  rewrite E1.
  assert (Ex : os_path_exists dst w1 = true).
  { unfold os_path_exists. rewrite L1.
    rewrite (proj2 (String.eqb_neq dst temp)), (proj2 (String.eqb_neq dst src)) by congruence.
    simpl. now rewrite Hdst. }
  rewrite Ex. unfold fresh_path, uuid4. rewrite U1. cbn [uuid_count w0]. fold backup.
  set (w1' := {| fs := fs w1; uuid_count := S (S (uuid_count w)); stdout := stdout w1 |}).
  destruct (os_rename_file O dst backup d2 w1' (Hden _)) as (w2 & E2 & U2 & S2 & L2).
  { simpl. rewrite L1.
    rewrite (proj2 (String.eqb_neq dst temp)), (proj2 (String.eqb_neq dst src)) by congruence.
    exact Hdst. }
  { simpl. rewrite L1.
    rewrite (proj2 (String.eqb_neq backup temp)), (proj2 (String.eqb_neq backup src))
      by congruence.
    simpl. rewrite Hbackup. discriminate. }
  { congruence. }
  rewrite E2. unfold ret.
  destruct (os_rename_file O temp dst d1 w2 (Hden _)) as (w3 & E3 & U3 & S3 & L3).
  { rewrite L2.
    rewrite (proj2 (String.eqb_neq temp backup)), (proj2 (String.eqb_neq temp dst))
      by congruence.
    simpl. rewrite L1. now rewrite String.eqb_refl. }
  { rewrite L2. rewrite (proj2 (String.eqb_neq dst backup)) by congruence.
    rewrite String.eqb_refl. discriminate. }
  { congruence. }
  rewrite E3. unfold resolve_backup, bind.
  assert (B3 : Fs.lookup backup (fs w3) = Some (File d2)).
  { rewrite L3.
    rewrite (proj2 (String.eqb_neq backup dst)), (proj2 (String.eqb_neq backup temp))
      by congruence.
    rewrite L2. now rewrite String.eqb_refl. }
  assert (D3 : Fs.lookup dst (fs w3) = Some (File d1)).
  { rewrite L3. now rewrite String.eqb_refl. }
  rewrite (os_path_getsize_file O backup d2 w3 (Hden _) B3).
  rewrite (os_path_getsize_file O dst d1 w3 (Hden _) D3).
  assert (A3 : Fs.lookup alt (fs w3) <> Some Dir).
  { rewrite L3. destruct (String.eqb_spec alt dst); [discriminate|].
    destruct (String.eqb_spec alt temp); [discriminate|].
    rewrite L2. destruct (String.eqb_spec alt backup); [contradiction|].
    destruct (String.eqb_spec alt dst); [contradiction|].
    simpl. rewrite L1. destruct (String.eqb_spec alt temp); [contradiction|].
    destruct (String.eqb_spec alt src); [discriminate|]. exact Halt. }
  destruct (os_rename_file O backup alt d2 w3 (Hden _) B3 A3) as (w4 & E4 & U4 & S4 & L4).
  { congruence. }
  assert (Fin : exists w',
             (if false
              then ret tt
              else
                (fun w5 =>
                   match read_lowercase_filename (Some name) w5 with
                   | Ok a w'0 =>
                       match os_rename O backup
                               (OsPath.join (OsPath.dirname dst)
                                  (fst (OsPath.splitext a) ++ "_alt"
                                   ++ snd (OsPath.splitext a))) w'0 with
                       | Ok _ w'1 =>
                           say ("Renamed: " ++ src ++ " -> " ++ dst ++ " (kept existing as "
                                ++ (fst (OsPath.splitext a) ++ "_alt"
                                    ++ snd (OsPath.splitext a)) ++ ")") w'1
                       | Raise e w'1 => Raise e w'1
                       end
                   | Raise e w'0 => Raise e w'0
                   end)) w3 = Ok tt w' /\
             (forall k, Fs.lookup k (fs w') =
                        if String.eqb k alt then Some (File d2)
                        else if String.eqb k dst then Some (File d1)
                        else if String.eqb k src then None else Fs.lookup k (fs w)) /\
             stdout w' = stdout w ++ [("Renamed: " ++ src ++ " -> " ++ dst
                              ++ " (kept existing as " ++ alt_filename ++ ")")%string]).
  { cbv iota. unfold read_lowercase_filename, ret. fold alt_filename. fold alt.
    rewrite E4. unfold say. eexists. split; [reflexivity|]. split.
    - intros k. simpl. rewrite L4, L3, L2. simpl. rewrite L1. simpl.
      destruct (String.eqb_spec k alt); [reflexivity|].
      destruct (String.eqb_spec k backup); destruct (String.eqb_spec k dst);
        destruct (String.eqb_spec k temp); destruct (String.eqb_spec k src);
        congruence.
    - simpl. rewrite S4, S3, S2. simpl. rewrite S1. reflexivity. }
  destruct Fin as (w' & Ef & Lf & Sf).
  exists w'. split.
  2:{ split; [|split; [|split; [|split]]].
      - rewrite Lf, (proj2 (String.eqb_neq dst alt)) by congruence.
        now rewrite String.eqb_refl.
      - rewrite Lf. now rewrite String.eqb_refl.
      - rewrite Lf, (proj2 (String.eqb_neq src alt)), (proj2 (String.eqb_neq src dst))
          by congruence.
        now rewrite String.eqb_refl.
      - intros k K1 K2 K3. rewrite Lf.
        now rewrite (proj2 (String.eqb_neq k alt)), (proj2 (String.eqb_neq k dst)),
          (proj2 (String.eqb_neq k src)) by assumption.
      - exact Sf. }
  destruct (List.length d2 =? List.length d1).
  - rewrite (open_rb_file O backup d2 w3 (Hden _) B3).
    rewrite (open_rb_file O dst d1 w3 (Hden _) D3).
    rewrite (bytes_eqb_neq d2 d1) by congruence.
    unfold ret at 1. rewrite Ef. reflexivity.
  - unfold ret at 1. rewrite Ef. reflexivity.
Qed.

Lemma divergent_collision_keeps_both_witness :
  exists w',
    apply_plan quiet (Some "foo.hpp") (([], []),
       boot [("/r", Dir); ("/r/Foo.hpp", File [x01]); ("/r/foo.hpp", File [x02; x03])])
      ("/r/Foo.hpp", "/r/foo.hpp")
    = (([] ++ [("/r/Foo.hpp", "/r/foo.hpp")], []), w') /\
    Fs.lookup "/r/foo.hpp" (fs w') = Some (File [x01]) /\
    Fs.lookup (OsPath.join (OsPath.dirname "/r/foo.hpp")
                 (fst (OsPath.splitext "foo.hpp") ++ "_alt" ++ snd (OsPath.splitext "foo.hpp")))
      (fs w') = Some (File [x02; x03]) /\
    Fs.lookup "/r/Foo.hpp" (fs w') = None /\
    (forall k,
        k <> "/r/foo.hpp" ->
        k <> OsPath.join (OsPath.dirname "/r/foo.hpp")
               (fst (OsPath.splitext "foo.hpp") ++ "_alt" ++ snd (OsPath.splitext "foo.hpp")) ->
        k <> "/r/Foo.hpp" ->
        Fs.lookup k (fs w')
        = Fs.lookup k [("/r", Dir); ("/r/Foo.hpp", File [x01]);
                       ("/r/foo.hpp", File [x02; x03])]) /\
    stdout w' = [] ++ [("Renamed: " ++ "/r/Foo.hpp" ++ " -> " ++ "/r/foo.hpp"
                        ++ " (kept existing as "
                        ++ (fst (OsPath.splitext "foo.hpp") ++ "_alt"
                            ++ snd (OsPath.splitext "foo.hpp")) ++ ")")%string].
Proof.
  apply (divergent_collision_keeps_both quiet "foo.hpp" ([], [])
           (boot [("/r", Dir); ("/r/Foo.hpp", File [x01]); ("/r/foo.hpp", File [x02; x03])])
           "/r/Foo.hpp" "/r/foo.hpp" [x01] [x02; x03]);
    try reflexivity; try (intros c; reflexivity); vm_compute; discriminate.
Defined.

(** X4.  [convert_to_lowercase], both passes (lines 46-117).  When no
    path the plans can touch (their sources and targets, their
    temporary and backup names, their [_alt] names) is a directory, a
    path outside them holds after the run what it held before, and the
    directories of the tree are the same. *)
Theorem forward_pass_touches_its_names_only (O : oracle) (directory : string)
  (exclude_dirs : list string) (w : world) :
  let plans := fst (first_pass (fs w) directory exclude_dirs) in
  let lf := snd (first_pass (fs w) directory exclude_dirs) in
  let w' := snd (forward_pass O directory exclude_dirs w) in
  no_dir_in (touchable_by O lf plans) (fs w) ->
  (forall k, ~ touchable_by O lf plans k -> Fs.lookup k (fs w') = Fs.lookup k (fs w)) /\
  (forall k, Fs.lookup k (fs w') = Some Dir <-> Fs.lookup k (fs w) = Some Dir).
Proof.
  intros plans lf w' Hno. subst plans lf w'. unfold forward_pass.
  destruct (first_pass (fs w) directory exclude_dirs) as [plans lf]. cbn [fst snd] in *.
  unfold second_pass.
  destruct (second_pass_frame O lf plans plans ([], []) w (fun x H => H) Hno) as [F1 F2].
  split; [exact F1|]. intros k. split; [apply F2|].
  intros Hk. rewrite F1; [exact Hk|]. intros Ht. exact (Hno k Ht Hk).
Qed.

Lemma forward_pass_touches_its_names_only_witness :
  Fs.lookup "/r/README"
    (fs (snd (forward_pass quiet "/r" []
                (boot [("/r", Dir); ("/r/Foo.hpp", File [x01]); ("/r/README", File [x02])]))))
  = Fs.lookup "/r/README" [("/r", Dir); ("/r/Foo.hpp", File [x01]); ("/r/README", File [x02])].
Proof.
  apply (proj1 (forward_pass_touches_its_names_only quiet "/r" []
                  (boot [("/r", Dir); ("/r/Foo.hpp", File [x01]); ("/r/README", File [x02])])
                  ltac:(intros k (plan & [<-|[]] & Hk);
                        destruct Hk as [->|[->|[(n & ->)|[(n & ->)|(name & Hn & ->)]]]];
                        try (injection Hn as <-); cbv; discriminate))).
  intros (plan & [<-|[]] & Hk).
  destruct Hk as [Hk|[Hk|[(n & Hk)|[(n & Hk)|(name & Hn & Hk)]]]];
    try (injection Hn as <-); cbv in Hk; discriminate.
Defined.

(* ================================================================= *)
(** ** The command line *)

(** X5.  The exclusion test (lines 50-56) and the splitting of the
    flag value (lines 266-268).  Every path starts with the empty
    string: with an empty entry among the excluded directories the
    forward pass renames nothing and prints nothing.  A value of
    [--exclude] that ends in a comma gives such an entry. *)
Theorem empty_exclusion_entry_excludes_all (O : oracle) (directory : string)
  (exclude_dirs : list string) (w : world) :
  (In "" exclude_dirs -> forward_pass O directory exclude_dirs w = (([], []), w)) /\
  (forall (v : string) (rest exclude_dirs0 revert_dirs : list string),
      exists l, In "" l /\
                parse_args ("--exclude" :: (v ++ ",")%string :: rest) exclude_dirs0 revert_dirs
                = parse_args rest l revert_dirs).
Proof.
  split.
  - intros H. unfold forward_pass.
    assert (E : fst (first_pass (fs w) directory exclude_dirs) = []).
    { rewrite first_pass_plans.
      induction (Fs.os_walk (fs w) directory) as [|[[root dirs] files] ys IH]; [reflexivity|].
      simpl. rewrite IH, app_nil_r. unfold dir_plans. simpl.
      now rewrite (should_exclude_empty_entry _ _ H). }
    destruct (first_pass (fs w) directory exclude_dirs) as [plans lf].
    simpl in E. subst plans. reflexivity.
  - intros v rest ex rv. destruct (split_trailing_sep "," v) as (l & Hl & E).
    exists (l ++ [""]). split; [apply in_or_app; right; now left|].
    cbn [parse_args]. rewrite E. reflexivity.
Qed.

Lemma empty_exclusion_entry_excludes_all_witness :
  forward_pass quiet "/r" ["/r/lib"; ""] (boot demo_tree) = (([], []), boot demo_tree).
Proof.
  apply (proj1 (empty_exclusion_entry_excludes_all quiet "/r" ["/r/lib"; ""] (boot demo_tree))).
  right. left. reflexivity.
Defined.

(** X6.  [main], the argument loop (lines 263-274).  A flag takes the
    next argument, split at its commas: the directories joined with
    commas come back as they were, when none of them holds a comma, and
    replace what an earlier occurrence of the flag had set. *)
Theorem flag_value_is_split_at_commas (l rest exclude_dirs revert_dirs : list string) :
  l <> [] -> (forall x, In x l -> has_char "," x = false) ->
  parse_args ("--exclude" :: Py.join "," l :: rest) exclude_dirs revert_dirs
  = parse_args rest l revert_dirs /\
  parse_args ("--revert" :: Py.join "," l :: rest) exclude_dirs revert_dirs
  = parse_args rest exclude_dirs l.
Proof.
  intros Hne Hl. cbn [parse_args]. rewrite (split_join "," l Hne Hl). split; reflexivity.
Qed.

Lemma flag_value_is_split_at_commas_witness :
  parse_args ("--exclude" :: Py.join "," ["/r/lib"; "/r/ext"] :: ["--revert"; "/r/old"]) ["x"] []
  = parse_args ["--revert"; "/r/old"] ["/r/lib"; "/r/ext"] [].
Proof.
  apply (proj1 (flag_value_is_split_at_commas ["/r/lib"; "/r/ext"] ["--revert"; "/r/old"]
                  ["x"] [] ltac:(discriminate)
                  ltac:(intros x [<-|[<-|[]]]; reflexivity))).
Defined.

Section MainFacts.

Variable O : oracle.

Lemma fold_print_fs {A : Type} (g : A -> string) (m : list A) (v : world) :
  fs (fold_left (fun w' q => print (g q) w') m v) = fs v /\
  uuid_count (fold_left (fun w' q => print (g q) w') m v) = uuid_count v.
Proof.
  revert v. induction m as [|q m IH]; intros v; [now split|].
  simpl. destruct (IH (print (g q) v)) as [E1 E2]. now split.
Qed.

Lemma print_pairs_fs (title : string) (l : list (string * string)) (w : world) :
  fs (print_pairs title l w) = fs w /\ uuid_count (print_pairs title l w) = uuid_count w.
Proof.
  unfold print_pairs. destruct l as [|p l]; [now split|].
  destruct (fold_print_fs (fun q : string * string => ("  " ++ fst q ++ " -> " ++ snd q)%string)
              (p :: l) (print (nl ++ title) w)) as [E1 E2].
  now split.
Qed.

Lemma print_skipped_fs (l : list (string * string)) (w : world) :
  fs (print_skipped l w) = fs w /\ uuid_count (print_skipped l w) = uuid_count w.
Proof.
  unfold print_skipped. destruct l as [|p l]; [now split|].
  destruct (fold_print_fs
              (fun q : string * string => ("  " ++ fst q ++ " - Reason: " ++ snd q)%string)
              (p :: l) (print (nl ++ "Skipped files:") w)) as [E1 E2].
  now split.
Qed.

(** The file system [main] leaves is the one [convert_to_lowercase]
    leaves, on the arguments it parsed. *)
Lemma main_runs_convert (prog directory : string) (args exclude_dirs revert_dirs : list string)
  (w : world) :
  os_path_isdir directory w = true ->
  parse_args args [] [] = inl (exclude_dirs, revert_dirs) ->
  exists (excl : list string) (w1 : world),
    fs w1 = fs w /\ uuid_count w1 = uuid_count w /\
    excl = (match exclude_dirs, revert_dirs with
            | [], [] => if os_path_isdir (OsPath.join directory "lib") w
                        then [OsPath.join directory "lib"] else []
            | _, _ => exclude_dirs
            end) /\
    fst (main O (prog :: directory :: args) w) = 0 /\
    fs (snd (main O (prog :: directory :: args) w))
    = fs (snd (convert_to_lowercase O directory excl revert_dirs w1)) /\
    uuid_count (snd (main O (prog :: directory :: args) w))
    = uuid_count (snd (convert_to_lowercase O directory excl revert_dirs w1)).
Proof.
  intros Hdir Hargs. unfold main. rewrite Hdir, Hargs. cbn [negb].
  match goal with
  | |- context [convert_to_lowercase O directory ?e revert_dirs ?v] =>
      exists e, v
  end.
  split; [|split; [|split]].
  - destruct exclude_dirs, revert_dirs;
      try destruct (os_path_isdir (OsPath.join directory "lib") w); reflexivity.
  - destruct exclude_dirs, revert_dirs;
      try destruct (os_path_isdir (OsPath.join directory "lib") w); reflexivity.
  - destruct exclude_dirs, revert_dirs;
      try destruct (os_path_isdir (OsPath.join directory "lib") w); reflexivity.
  - match goal with
    | |- context [convert_to_lowercase O directory ?e revert_dirs ?v] =>
        destruct (convert_to_lowercase O directory e revert_dirs v) as [[[ren sk] rv] w2]
    end.
    cbn [fst snd].
    rewrite !(proj1 (print_pairs_fs _ _ _)), !(proj2 (print_pairs_fs _ _ _)).
    rewrite !(proj1 (print_skipped_fs _ _)), !(proj2 (print_skipped_fs _ _)).
    rewrite !(proj1 (print_pairs_fs _ _ _)), !(proj2 (print_pairs_fs _ _ _)).
    repeat split.
Qed.

End MainFacts.

(** X7.  [main] (lines 248-312).  The exit status is 0 or 1.  With
    status 1 the file system is untouched and no uuid was drawn.  The
    status is 0 exactly when a directory was given, it is a directory,
    and the remaining arguments are flags each followed by a value. *)
Theorem main_exit_status (O : oracle) (argv : list string) (w : world) :
  (fst (main O argv w) = 0 \/ fst (main O argv w) = 1) /\
  (fst (main O argv w) = 1 ->
   fs (snd (main O argv w)) = fs w /\ uuid_count (snd (main O argv w)) = uuid_count w) /\
  (fst (main O argv w) = 0 <->
   exists prog directory args exclude_dirs revert_dirs,
     argv = prog :: directory :: args /\
     os_path_isdir directory w = true /\
     parse_args args [] [] = inl (exclude_dirs, revert_dirs)).
Proof.
  destruct argv as [|prog [|directory args]].
  - split; [now right|]. split; [intros _; now split|].
    split; [discriminate|]. intros (? & ? & ? & ? & ? & H & _). discriminate.
  - split; [now right|]. split; [intros _; now split|].
    split; [discriminate|]. intros (? & ? & ? & ? & ? & H & _). discriminate.
  - destruct (os_path_isdir directory w) eqn:Hdir.
    + destruct (parse_args args [] []) as [[ex rv]|msg] eqn:Hargs.
      * destruct (main_runs_convert O prog directory args ex rv w Hdir Hargs)
          as (excl & w1 & _ & _ & _ & E0 & _).
        split; [now left|]. split; [rewrite E0; discriminate|].
        split; [intros _|intros _; exact E0].
        exists prog, directory, args, ex, rv. auto.
      * unfold main. rewrite Hdir, Hargs. cbn [negb fst snd].
        split; [now right|]. split; [intros _; now split|].
        split; [discriminate|].
        intros (? & ? & ? & ? & ? & [= <- <- <-] & _ & H). congruence.
    + unfold main. rewrite Hdir. cbn [negb fst snd].
      split; [now right|]. split; [intros _; now split|].
      split; [discriminate|].
      intros (? & ? & ? & ? & ? & [= <- <- <-] & H & _). congruence.
Qed.

Lemma main_exit_status_witness :
  fs (snd (main quiet ["prog"; "/r"; "--frob"] (boot demo_tree))) = fs (boot demo_tree) /\
  uuid_count (snd (main quiet ["prog"; "/r"; "--frob"] (boot demo_tree))) = 0.
Proof.
  apply (proj1 (proj2 (main_exit_status quiet ["prog"; "/r"; "--frob"] (boot demo_tree)))).
  reflexivity.
Defined.

(** X8.  [main], the default exclusion (lines 276-292).  Run with the
    directory alone, when [directory/lib] is a directory, [main] leaves
    every path whose directory starts with [directory/lib] as it was. *)
Theorem main_default_keeps_lib (O : oracle) (prog directory : string) (w : world) :
  let lib_dir := OsPath.join directory "lib" in
  os_path_isdir directory w = true ->
  os_path_isdir lib_dir w = true ->
  (forall n, Fs.contains_sep (uuid4_hex O n) = false) ->
  (forall plan k,
      In plan (fst (first_pass (fs w) directory [lib_dir])) ->
      touchable O (snd (first_pass (fs w) directory [lib_dir])) plan k ->
      Fs.lookup k (fs w) <> Some Dir) ->
  forall p,
    Py.startswith (OsPath.dirname p) lib_dir = true ->
    Fs.lookup p (fs (snd (main O [prog; directory] w))) = Fs.lookup p (fs w).
Proof.
  intros lib_dir Hdir Hlib Hu Hno p Hp.
  destruct (main_runs_convert O prog directory [] [] [] w Hdir eq_refl)
    as (excl & w1 & Ef & Eu & Ee & _ & E & _).
  fold lib_dir in Ee. rewrite Hlib in Ee. subst excl. rewrite E.
  unfold convert_to_lowercase. cbn [fold_left].
  pose proof (excluded_paths_untouched O directory [lib_dir] w1 Hu) as F.
  rewrite Ef in F. specialize (F Hno p).
  destruct (forward_pass O directory [lib_dir] w1) as [[ren sk] w2]. cbn [snd] in *.
  apply F. unfold should_exclude. simpl. now rewrite Hp.
Qed.

Lemma main_default_keeps_lib_witness :
  Fs.lookup "/r/lib/Z.CPP" (fs (snd (main quiet ["prog"; "/r"] (boot demo_tree))))
  = Fs.lookup "/r/lib/Z.CPP" (fs (boot demo_tree)).
Proof.
  apply (main_default_keeps_lib quiet "prog" "/r" (boot demo_tree)).
  - reflexivity.
  - reflexivity.
  - exact hex32_no_sep.
  - intros plan k Hin Hk.
    change (fst (first_pass (fs (boot demo_tree)) "/r" [OsPath.join "/r" "lib"]))
      with [("/r/Math/BigInt.hpp", "/r/Math/bigint.hpp")] in Hin.
    change (snd (first_pass (fs (boot demo_tree)) "/r" [OsPath.join "/r" "lib"]))
      with (Some "a.cpp") in Hk.
    destruct Hin as [<-|[]].
    destruct Hk as [->|[->|[(n & ->)|[(n & ->)|(name & Hn & ->)]]]];
      try (injection Hn as <-); cbv; discriminate.
  - reflexivity.
Defined.

(* ================================================================= *)
(** ** The revert pass *)

(** X9.  [revert_lowercase_conversion], the guessed names (lines
    135-181).  When the stem holds no underscore every guess differs
    from [name.ext] in case only. *)
Theorem guesses_are_case_variants (O : oracle) (name ext c : string) :
  set_like (set_order O) ->
  has_char "_" name = false ->
  In c (potential_original_names O name ext) ->
  Py.lower c = Py.lower (name ++ "." ++ ext).
Proof.
  intros Hset Hu Hc. unfold potential_original_names in Hc.
  apply (proj1 (proj2 (Hset _) c)) in Hc. now apply built_names_lower.
Qed.

Lemma guesses_are_case_variants_witness :
  Py.lower "Foo.HPP" = Py.lower ("foo" ++ "." ++ "hpp").
Proof.
  apply (guesses_are_case_variants quiet "foo" "hpp" "Foo.HPP" set_like_nodup).
  - reflexivity.
  - vm_compute. right. right. left. reflexivity.
Defined.

(** With an underscore in the stem the camel and Pascal guesses drop
    it, and lowercasing them does not give the name back. *)
Example underscore_guess_is_no_case_variant :
  In "bigInt.CPP" (potential_original_names quiet "big_int" "cpp") /\
  Py.lower "bigInt.CPP" <> "big_int.cpp".
Proof. split; [vm_compute; auto 10|discriminate]. Qed.

(** X10.  The names the revert pass tries (lines 155-194) against the
    plan of the first pass (lines 58-65).  For a lowercase file in
    scope, with an extension and no underscore in its stem, every name
    tried, sibling or guess, lowercases to the name of the file: the
    first pass plans to rename it back to exactly that name. *)
Theorem reverted_name_lowercases_back (O : oracle) (f : fsys) (root filename c : string) :
  set_like (set_order O) ->
  in_scope filename = true ->
  filename = Py.lower filename ->
  snd (OsPath.splitext filename) <> "" ->
  has_char "_" (fst (OsPath.splitext filename)) = false ->
  In c (guesses_tried O f root filename) ->
  Py.lower c = filename /\
  (c <> filename ->
   plan_of root c = [(OsPath.join root c, OsPath.join root filename)]).
Proof.
  intros Hset Hin Hlow Hext Hu Hc.
  assert (E : Py.lower c = filename).
  { unfold guesses_tried in Hc.
    destruct (similar_files f root filename) as [|s l] eqn:Hs.
    - unfold potential_original_names in Hc.
      apply (proj1 (proj2 (Hset _) c)) in Hc.
      apply built_names_lower in Hc; [|exact Hu].
      rewrite (splitext_parts filename Hext) in Hc. congruence.
    - destruct Hc as [<-|[]].
      assert (Hm : In s (similar_files f root filename)) by (rewrite Hs; now left).
      unfold similar_files in Hm. apply in_flat_map in Hm as ([[r ds] fl] & _ & Hm).
      destruct (negb (String.eqb r root)); [contradiction|].
      apply filter_In in Hm as [_ Hm]. apply andb_prop in Hm as [Hm _].
      apply String.eqb_eq in Hm. congruence. }
  split; [exact E|]. intros Hne. unfold plan_of, in_scope. rewrite E.
  unfold in_scope in Hin. rewrite <- Hlow in Hin. rewrite Hin.
  rewrite (proj2 (String.eqb_neq c filename) Hne). reflexivity.
Qed.

Lemma reverted_name_lowercases_back_witness :
  Py.lower "Foo.HPP" = "foo.hpp" /\
  ("Foo.HPP" <> "foo.hpp" ->
   plan_of "/r" "Foo.HPP" = [(OsPath.join "/r" "Foo.HPP", OsPath.join "/r" "foo.hpp")]).
Proof.
  apply (reverted_name_lowercases_back quiet [("/r", Dir); ("/r/foo.hpp", File [x01])]
           "/r" "foo.hpp" "Foo.HPP" set_like_nodup).
  - reflexivity.
  - reflexivity.
  - vm_compute. discriminate.
  - reflexivity.
  - vm_compute. right. right. left. reflexivity.
Defined.

Section SimilarFacts.

Lemma walk_fuel_root_len (n : nat) (f : fsys) (top root : string)
  (dirs files : list string) :
  In (root, dirs, files) (Fs.walk_fuel n f top) -> String.length top <= String.length root.
Proof.
  revert top. induction n as [|n IH]; intros top; simpl; [tauto|].
  destruct (Fs.lookup top f) as [[|]|]; simpl; try tauto.
  intros [H|H].
  - injection H as <- _ _. lia.
  - apply in_flat_map in H as (d & Hd & H).
    apply dirs_of_in, scandir_in in Hd as (_ & Hne & Hs).
    pose proof (join_child_longer top d Hs Hne). specialize (IH _ H). lia.
Qed.

Lemma flat_map_nil {A B : Type} (g : A -> list B) (l : list A) :
  (forall y, In y l -> g y = []) -> flat_map g l = [].
Proof.
  induction l as [|y l IH]; intros G; [reflexivity|].
  simpl. rewrite (G y (or_introl eq_refl)), IH; [reflexivity|].
  intros z Hz. apply G. now right.
Qed.

(** Below the first triple of a walk no root is the top again. *)
Lemma walk_fuel_tail_roots (n : nat) (f : fsys) (top : string)
  (y : string * list string * list string) :
  In y (flat_map (fun d => Fs.walk_fuel n f (OsPath.join top d))
          (Fs.dirs_of (Fs.scandir f top))) ->
  fst (fst y) <> top.
Proof.
  destruct y as [[root dirs] files]. intros H.
  apply in_flat_map in H as (d & Hd & H).
  apply dirs_of_in, scandir_in in Hd as (_ & Hne & Hs).
  pose proof (join_child_longer top d Hs Hne).
  pose proof (walk_fuel_root_len _ _ _ _ _ _ H). simpl. intros ->. lia.
Qed.

End SimilarFacts.

(** X11.  [revert_lowercase_conversion], the search for similar files
    (lines 183-190).  The walk that keeps [root] alone comes to one
    listing of [root]: the files of [root], in listing order, whose name
    differs from [filename] in case only; nothing when [root] is no
    directory. *)
Theorem similar_files_are_the_case_variants (f : fsys) (root filename : string) :
  similar_files f root filename
  = match Fs.lookup root f with
    | Some Dir =>
        filter (fun dir_file =>
                  String.eqb (Py.lower dir_file) (Py.lower filename)
                  && negb (String.eqb dir_file filename))
               (Fs.nondirs_of (Fs.scandir f root))
    | _ => []
    end.
Proof.
  unfold similar_files, Fs.os_walk.
  destruct (Fs.lookup root f) as [[|]|] eqn:Hl.
  - destruct (Fs.walk_budget f root); simpl; try rewrite Hl; reflexivity.
  - assert (Hb : Fs.walk_budget f root = S (Fs.walk_budget f root - 1)).
    { unfold Fs.walk_budget. pose proof (max_dir_len_ge _ _ (lookup_in _ _ _ Hl)). lia. }
    rewrite Hb. cbn [Fs.walk_fuel]. rewrite Hl. cbn [flat_map].
    rewrite String.eqb_refl. cbn [negb].
    match goal with |- ?a ++ ?b = _ => assert (E : b = []) end.
    { apply flat_map_nil. intros [[r ds] fl] Hy.
      apply walk_fuel_tail_roots in Hy. simpl in Hy.
      destruct (String.eqb_spec r root); [contradiction|reflexivity]. }
    rewrite E. apply app_nil_r.
  - destruct (Fs.walk_budget f root); simpl; try rewrite Hl; reflexivity.
Qed.

Section TwoSteps.

Variable O : oracle.

(** A file renamed to a free temporary name, then to its target. *)
Lemma two_step_rename (a t b : string) (d : list byte) (w : world) :
  denied O (SysRename a t) = false -> denied O (SysRename t b) = false ->
  Fs.lookup a (fs w) = Some (File d) ->
  Fs.lookup t (fs w) = None ->
  Fs.lookup b (fs w) <> Some Dir ->
  a <> b -> t <> b ->
  exists w',
    (os_rename O a t ;;; os_rename O t b) w = Ok tt w' /\
    uuid_count w' = uuid_count w /\ stdout w' = stdout w /\
    forall k, Fs.lookup k (fs w') =
              if String.eqb k b then Some (File d)
              else if String.eqb k a then None else Fs.lookup k (fs w).
Proof.
  intros D1 D2 Ha Ht Hb Hab Htb. unfold bind.
  destruct (os_rename_file O a t d w D1 Ha) as (w1 & E1 & U1 & S1 & L1).
  { rewrite Ht. discriminate. }
  { congruence. }
  rewrite E1.
  destruct (os_rename_file O t b d w1 D2) as (w2 & E2 & U2 & S2 & L2).
  { rewrite L1. now rewrite String.eqb_refl. }
  { rewrite L1. destruct (String.eqb_spec b t); [congruence|].
    destruct (String.eqb_spec b a); [discriminate|exact Hb]. }
  { exact Htb. }
  rewrite E2. exists w2. split; [reflexivity|]. split; [congruence|]. split; [congruence|].
  intros k. rewrite L2, L1.
  destruct (String.eqb_spec k b); destruct (String.eqb_spec k t);
    destruct (String.eqb_spec k a); congruence.
Qed.

End TwoSteps.

(** X12.  [revert_lowercase_conversion], the branch of a similar file
    (lines 192-207).  When the two renamings are let through, the
    lowercase file is renamed onto the similar file: the pair is
    recorded, the similar name holds the bytes of the lowercase file,
    the lowercase path is gone and every other path is as before. *)
Theorem sibling_takes_the_bytes (O : oracle) (root filepath original_name : string)
  (reverted_files : list (string * string)) (w : world) (d : list byte) :
  let original_path := OsPath.join root original_name in
  let temp := OsPath.join root
                ("temp_" ++ uuid4_hex O (uuid_count w) ++ snd (OsPath.splitext filepath)) in
  denied O (SysRename filepath temp) = false ->
  denied O (SysRename temp original_path) = false ->
  Fs.lookup filepath (fs w) = Some (File d) ->
  Fs.lookup original_path (fs w) <> Some Dir ->
  Fs.lookup temp (fs w) = None ->
  filepath <> original_path -> temp <> original_path ->
  exists w',
    revert_to_sibling O root filepath original_name (reverted_files, w)
    = (reverted_files ++ [(filepath, original_path)], w') /\
    (forall k, Fs.lookup k (fs w') =
               if String.eqb k original_path then Some (File d)
               else if String.eqb k filepath then None else Fs.lookup k (fs w)).
Proof.
  intros original_path temp D1 D2 Hf Ho Ht Hfo Hto.
  unfold revert_to_sibling. fold original_path. unfold fresh_path, uuid4. fold temp.
  set (w0 := {| fs := fs w; uuid_count := S (uuid_count w); stdout := stdout w |}).
  destruct (two_step_rename O filepath temp original_path d w0 D1 D2 Hf Ht Ho Hfo Hto)
    as (w1 & E & U & S & L).
  rewrite E. eexists. split; [reflexivity|]. intros k. simpl. apply L.
Qed.

Lemma sibling_takes_the_bytes_witness :
  exists w',
    revert_to_sibling quiet "/r" "/r/foo.hpp" "Foo.hpp"
      ([], boot [("/r", Dir); ("/r/foo.hpp", File [x01]); ("/r/Foo.hpp", File [x02])])
    = ([] ++ [("/r/foo.hpp", OsPath.join "/r" "Foo.hpp")], w') /\
    (forall k, Fs.lookup k (fs w') =
               if String.eqb k (OsPath.join "/r" "Foo.hpp") then Some (File [x01])
               else if String.eqb k "/r/foo.hpp" then None
                    else Fs.lookup k [("/r", Dir); ("/r/foo.hpp", File [x01]);
                                      ("/r/Foo.hpp", File [x02])]).
Proof.
  apply (sibling_takes_the_bytes quiet "/r" "/r/foo.hpp" "Foo.hpp" []
           (boot [("/r", Dir); ("/r/foo.hpp", File [x01]); ("/r/Foo.hpp", File [x02])]) [x01]);
    try reflexivity; vm_compute; discriminate.
Defined.

(** X13.  [revert_lowercase_conversion], the loop over the guesses
    (lines 216-236).  The first guess whose path is free is taken when
    the two renamings are let through: the pair is recorded, the
    guessed path holds the bytes of the file, the old path is gone,
    every other path is as before, and the guesses after it are not
    tried. *)
Theorem free_guess_is_taken (O : oracle) (root filepath c : string) (rest : list string)
  (reverted_files : list (string * string)) (w : world) (d : list byte) :
  let original_path := OsPath.join root c in
  let temp := OsPath.join root
                ("temp_" ++ uuid4_hex O (uuid_count w) ++ snd (OsPath.splitext filepath)) in
  denied O (SysRename filepath temp) = false ->
  denied O (SysRename temp original_path) = false ->
  Fs.lookup filepath (fs w) = Some (File d) ->
  Fs.lookup original_path (fs w) = None ->
  Fs.lookup temp (fs w) = None ->
  temp <> original_path ->
  exists w',
    try_candidates O root filepath (c :: rest) (reverted_files, w)
    = (reverted_files ++ [(filepath, original_path)], w') /\
    (forall k, Fs.lookup k (fs w') =
               if String.eqb k original_path then Some (File d)
               else if String.eqb k filepath then None else Fs.lookup k (fs w)) /\
    stdout w' = stdout w ++ [("Reverted: " ++ filepath ++ " -> " ++ original_path
                              ++ " (best guess)")%string].
Proof.
  intros original_path temp D1 D2 Hf Ho Ht Hto.
  cbn [try_candidates]. fold original_path.
  unfold os_path_exists. rewrite Ho. unfold fresh_path, uuid4. fold temp.
  set (w0 := {| fs := fs w; uuid_count := S (uuid_count w); stdout := stdout w |}).
  destruct (two_step_rename O filepath temp original_path d w0 D1 D2 Hf Ht)
    as (w1 & E & U & S & L).
  { simpl. rewrite Ho. discriminate. }
  { congruence. }
  { exact Hto. }
  rewrite E. eexists. split; [reflexivity|]. split.
  - intros k. simpl. apply L.
  - simpl. now rewrite S.
Qed.

Lemma free_guess_is_taken_witness :
  exists w',
    try_candidates quiet "/r" "/r/foo.hpp" ["Foo.HPP"; "FOO.HPP"]
      ([], boot [("/r", Dir); ("/r/foo.hpp", File [x01])])
    = ([] ++ [("/r/foo.hpp", OsPath.join "/r" "Foo.HPP")], w') /\
    (forall k, Fs.lookup k (fs w') =
               if String.eqb k (OsPath.join "/r" "Foo.HPP") then Some (File [x01])
               else if String.eqb k "/r/foo.hpp" then None
                    else Fs.lookup k [("/r", Dir); ("/r/foo.hpp", File [x01])]) /\
    stdout w' = [] ++ [("Reverted: " ++ "/r/foo.hpp" ++ " -> " ++ OsPath.join "/r" "Foo.HPP"
                        ++ " (best guess)")%string].
Proof.
  apply (free_guess_is_taken quiet "/r" "/r/foo.hpp" "Foo.HPP" ["FOO.HPP"] []
           (boot [("/r", Dir); ("/r/foo.hpp", File [x01])]) [x01]);
    try reflexivity.
  vm_compute. discriminate.
Defined.

Section GuessFrame.

Variable O : oracle.

Lemma attempt_framed (T : string -> Prop) (a t b : string) :
  T a -> T t -> T b -> framed T (os_rename O a t ;;; os_rename O t b).
Proof.
  intros Ta Tt Tb. apply framed_bind; [now apply framed_rename|].
  intros _ _ _ _. now apply framed_rename.
Qed.

Lemma restore_frame (T : string -> Prop) (temp filepath : string) (w : world) :
  T temp -> T filepath -> no_dir_in T (fs w) ->
  frame T (fs w) (fs (restore O temp filepath w)).
Proof.
  intros Tt Tf Hw. unfold restore, try_rename_pass.
  destruct (os_path_exists temp w); [|apply frame_refl].
  exact (framed_rename O T temp filepath Tt Tf w Hw).
Qed.

End GuessFrame.

(** X14.  [revert_lowercase_conversion], the loop over the guesses
    (lines 216-244).  Whatever the operating system refuses and however
    many guesses fail, a node that is neither the file nor one of its
    temporary names is after the loop what it was before. *)
Theorem guessing_keeps_other_files (O : oracle) (root filepath : string)
  (candidates : list string) (reverted_files : list (string * string)) (w : world) :
  no_dir_in (fun k => k = filepath \/ temp_of O root filepath k) (fs w) ->
  forall k nd,
    Fs.lookup k (fs w) = Some nd ->
    k <> filepath -> ~ temp_of O root filepath k ->
    Fs.lookup k (fs (snd (try_candidates O root filepath candidates (reverted_files, w))))
    = Some nd.
Proof.
  set (T0 := fun k => k = filepath \/ temp_of O root filepath k).
  revert reverted_files w.
  induction candidates as [|c rest IH]; intros reverted_files w Hno k nd Hk Hkf Hkt.
  - exact Hk.
  - cbn [try_candidates].
    destruct (os_path_exists (OsPath.join root c) w) eqn:Hex; [now apply IH|].
    unfold fresh_path, uuid4.
    set (temp := OsPath.join root
                   ("temp_" ++ uuid4_hex O (uuid_count w) ++ snd (OsPath.splitext filepath))).
    set (orig := OsPath.join root c) in *.
    set (w0 := {| fs := fs w; uuid_count := S (uuid_count w); stdout := stdout w |}).
    set (T1 := fun x => T0 x \/ x = orig).
    assert (Ttemp : T1 temp) by (left; right; now exists (uuid_count w)).
    assert (Tfile : T1 filepath) by (left; left; reflexivity).
    assert (Torig : T1 orig) by (right; reflexivity).
    assert (Horig : Fs.lookup orig (fs w) = None).
    { unfold os_path_exists in Hex. destruct (Fs.lookup orig (fs w)); [discriminate|reflexivity]. }
    assert (Hno1 : no_dir_in T1 (fs w)).
    { intros x [Hx| ->]; [now apply Hno|]. rewrite Horig. discriminate. }
    assert (Hk1 : ~ T1 k).
    { intros [[?|?]| ->]; [contradiction|contradiction|congruence]. }
    pose proof (attempt_framed O T1 filepath temp orig Tfile Ttemp Torig w0 Hno1) as F.
    destruct ((os_rename O filepath temp ;;; os_rename O temp orig) w0) as [[] w1|e w1];
      cbn [world_of] in F.
    + cbn [snd]. change (fs (print _ w1)) with (fs w1).
      rewrite (proj1 F k Hk1). exact Hk.
    + set (w2 := restore O temp filepath _).
      assert (F2 : frame T1 (fs w) (fs w2)).
      { apply (frame_trans _ _ _ _ F). subst w2.
        match goal with
        | |- frame _ _ (fs (restore _ _ _ ?v)) =>
            exact (restore_frame O T1 temp filepath v Ttemp Tfile
                     (frame_keeps_no_dir _ _ _ Hno1 F))
        end. }
      apply IH; trivial.
      * intros x Hx. apply (frame_keeps_no_dir _ _ _ Hno1 F2). now left.
      * rewrite (proj1 F2 k Hk1). exact Hk.
Qed.

Lemma guessing_keeps_other_files_witness :
  Fs.lookup "/r/Foo.HPP"
    (fs (snd (try_candidates quiet_first "/r" "/r/foo.hpp"
                (potential_original_names quiet_first "foo" "hpp")
                ([], boot [("/r", Dir); ("/r/foo.hpp", File [x01]); ("/r/Foo.HPP", File [x02])]))))
  = Some (File [x02]).
Proof.
  apply (guessing_keeps_other_files quiet_first "/r" "/r/foo.hpp").
  - intros k [->|(n & ->)]; cbv; discriminate.
  - reflexivity.
  - discriminate.
  - intros (n & H). cbv in H. discriminate.
Defined.

(** X15.  A directory to revert that is no directory (lines 41-44 and
    153).  The walk yields nothing: the heading is printed, nothing is
    reverted and the file system stays as it is. *)
Theorem missing_revert_dir_is_passed_over (O : oracle) (revert_dir : string)
  (reverted_files : list (string * string)) (w : world) :
  os_path_isdir revert_dir w = false ->
  revert_lowercase_conversion O revert_dir w = ([], w) /\
  revert_dir_step O (reverted_files, w) revert_dir
  = (reverted_files, print ("Reverting changes in " ++ revert_dir ++ "...") w).
Proof.
  intros H. unfold os_path_isdir in H.
  assert (E : forall v, fs v = fs w -> revert_lowercase_conversion O revert_dir v = ([], v)).
  { intros v Hv. unfold revert_lowercase_conversion.
    destruct (Fs.walk_budget (fs v) revert_dir); [reflexivity|].
    cbn [revert_walk snd]. rewrite Hv.
    destruct (Fs.lookup revert_dir (fs w)) as [[|]|]; try reflexivity. discriminate. }
  split; [now apply E|].
  unfold revert_dir_step. rewrite E by reflexivity. now rewrite app_nil_r.
Qed.

Lemma missing_revert_dir_is_passed_over_witness :
  revert_lowercase_conversion quiet "/nowhere" (boot demo_tree) = ([], boot demo_tree) /\
  revert_dir_step quiet ([], boot demo_tree) "/nowhere"
  = ([], print ("Reverting changes in " ++ "/nowhere" ++ "...") (boot demo_tree)).
Proof.
  apply (missing_revert_dir_is_passed_over quiet "/nowhere" [] (boot demo_tree)).
  reflexivity.
Defined.

(* ################################################################# *)
(** * The text processing of the other scripts *)

(* ================================================================= *)
(** ** Lemmas on the text operations *)

Section TextFacts.

Lemma lstrip_idem (s : string) : Doc.lstrip (Doc.lstrip s) = Doc.lstrip s.
Proof.
  induction s as [|c s IH]; simpl; [reflexivity|].
  destruct (Doc.is_space c) eqn:E; [exact IH|]. simpl. now rewrite E.
Qed.

Lemma split_words_nil (cur s : string) :
  Doc.split_words cur s = [] -> cur = "" /\ Doc.lstrip s = "".
Proof.
  revert cur. induction s as [|c s IH]; intros cur; simpl.
  - destruct (String.eqb_spec cur ""); [auto|discriminate].
  - destruct (Doc.is_space c).
    + destruct (String.eqb_spec cur ""); [|discriminate].
      intros H. apply IH in H as [_ H]. auto.
    + intros H. apply IH in H as [H _]. destruct cur; discriminate.
Qed.

Lemma last_item_none {A : Type} (l : list A) : Doc.last_item l = None <-> l = [].
Proof.
  unfold Doc.last_item. split.
  - destruct (rev l) eqn:E; [|discriminate]. intros _.
    apply (f_equal (@rev A)) in E. now rewrite rev_involutive in E.
  - now intros ->.
Qed.

(** [param.strip().split()] is empty exactly for a blank parameter. *)
Lemma no_word_iff_blank (param : string) :
  Doc.last_item (Doc.split_ws (Doc.strip param)) = None <-> Doc.strip param = "".
Proof.
  rewrite last_item_none. split.
  - intros H. apply split_words_nil in H as [_ H].
    unfold Doc.strip in *. now rewrite lstrip_idem in H.
  - now intros ->.
Qed.

Lemma document_params_fails (doc : string) (params : list string) :
  Doc.document_params doc params = inr Doc.IndexError
  <-> exists p, In p params /\ Doc.strip p = "".
Proof.
  revert doc. induction params as [|param rest IH]; intros doc; simpl.
  - split; [discriminate|]. intros (p & [] & _).
  - destruct (Doc.last_item (Doc.split_ws (Doc.strip param))) as [word|] eqn:E.
    + rewrite IH. split.
      * intros (p & Hp & Hs). exists p. auto.
      * intros (p & [<-|Hp] & Hs).
        -- apply no_word_iff_blank in Hs. congruence.
        -- exists p. auto.
    + split; [|reflexivity]. intros _. exists param. split; [now left|].
      now apply no_word_iff_blank.
Qed.

End TextFacts.

(** X16.  [generate_documentation] (lines 32-49).  The call raises
    [IndexError] exactly when one of the parameters is blank, that is
    empty once stripped; otherwise it returns a comment. *)
Theorem blank_parameter_raises (func_name : string) (params : list string)
  (return_type : string) :
  (Doc.generate_documentation func_name params return_type = inr Doc.IndexError
   <-> exists p, In p params /\ Doc.strip p = "") /\
  ((forall p, In p params -> Doc.strip p <> "") ->
   exists doc, Doc.generate_documentation func_name params return_type = inl doc).
Proof.
  unfold Doc.generate_documentation.
  match goal with |- context [Doc.document_params ?d params] => set (doc0 := d) end.
  pose proof (document_params_fails doc0 params) as F.
  destruct (Doc.document_params doc0 params) as [doc|[]] eqn:E.
  - split.
    + split; [discriminate|]. intros H. apply F in H. discriminate.
    + intros _. eexists. reflexivity.
  - split.
    + split; [intros _; now apply F|reflexivity].
    + intros H. destruct (proj1 F eq_refl) as (p & Hp & Hs). elim (H p Hp Hs).
Qed.

Lemma blank_parameter_raises_witness :
  exists doc, Doc.generate_documentation "f" ["const T& x"; "int *p"] "int" = inl doc.
Proof.
  apply (proj2 (blank_parameter_raises "f" ["const T& x"; "int *p"] "int")).
  intros p [<-|[<-|[]]]; vm_compute; discriminate.
Defined.

Section ParameterFacts.

Lemma split_nonempty (c : ascii) (s : string) : Py.split c s <> [].
Proof.
  destruct s as [|a s]; simpl; [discriminate|].
  destruct (Ascii.eqb a c); [discriminate|]. destruct (Py.split c s); discriminate.
Qed.

(** The loop on a text without angle brackets, from any state with the
    count at zero. *)
Lemma fold_param_step_plain (s : string) :
  has_char "<" s = false -> has_char ">" s = false ->
  forall (params : list string) (cur : string),
    fold_left Doc.param_step (list_ascii_of_string s) (params, cur, 0%Z)
    = match Py.split "," s with
      | h :: t =>
          (params ++ map Doc.strip (removelast ((cur ++ h)%string :: t)),
           last ((cur ++ h)%string :: t) "", 0%Z)
      | [] => (params, cur, 0%Z)
      end.
Proof.
  induction s as [|a s IH]; intros Hl Hg params cur.
  - simpl. now rewrite app_nil_r, append_empty_r.
  - apply has_char_cons in Hl as [Hal Hl]. apply has_char_cons in Hg as [Hag Hg].
    cbn [list_ascii_of_string fold_left Py.split]. unfold Doc.param_step at 2.
    destruct (Ascii.eqb_spec a ",") as [->|Hc].
    + cbn [andb Z.eqb]. rewrite (IH Hl Hg).
      destruct (Py.split "," s) as [|h t] eqn:E; [now elim (split_nonempty "," s)|].
      rewrite append_empty_r. cbn [append removelast last map].
      now rewrite <- app_assoc.
    + cbn [andb]. rewrite Hal, Hag. rewrite (IH Hl Hg).
      destruct (Py.split "," s) as [|h t] eqn:E; [now elim (split_nonempty "," s)|].
      now rewrite append_assoc.
Qed.

(** The loop on a text without angle brackets and without commas. *)
Lemma fold_param_step_word (s : string) (n : Z) :
  has_char "<" s = false -> has_char ">" s = false ->
  has_char "," s = false \/ n <> 0%Z ->
  forall (params : list string) (cur : string),
    fold_left Doc.param_step (list_ascii_of_string s) (params, cur, n)
    = (params, (cur ++ s)%string, n).
Proof.
  induction s as [|a s IH]; intros Hl Hg Hc params cur.
  - simpl. now rewrite append_empty_r.
  - apply has_char_cons in Hl as [Hal Hl]. apply has_char_cons in Hg as [Hag Hg].
    cbn [list_ascii_of_string fold_left]. unfold Doc.param_step at 2.
    assert (E : Ascii.eqb a "," && Z.eqb n 0 = false).
    { destruct Hc as [Hc|Hn].
      - apply has_char_cons in Hc as [Hc _]. now rewrite Hc.
      - apply Z.eqb_neq in Hn. rewrite Hn. apply andb_false_r. }
    rewrite E, Hal, Hag. rewrite IH; trivial.
    + now rewrite append_assoc.
    + destruct Hc as [Hc|Hn]; [left|now right]. now apply has_char_cons in Hc.
Qed.

Lemma list_ascii_app (a b : string) :
  list_ascii_of_string (a ++ b) = list_ascii_of_string a ++ list_ascii_of_string b.
Proof. induction a as [|c a IH]; simpl; [reflexivity|]. now rewrite IH. Qed.

End ParameterFacts.

(** X17.  The parameters of a declaration (lines 100-116), when the
    text holds no angle bracket.  The loop is a split at the commas,
    every piece stripped; the text after the last comma counts as a
    parameter only when it is not empty. *)
Theorem parameters_are_split_at_commas (params_str : string) :
  has_char "<" params_str = false -> has_char ">" params_str = false ->
  Doc.parse_parameters params_str
  = map Doc.strip
      (if String.eqb (last (Py.split "," params_str) "") ""
       then removelast (Py.split "," params_str)
       else Py.split "," params_str).
Proof.
  intros Hl Hg. unfold Doc.parse_parameters.
  destruct (String.eqb_spec params_str "") as [->|Hne]; [reflexivity|].
  rewrite (fold_param_step_plain params_str Hl Hg).
  destruct (Py.split "," params_str) as [|h t] eqn:E;
    [now elim (split_nonempty "," params_str)|].
  cbn [append app].
  destruct (String.eqb (last (h :: t) "") ""); [reflexivity|].
  rewrite (app_removelast_last "" (l := h :: t)) at 3 by discriminate.
  now rewrite map_app.
Qed.

Lemma parameters_are_split_at_commas_witness :
  Doc.parse_parameters "int a, const T& b,"
  = map Doc.strip
      (if String.eqb (last (Py.split "," "int a, const T& b,") "") ""
       then removelast (Py.split "," "int a, const T& b,")
       else Py.split "," "int a, const T& b,").
Proof.
  apply (parameters_are_split_at_commas "int a, const T& b,"); reflexivity.
Defined.

(** X18.  The count of angle brackets (lines 103-114).  The commas
    between a [<] and its [>] do not end a parameter; and after a [>]
    with no [<] before it the count is below zero, so that no comma
    ends a parameter any more. *)
Theorem angle_brackets_hold_commas (a b c : string) :
  has_char "<" a = false -> has_char ">" a = false -> has_char "," a = false ->
  has_char "<" b = false -> has_char ">" b = false ->
  has_char "<" c = false -> has_char ">" c = false ->
  (has_char "," c = false ->
   Doc.parse_parameters (a ++ "<" ++ b ++ ">" ++ c)
   = [Doc.strip (a ++ "<" ++ b ++ ">" ++ c)]) /\
  Doc.parse_parameters (a ++ ">" ++ c) = [Doc.strip (a ++ ">" ++ c)].
Proof.
  intros Hal Hag Hac Hbl Hbg Hcl Hcg.
  assert (Hne1 : forall x y : string, String.eqb (x ++ String ">" y) "" = false).
  { intros x y. destruct x; reflexivity. }
  split.
  - intros Hcc. unfold Doc.parse_parameters.
    change (a ++ "<" ++ b ++ ">" ++ c)%string
      with (a ++ String "<" (b ++ String ">" c))%string.
    assert (Hne : String.eqb (a ++ String "<" (b ++ String ">" c)) "" = false)
      by (destruct a; reflexivity).
    rewrite Hne, list_ascii_app.
    rewrite fold_left_app, (fold_param_step_word a 0 Hal Hag (or_introl Hac)).
    cbn [list_ascii_of_string fold_left]. unfold Doc.param_step at 2.
    cbn [Ascii.eqb Bool.eqb andb]. rewrite list_ascii_app, fold_left_app.
    rewrite (fold_param_step_word b 1 Hbl Hbg) by (right; discriminate).
    cbn [list_ascii_of_string fold_left]. unfold Doc.param_step at 2.
    cbn [Ascii.eqb Bool.eqb andb].
    change (1 - 1)%Z with 0%Z.
    rewrite (fold_param_step_word c 0 Hcl Hcg (or_introl Hcc)).
    rewrite !append_assoc. cbn [append].
    rewrite Hne. reflexivity.
  - unfold Doc.parse_parameters.
    change (a ++ ">" ++ c)%string with (a ++ String ">" c)%string.
    rewrite Hne1, list_ascii_app.
    rewrite fold_left_app, (fold_param_step_word a 0 Hal Hag (or_introl Hac)).
    cbn [list_ascii_of_string fold_left]. unfold Doc.param_step at 2.
    cbn [Ascii.eqb Bool.eqb andb].
    rewrite (fold_param_step_word c (0 - 1) Hcl Hcg) by (right; discriminate).
    rewrite !append_assoc. cbn [append]. rewrite Hne1. reflexivity.
Qed.

Lemma angle_brackets_hold_commas_witness :
  Doc.parse_parameters ("std::map" ++ "<" ++ "int, int" ++ ">" ++ " m")
  = [Doc.strip ("std::map" ++ "<" ++ "int, int" ++ ">" ++ " m")].
Proof.
  apply (proj1 (angle_brackets_hold_commas "std::map" "int, int" " m"
                  eq_refl eq_refl eq_refl eq_refl eq_refl eq_refl eq_refl)).
  reflexivity.
Defined.

Section CommentFacts.

Lemma has_char_String (c a : ascii) (s : string) :
  has_char c (String a s) = Ascii.eqb a c || has_char c s.
Proof.
  unfold has_char. simpl. destruct (Py.rfind c s); [now rewrite orb_true_r|].
  now destruct (Ascii.eqb a c).
Qed.

Lemma has_char_app (c : ascii) (a b : string) :
  has_char c (a ++ b) = has_char c a || has_char c b.
Proof.
  induction a as [|x a IH]; [reflexivity|].
  cbn [append]. rewrite !has_char_String, IH. apply orb_assoc.
Qed.

Lemma has_char_lstrip (c : ascii) (s : string) :
  has_char c s = false -> has_char c (Doc.lstrip s) = false.
Proof.
  induction s as [|a s IH]; [trivial|]. intros H. simpl.
  destruct (Doc.is_space a); [|exact H].
  apply IH. now apply has_char_cons in H.
Qed.

Lemma has_char_rstrip (c : ascii) (s : string) :
  has_char c s = false -> has_char c (Doc.rstrip s) = false.
Proof.
  induction s as [|a s IH]; [trivial|]. intros H.
  apply has_char_cons in H as [Ha Hs]. specialize (IH Hs). simpl.
  destruct (Doc.rstrip s) as [|b r].
  - destruct (Doc.is_space a); [reflexivity|]. now rewrite has_char_String, Ha.
  - now rewrite has_char_String, Ha, IH.
Qed.

Lemma has_char_remove (c d : ascii) (s : string) :
  has_char c s = false -> has_char c (Doc.remove_char d s) = false.
Proof.
  induction s as [|a s IH]; [trivial|]. intros H.
  apply has_char_cons in H as [Ha Hs]. specialize (IH Hs). simpl.
  destruct (Ascii.eqb a d); [exact IH|]. now rewrite has_char_String, Ha, IH.
Qed.

Lemma has_char_split_words (c : ascii) (s cur w : string) :
  has_char c cur = false -> has_char c s = false ->
  In w (Doc.split_words cur s) -> has_char c w = false.
Proof.
  revert cur. induction s as [|a s IH]; intros cur Hcur Hs; simpl.
  - destruct (String.eqb cur ""); [intros []|]. intros [<-|[]]. exact Hcur.
  - apply has_char_cons in Hs as [Ha Hs].
    destruct (Doc.is_space a).
    + destruct (String.eqb cur "").
      * now apply IH.
      * intros [<-|H]; [exact Hcur|]. now apply (IH "").
    + apply IH; [|exact Hs]. rewrite has_char_app, Hcur, has_char_String, Ha. reflexivity.
Qed.

Lemma last_item_in {A : Type} (l : list A) (x : A) : Doc.last_item l = Some x -> In x l.
Proof.
  unfold Doc.last_item. destruct (rev l) as [|y r] eqn:E; [discriminate|].
  intros [= <-]. apply in_rev. rewrite E. now left.
Qed.

Lemma count_char_app (c : ascii) (a b : string) :
  Doc.count_char c (a ++ b) = Doc.count_char c a + Doc.count_char c b.
Proof. induction a as [|x a IH]; simpl; [reflexivity|]. rewrite IH. lia. Qed.

Lemma length_split (c : ascii) (s : string) :
  List.length (Py.split c s) = S (Doc.count_char c s).
Proof.
  induction s as [|a s IH]; [reflexivity|]. simpl.
  destruct (Ascii.eqb a c); simpl; [now rewrite IH|].
  destruct (Py.split c s); simpl in *; lia.
Qed.

(** The text the loop over the parameters adds: a line for every
    parameter, and no slash when the parameters hold none. *)
Lemma document_params_text (doc doc' : string) (params : list string) :
  (forall p, In p params -> has_char "/" p = false) ->
  Doc.document_params doc params = inl doc' ->
  exists mid, doc' = (doc ++ mid)%string /\ has_char "/" mid = false /\
              List.length params <= Doc.count_char (ascii_of_nat 10) mid.
Proof.
  revert doc. induction params as [|param rest IH]; intros doc Hp; cbn [Doc.document_params].
  - intros [= <-]. exists "". rewrite append_empty_r. repeat split. simpl. lia.
  - destruct (Doc.last_item (Doc.split_ws (Doc.strip param))) as [word|] eqn:E; [|discriminate].
    intros H. apply IH in H as (mid & -> & Hm & Hn); [|intros p Hin; apply Hp; now right].
    assert (Hw : has_char "/" (Doc.remove_char "*" (Doc.remove_char "&" word)) = false).
    { do 2 apply has_char_remove. apply last_item_in in E.
      apply (has_char_split_words "/" (Doc.strip param) "" word); trivial.
      unfold Doc.strip. apply has_char_lstrip, has_char_rstrip. apply Hp. now left. }
    set (name := Doc.remove_char "*" (Doc.remove_char "&" word)) in *.
    exists (" * @param " ++ name ++ " Description of " ++ name ++ nl ++ mid)%string.
    split; [|split].
    + now rewrite !append_assoc.
    + rewrite !has_char_app, Hw, Hm. reflexivity.
    + rewrite !count_char_app. change (Doc.count_char (ascii_of_nat 10) nl) with 1.
      cbn [List.length]. lia.
Qed.

Lemma rstrip_app (x y : string) :
  Doc.rstrip y <> "" -> Doc.rstrip (x ++ y) = (x ++ Doc.rstrip y)%string.
Proof.
  intros H. induction x as [|a x IH]; [reflexivity|].
  cbn [append Doc.rstrip]. rewrite IH.
  destruct (x ++ Doc.rstrip y)%string eqn:E; [|reflexivity].
  destruct x; [|discriminate]. simpl in E. contradiction.
Qed.

(** A text whose only slash is its last character holds no comment
    marker. *)
Lemma no_marker_before_last_slash (a b : ascii) (rest mid : string) :
  has_char "/" mid = false ->
  Doc.contains (String "/" (String a (String b rest))) (mid ++ "/") = false.
Proof.
  induction mid as [|x mid IH]; intros H; [reflexivity|].
  apply has_char_cons in H as [Hx H]. cbn [append Doc.contains String.prefix].
  rewrite (IH H). destruct (Ascii.ascii_dec "/" x) as [<-|_]; [discriminate|reflexivity].
Qed.

Lemma split_head_prefix (c : ascii) (s : string) :
  String.prefix (hd "" (Py.split c s)) s = true.
Proof.
  induction s as [|a s IH]; [reflexivity|]. simpl.
  destruct (Ascii.eqb a c); [reflexivity|].
  destruct (Py.split c s) as [|h t]; simpl in *.
  - destruct (Ascii.ascii_dec a a); [apply prefix_empty|congruence].
  - destruct (Ascii.ascii_dec a a); [exact IH|congruence].
Qed.

Lemma contains_empty (s : string) : Doc.contains "" s = true.
Proof. destruct s; reflexivity. Qed.

(** What a line of a text contains the text contains. *)
Lemma contains_line (c : ascii) (sub s line : string) :
  In line (Py.split c s) -> Doc.contains sub line = true -> Doc.contains sub s = true.
Proof.
  revert line. induction s as [|a s IH]; intros line.
  - simpl. intros [<-|[]]. trivial.
  - cbn [Py.split]. destruct (Ascii.eqb a c).
    + intros [<-|Hin] Hc.
      * destruct sub; [apply contains_empty|discriminate].
      * cbn [Doc.contains]. rewrite (IH line Hin Hc). apply orb_true_r.
    + pose proof (split_head_prefix c s) as Hp.
      destruct (Py.split c s) as [|h t].
      * intros [<-|[]] Hc. simpl in Hp. cbn [Doc.contains] in *.
        apply orb_prop in Hc as [Hc|Hc].
        -- destruct sub as [|b sub]; [reflexivity|]. simpl in Hc.
           destruct (Ascii.ascii_dec b a); [|discriminate].
           destruct sub; [|discriminate]. simpl.
           destruct (Ascii.ascii_dec b a); [|contradiction].
           now destruct s.
        -- destruct sub; [now rewrite contains_empty, orb_true_r|discriminate].
      * simpl in Hp. intros [<-|Hin] Hc.
        -- cbn [Doc.contains] in *. apply orb_prop in Hc as [Hc|Hc].
           ++ assert (E : String.prefix sub (String a s) = true).
              { apply (prefix_trans sub (String a h)); [exact Hc|].
                simpl. destruct (Ascii.ascii_dec a a); [exact Hp|congruence]. }
              now rewrite E.
           ++ rewrite (IH h (or_introl eq_refl) Hc). apply orb_true_r.
        -- cbn [Doc.contains]. rewrite (IH line (or_intror Hin) Hc). apply orb_true_r.
Qed.

End CommentFacts.

Section OwnComment.

(** The comment generated, stripped: the opening line, then a text
    that ends in the slash of the closing line and holds no other. *)
Lemma generated_comment_shape (func_name : string) (params : list string)
  (return_type doc : string) :
  Doc.generate_documentation func_name params return_type = inl doc ->
  has_char "/" func_name = false ->
  (forall p, In p params -> has_char "/" p = false) ->
  exists t,
    Doc.rstrip doc = ("/**" ++ String (ascii_of_nat 10) (t ++ "/"))%string /\
    has_char "/" t = false /\
    2 + List.length params
    + (if negb (String.eqb return_type "") && negb (String.eqb (Doc.strip return_type) "void")
       then 2 else 0)
    <= Doc.count_char (ascii_of_nat 10) t.
Proof.
  intros H Hf Hp. unfold Doc.generate_documentation in H.
  match type of H with context [Doc.document_params ?d params] => set (doc0 := d) in * end.
  destruct (Doc.document_params doc0 params) as [doc1|e] eqn:E; [|discriminate].
  destruct (document_params_text doc0 doc1 params Hp E) as (mid & -> & Hm & Hn).
  injection H as <-.
  set (returns := negb (String.eqb return_type "")
                  && negb (String.eqb (Doc.strip return_type) "void")).
  set (ret := if returns
              then (" *" ++ nl ++ " * @return Description of return value" ++ nl)%string
              else "").
  exists (" * @brief " ++ func_name ++ nl ++ " *" ++ nl ++ mid ++ ret ++ " *")%string.
  split; [|split].
  - match goal with
    | |- Doc.rstrip ?d = _ =>
        assert (Ed : d = (("/**" ++ String (ascii_of_nat 10)
                             (" * @brief " ++ func_name ++ nl ++ " *" ++ nl ++ mid ++ ret
                              ++ " *"))
                          ++ String "/" nl)%string)
    end.
    { subst ret doc0. unfold nl. destruct returns; rewrite !append_assoc; cbn [append];
        rewrite ?append_assoc; cbn [append]; rewrite ?append_assoc; reflexivity. }
    rewrite Ed. rewrite rstrip_app by (vm_compute; discriminate).
    change (Doc.rstrip (String "/" nl)) with "/". reflexivity.
  - subst ret. unfold nl. destruct returns;
      rewrite !has_char_app, Hf, Hm; reflexivity.
  - subst ret. unfold nl. destruct returns; rewrite !count_char_app; simpl; lia.
Qed.

End OwnComment.

(** X19.  [generate_documentation] (lines 32-49) against the test for
    a comment already there (lines 122-126).  The test looks at the
    five lines above the declaration.  When neither the name of the
    function nor a parameter holds a slash, the comment the script
    generates for a declaration with a return type other than [void],
    or with two parameters or more, has six lines or more, and only the
    first of them holds a comment marker: placed right above the
    declaration it is not found, so that the declaration counts as
    undocumented. *)
Theorem own_comment_is_not_seen (func_name : string) (params : list string)
  (return_type doc : string) (pre post : list string) :
  Doc.generate_documentation func_name params return_type = inl doc ->
  has_char "/" func_name = false ->
  (forall p, In p params -> has_char "/" p = false) ->
  2 <= List.length params \/ (return_type <> "" /\ Doc.strip return_type <> "void") ->
  Doc.has_doc (pre ++ Py.split (ascii_of_nat 10) (Doc.rstrip doc) ++ post)
    (List.length pre + List.length (Py.split (ascii_of_nat 10) (Doc.rstrip doc)))
  = false.
Proof.
  intros H Hf Hp Hlong.
  destruct (generated_comment_shape func_name params return_type doc H Hf Hp)
    as (t & -> & Ht & Hn).
  rewrite (split_app_sep (ascii_of_nat 10) "/**" (t ++ "/")) by reflexivity.
  set (tl := Py.split (ascii_of_nat 10) (t ++ "/")).
  assert (Hlen : 5 <= List.length tl).
  { subst tl. rewrite length_split, count_char_app.
    destruct Hlong as [Hl|[Hr Hv]].
    - lia.
    - apply String.eqb_neq in Hr, Hv. rewrite Hr, Hv in Hn. simpl in Hn. lia. }
  unfold Doc.has_doc. apply not_true_is_false. intros Hex.
  apply existsb_exists in Hex as (i & Hi & Hex). apply in_seq in Hi.
  cbn [List.length] in Hi.
  apply andb_prop in Hex as [_ Hex].
  assert (Hnth : nth i (pre ++ ("/**" :: tl) ++ post) ""
                 = nth (i - S (List.length pre)) tl "").
  { rewrite app_nth2 by lia. cbn [app].
    replace (i - List.length pre) with (S (i - S (List.length pre))) by lia.
    cbn [nth]. apply app_nth1. cbn [List.length] in *. lia. }
  rewrite Hnth in Hex.
  assert (Hin : In (nth (i - S (List.length pre)) tl "") tl).
  { apply nth_In. cbn [List.length] in *. lia. }
  apply orb_prop in Hex as [Hex|Hex];
    apply (contains_line (ascii_of_nat 10) _ (t ++ "/") _ Hin) in Hex;
    now rewrite (no_marker_before_last_slash _ _ _ t Ht) in Hex.
Qed.

Lemma own_comment_is_not_seen_witness :
  let doc := match Doc.generate_documentation "size" [] "int" with
             | inl doc => doc
             | inr _ => ""
             end in
  Doc.has_doc (["#pragma once"] ++ Py.split (ascii_of_nat 10) (Doc.rstrip doc)
               ++ ["int size();"; ""])
    (List.length ["#pragma once"]
     + List.length (Py.split (ascii_of_nat 10) (Doc.rstrip doc)))
  = false.
Proof.
  apply (own_comment_is_not_seen "size" [] "int" _ ["#pragma once"] ["int size();"; ""]).
  - reflexivity.
  - reflexivity.
  - intros p [].
  - right. split; vm_compute; discriminate.
Defined.

(** With a slash the parameter can bring a marker of its own into the
    comment, and the test finds it. *)
Example marker_in_parameter_is_seen :
  let doc := match Doc.generate_documentation "f" (Doc.parse_parameters "int a ///x, int b")
                     "void" with
             | inl doc => doc
             | inr _ => ""
             end in
  Doc.has_doc (Py.split (ascii_of_nat 10) (Doc.rstrip doc) ++ ["void f(int a, int b);"])
    (List.length (Py.split (ascii_of_nat 10) (Doc.rstrip doc)))
  = true.
Proof. vm_compute. reflexivity. Qed.

Section InsertFacts.

Lemma nth_error_insert {A : Type} (i : nat) (x : A) (l : list A) (j : nat) :
  i <= List.length l ->
  nth_error (Doc.list_insert i x l) j
  = if j <? i then nth_error l j
    else if j =? i then Some x else nth_error l (j - 1).
Proof.
  unfold Doc.list_insert. revert l j. induction i as [|i IH]; intros l j Hi.
  - simpl. destruct j as [|j]; [reflexivity|]. simpl. now rewrite Nat.sub_0_r.
  - destruct l as [|a l]; [simpl in Hi; lia|]. simpl in Hi.
    destruct j as [|j]; [reflexivity|].
    cbn [firstn skipn app nth_error]. rewrite IH by lia.
    change (S j <? S i) with (j <? i). change (S j =? S i) with (j =? i).
    destruct (j <? i) eqn:E1; [reflexivity|].
    destruct (j =? i) eqn:E2; [reflexivity|].
    apply Nat.ltb_ge in E1. apply Nat.eqb_neq in E2.
    destruct j as [|j]; [lia|]. simpl. now rewrite Nat.sub_0_r.
Qed.

Lemma length_insert {A : Type} (i : nat) (x : A) (l : list A) :
  List.length (Doc.list_insert i x l) = S (List.length l).
Proof.
  unfold Doc.list_insert. rewrite length_app. cbn [List.length].
  rewrite Nat.add_succ_r, <- length_app, firstn_skipn. reflexivity.
Qed.

Lemma count_char_prefix (c : ascii) (n : nat) (s : string) :
  Doc.count_char c (substring 0 n s) <= Doc.count_char c s.
Proof.
  revert n. induction s as [|a s IH]; intros [|n]; simpl; try lia.
  specialize (IH n). lia.
Qed.

(** A declaration starts on a line of the text. *)
Lemma func_start_line_bound (content : string) (m : Doc.rmatch) :
  Doc.func_start_line content m < List.length (Py.split (ascii_of_nat 10) content).
Proof.
  rewrite length_split. unfold Doc.func_start_line, Py.slice_to.
  pose proof (count_char_prefix (ascii_of_nat 10) (Doc.mstart m) content). lia.
Qed.

Lemma document_matches_app (filename filepath content : string) (lines : list string)
  (ms1 ms2 : list Doc.rmatch) (st : Doc.doc_state) :
  Doc.document_matches filename filepath content lines (ms1 ++ ms2) st
  = match Doc.document_matches filename filepath content lines ms1 st with
    | inl st' => Doc.document_matches filename filepath content lines ms2 st'
    | inr e => inr e
    end.
Proof.
  revert st. induction ms1 as [|m ms1 IH]; intros st; [reflexivity|].
  cbn [app Doc.document_matches].
  destruct (Doc.document_match filename filepath content lines st m); [apply IH|reflexivity].
Qed.

Lemma insert_positions_app (filename content : string) (ms : list Doc.rmatch)
  (m : Doc.rmatch) :
  insert_positions filename content (ms ++ [m])
  = insert_positions filename content ms
    ++ (if gets_comment filename content m then [Doc.func_start_line content m] else []).
Proof.
  unfold insert_positions. rewrite filter_app, map_app. cbn [filter].
  now destruct (gets_comment filename content m).
Qed.

Lemma sorted_snoc (l : list nat) (x : nat) :
  StronglySorted lt (l ++ [x]) -> StronglySorted lt l /\ Forall (fun p => p < x) l.
Proof.
  induction l as [|a l IH]; intros H; [split; constructor|].
  cbn [app] in H. apply StronglySorted_inv in H as [H1 H2].
  destruct (IH H1) as [S1 F1]. split.
  - constructor; [exact S1|]. apply Forall_app in H2. tauto.
  - constructor; [|exact F1]. apply Forall_app in H2 as [_ H2]. now inversion H2.
Qed.

(** One turn of the loop: the state stays, or a comment goes in at the
    line number of the declaration. *)
Lemma document_match_cases (filename filepath content : string) (st st' : Doc.doc_state)
  (m : Doc.rmatch) :
  Doc.document_match filename filepath content (Py.split (ascii_of_nat 10) content) st m
  = inl st' ->
  if gets_comment filename content m
  then exists doc,
      Doc.generate_documentation (Doc.strip (Doc.group2 m))
        (Doc.parse_parameters (Doc.strip (Doc.group3 m))) (Doc.strip (Doc.group1 m))
      = inl doc /\
      st' = (Doc.list_insert (Doc.func_start_line content m) (Doc.rstrip doc) (fst (fst st)),
             true,
             snd st ++ [("In " ++ filepath ++ ":")%string;
                        ("  Adding documentation for function: "
                         ++ Doc.strip (Doc.group2 m))%string])
  else st' = st.
Proof.
  destruct st as [[M c] out]. unfold Doc.document_match, gets_comment.
  destruct (Doc.is_ctor_or_dtor filename m); [now intros [= <-]|].
  destruct (Doc.has_doc _ _); [now intros [= <-]|].
  cbn [negb andb].
  destruct (Doc.generate_documentation _ _ _) as [doc|e]; [|discriminate].
  intros [= <-]. exists doc. split; reflexivity.
Qed.

(** After the matches, when the comments went in at increasing line
    numbers: below the last comment the lines are those of the text,
    moved down by the number of comments. *)
Lemma lines_below_the_comments (filename filepath content : string) (ms : list Doc.rmatch)
  (st : Doc.doc_state) :
  let lines := Py.split (ascii_of_nat 10) content in
  Doc.document_matches filename filepath content lines ms (lines, false, []) = inl st ->
  StronglySorted lt (insert_positions filename content ms) ->
  List.length (fst (fst st))
  = List.length lines + List.length (insert_positions filename content ms) /\
  forall idx,
    Forall (fun p => p < idx) (insert_positions filename content ms) ->
    nth_error (fst (fst st)) idx
    = nth_error lines (idx - List.length (insert_positions filename content ms)).
Proof.
  intros lines. revert st. induction ms as [|m ms IH] using rev_ind; intros st H Hs.
  - injection H as <-. cbn [fst insert_positions filter map List.length].
    split; [lia|]. intros idx _. now rewrite Nat.sub_0_r.
  - rewrite document_matches_app in H.
    destruct (Doc.document_matches filename filepath content lines ms (lines, false, []))
      as [st0|e] eqn:E0; [|discriminate].
    cbn [Doc.document_matches] in H.
    destruct (Doc.document_match filename filepath content lines st0 m) as [st1|e] eqn:E1;
      [|discriminate].
    injection H as <-. apply document_match_cases in E1.
    rewrite insert_positions_app in *.
    destruct (gets_comment filename content m).
    + destruct E1 as (doc & _ & ->). cbn [fst].
      apply sorted_snoc in Hs as [Hs Hlt].
      destruct (IH st0 eq_refl Hs) as [L0 N0].
      pose proof (func_start_line_bound content m) as Hb. fold lines in Hb.
      rewrite length_insert, length_app. cbn [List.length]. split; [lia|].
      intros idx Hidx. apply Forall_app in Hidx as [Hidx Hp].
      inversion Hp as [|? ? Hp' _]; subst.
      rewrite nth_error_insert by lia.
      destruct (idx <? Doc.func_start_line content m) eqn:C1;
        [apply Nat.ltb_lt in C1; lia|].
      destruct (idx =? Doc.func_start_line content m) eqn:C2;
        [apply Nat.eqb_eq in C2; lia|].
      rewrite N0.
      * f_equal. lia.
      * apply (Forall_impl _ (P := fun p => p < Doc.func_start_line content m));
          [intros p Hlp; lia|exact Hlt].
    + subst st1. rewrite app_nil_r in *. now apply IH.
Qed.

End InsertFacts.

(** X20.  The insertion of the comments (lines 83-134).  Every comment
    is inserted into [modified_lines] at the line number the
    declaration has in the text as it was read, although the comments
    inserted before have moved the lines down.  When the line numbers
    increase, the comment of a declaration at line [l], inserted after
    [k] others, goes in at index [l]; the line right below it is line
    [l - k] of the text, and the line of the declaration is [k] lines
    further down. *)
Theorem comment_goes_in_at_the_old_line_number (filename filepath content : string)
  (ms : list Doc.rmatch) (m : Doc.rmatch) (st : Doc.doc_state) (doc : string) :
  let lines := Py.split (ascii_of_nat 10) content in
  let l := Doc.func_start_line content m in
  let k := List.length (insert_positions filename content ms) in
  Doc.document_content filename filepath content ms = inl st ->
  gets_comment filename content m = true ->
  Doc.generate_documentation (Doc.strip (Doc.group2 m))
    (Doc.parse_parameters (Doc.strip (Doc.group3 m))) (Doc.strip (Doc.group1 m))
  = inl doc ->
  StronglySorted lt (insert_positions filename content ms ++ [l]) ->
  exists modified_lines out,
    Doc.document_content filename filepath content (ms ++ [m])
    = inl (modified_lines, true, out) /\
    nth_error modified_lines l = Some (Doc.rstrip doc) /\
    nth_error modified_lines (S l) = nth_error lines (l - k) /\
    nth_error modified_lines (S l + k) = nth_error lines l.
Proof.
  intros lines l k H Hg Hd Hs. unfold Doc.document_content in *. fold lines in H |- *.
  apply sorted_snoc in Hs as [Hs Hlt].
  destruct (lines_below_the_comments filename filepath content ms st H Hs) as [L0 N0].
  fold lines in L0, N0. fold k in L0, N0.
  rewrite document_matches_app, H. cbn [Doc.document_matches].
  destruct st as [[M c] out]. cbn [fst] in *.
  unfold Doc.document_match, gets_comment in *. fold lines in Hg.
  apply andb_prop in Hg as [Hg1 Hg2].
  apply negb_true_iff in Hg1, Hg2. fold l in Hg2. rewrite Hg1. fold l. rewrite Hg2, Hd.
  pose proof (func_start_line_bound content m) as Hb. fold lines l in Hb.
  eexists. eexists. split; [reflexivity|].
  rewrite !nth_error_insert by lia.
  rewrite Nat.ltb_irrefl, Nat.eqb_refl.
  split; [reflexivity|].
  replace (S l <? l) with false by (symmetry; apply Nat.ltb_ge; lia).
  replace (S l =? l) with false by (symmetry; apply Nat.eqb_neq; lia).
  replace (S l + k <? l) with false by (symmetry; apply Nat.ltb_ge; lia).
  replace (S l + k =? l) with false by (symmetry; apply Nat.eqb_neq; lia).
  split.
  - replace (S l - 1) with l by lia. apply N0. exact Hlt.
  - replace (S l + k - 1) with (l + k) by lia. rewrite N0.
    + f_equal. lia.
    + apply (Forall_impl _ (P := fun p => p < l)); [intros p Hp; lia|exact Hlt].
Qed.

Lemma comment_goes_in_at_the_old_line_number_witness :
  let content := ("int f();" ++ nl ++ "int g(int a);" ++ nl)%string in
  let f := {| Doc.group1 := "int "; Doc.group2 := "f"; Doc.group3 := ""; Doc.mstart := 0 |} in
  let g := {| Doc.group1 := "int "; Doc.group2 := "g"; Doc.group3 := "int a";
              Doc.mstart := 9 |} in
  let doc := match Doc.generate_documentation "g" ["int a"] "int" with
             | inl doc => doc
             | inr _ => ""
             end in
  exists modified_lines out,
    Doc.document_content "foo.hpp" "/r/foo.hpp" content ([f] ++ [g])
    = inl (modified_lines, true, out) /\
    nth_error modified_lines 1 = Some (Doc.rstrip doc) /\
    nth_error modified_lines 2 = nth_error (Py.split (ascii_of_nat 10) content) (1 - 1) /\
    nth_error modified_lines (2 + 1) = nth_error (Py.split (ascii_of_nat 10) content) 1.
Proof.
  cbv zeta.
  apply (comment_goes_in_at_the_old_line_number "foo.hpp" "/r/foo.hpp"
           ("int f();" ++ nl ++ "int g(int a);" ++ nl)
           [{| Doc.group1 := "int "; Doc.group2 := "f"; Doc.group3 := ""; Doc.mstart := 0 |}]
           {| Doc.group1 := "int "; Doc.group2 := "g"; Doc.group3 := "int a";
              Doc.mstart := 9 |}
           (match Doc.document_content "foo.hpp" "/r/foo.hpp"
                    ("int f();" ++ nl ++ "int g(int a);" ++ nl)
                    [{| Doc.group1 := "int "; Doc.group2 := "f"; Doc.group3 := "";
                        Doc.mstart := 0 |}] with
            | inl st => st
            | inr _ => ([], false, [])
            end)).
  - reflexivity.
  - reflexivity.
  - reflexivity.
  - vm_compute. repeat constructor.
Defined.

(** X21.  [header_map] of [update_hydra_math_includes.py] (lines 31-45)
    against the first pass of [convert_to_lowercase].  Every header of
    the table is a name the first pass renames, and the name the table
    gives it is the one the first pass renames it to. *)
Theorem header_map_agrees_with_renaming (root header_name replacement : string) :
  In (header_name, replacement) Includes.header_map ->
  plan_of root header_name
  = [(OsPath.join root header_name, OsPath.join root replacement)].
Proof.
  unfold Includes.header_map. intros H.
  repeat (destruct H as [[= <- <-]|H]; [reflexivity|]). destruct H.
Qed.

Lemma header_map_agrees_with_renaming_witness :
  plan_of "/r/include/hydra_math" "BigInt.hpp"
  = [(OsPath.join "/r/include/hydra_math" "BigInt.hpp",
      OsPath.join "/r/include/hydra_math" "bigint.hpp")].
Proof.
  apply (header_map_agrees_with_renaming "/r/include/hydra_math" "BigInt.hpp" "bigint.hpp").
  left. reflexivity.
Defined.
